(** * bono-core: sandbox profile compiler, denial classifier and the
      tool-calling conversation loop

    A shallow embedding of the Go package [core] of webforspeed/bono-core.
    Go strings are byte strings and are modelled by [string] (a list of
    8-bit [ascii]); [len] is [String.length].  External effects (child
    processes, the model round-trip, the caller's hooks) are functions of an
    abstract [World]; the embedding threads an explicit state through them
    and records what it does in an event trace. *)

From stdpp Require Import gmap strings list.
From Stdlib Require Import ZArith Ascii String Bool Lia.

Set Warnings "-register-all".
#[local] Arguments String.append !_ _ / : simpl nomatch.
Local Open Scope string_scope.
Local Open Scope list_scope.

(* ===================================================================== *)
(** * Part I: definitions                                                 *)
(* ===================================================================== *)

(** ** The Go standard library's [strings] functions used by the package *)

Module GoStrings.

(** The two bytes that cannot be written inside a string literal here. *)
Definition nl : string := String (ascii_of_nat 10) EmptyString.
Definition dq : string := String (ascii_of_nat 34) EmptyString.

(** [strings.HasPrefix(s, prefix)] *)
Fixpoint HasPrefix (s p : string) {struct p} : bool :=
  match p with
  | EmptyString => true
  | String a p' =>
      match s with
      | EmptyString => false
      | String b s' => if Ascii.eqb a b then HasPrefix s' p' else false
      end
  end.

(** [strings.Contains(s, substr)]: some suffix of [s] starts with
    [substr]; the empty string is contained in every string. *)
Fixpoint Contains (s sub : string) : bool :=
  HasPrefix s sub ||
  match s with
  | EmptyString => false
  | String _ s' => Contains s' sub
  end.

(** [c >= utf8.RuneSelf] fails for every byte of an ASCII-only string. *)
Fixpoint isASCII (s : string) : bool :=
  match s with
  | EmptyString => true
  | String c s' => (nat_of_ascii c <? 128)%nat && isASCII s'
  end.

Definition isUpper (c : ascii) : bool :=
  (65 <=? nat_of_ascii c)%nat && (nat_of_ascii c <=? 90)%nat.

Fixpoint hasUpper (s : string) : bool :=
  match s with
  | EmptyString => false
  | String c s' => isUpper c || hasUpper s'
  end.

(** [c += 'a' - 'A'] on the bytes ['A'..'Z']. *)
Definition lowerByte (c : ascii) : ascii :=
  if isUpper c then ascii_of_nat (nat_of_ascii c + 32) else c.

Fixpoint mapBytes (f : ascii -> ascii) (s : string) : string :=
  match s with
  | EmptyString => EmptyString
  | String c s' => String (f c) (mapBytes f s')
  end.

(** The Unicode tables of the Go runtime are not part of the package:
    [unicodeLower] stands for [strings.Map(unicode.ToLower, s)], the path
    [strings.ToLower] takes on a string with a byte [>= 0x80]. *)
Class Unicode := { unicodeLower : string -> string }.

(** [strings.ToLower(s)] *)
Definition ToLower `{Unicode} (s : string) : string :=
  if isASCII s then
    if hasUpper s then mapBytes lowerByte s else s
  else unicodeLower s.

(** [strings.Builder]: the buffer, and (ghost) the arguments of the
    [WriteString] calls in the order they were made. *)
Record Builder := mkBuilder { buf : string; written : list string }.

Definition newBuilder : Builder := mkBuilder "" [].

Definition WriteString (sb : Builder) (s : string) : Builder :=
  mkBuilder (buf sb +:+ s) (written sb ++ [s]).

Definition String_ (sb : Builder) : string := buf sb.

(** [s[n:]] for [n <= len(s)]. *)
Fixpoint dropBytes (n : nat) (s : string) : string :=
  match n, s with
  | S n', String _ s' => dropBytes n' s'
  | _, _ => s
  end.

(** [strings.SplitN(s, sep, 2)[1]] when [sep] occurs in [s]: what follows
    the first occurrence. *)
Fixpoint afterFirst (s sep : string) : option string :=
  if HasPrefix s sep then Some (dropBytes (String.length sep) s)
  else
    match s with
    | EmptyString => None
    | String _ s' => afterFirst s' sep
    end.

(** Concatenation of a list of strings, left to right. *)
Fixpoint join (l : list string) : string :=
  match l with
  | [] => ""
  | s :: l' => s +:+ join l'
  end.

End GoStrings.
Import GoStrings.

(** ** Errors *)

(** Modelled from the spec: the sentinel errors [ErrMaxTurnsExceeded] and
    [ErrEmptyResponse] (the spec's MaxTurnsExceeded and EmptyResponse), which
    agent.go returns and whose declarations are not among the sources.  The
    other constructors are the Go [error] values the package makes or
    receives.  A nil [error] is [None] of [option error]. *)
Inductive error : Type :=
| ExitError (code : Z)            (* *exec.ExitError, with its ExitCode() *)
| ErrMaxTurnsExceeded
| ErrEmptyResponse
| ErrToolCancelled
| ErrUnknownTool (name : string)  (* fmt.Errorf("unknown tool: %s", name) *)
| ErrWrap (context : string) (e : error)  (* fmt.Errorf("... %s: %w", ..., e) *)
| ErrOther (msg : string).        (* any other error: I/O, transport, API *)

(** [errors.Is(e, target)] for the sentinel errors: follows [%w] wrapping. *)
Fixpoint errors_Is (e target : error) : Prop :=
  e = target \/
  match e with
  | ErrWrap _ e' => errors_Is e' target
  | _ => False
  end.

(** ** sandbox.go *)

(** Modelled from the spec: the declaration of [ExecMeta] (and of the
    [ExecMeta] field of [ToolResult]) is not among the sources; the fields
    are the three the spec lists and sandbox.go assigns. *)
Record ExecMeta := mkExecMeta {
  Sandboxed : bool;
  SandboxError : bool;
  SandboxReason : string
}.

Record ToolResult := mkToolResult {
  Success : bool;
  Output : string;
  Status : string;
  Error : option error;
  ExecMeta_ : option ExecMeta
}.

Record SandboxConfig := mkSandboxConfig {
  Enabled : bool;
  AllowNetwork : bool;
  ReadPaths : list string;
  WritePaths : list string;
  ExecPaths : list string;
  FallbackOutsideSandbox : bool
}.

(** What the package reads from its platform: [runtime.GOOS],
    [exec.LookPath] (does it resolve?), [os.Getwd] and [os.TempDir]. *)
Class Platform := {
  GOOS : string;
  LookPath : string -> bool;
  Getwd : string;
  TempDir : string
}.

Module Sandbox.
Section Sandbox.
Context `{Unicode} `{Platform}.

Definition sandboxAvailable : bool :=
  if negb (String.eqb GOOS "darwin") then false
  else LookPath "sandbox-exec".

Definition DefaultSandboxConfig : SandboxConfig :=
  let cwd := Getwd in
  {| Enabled := sandboxAvailable;
     AllowNetwork := false;
     ReadPaths := ["/"];
     WritePaths := [cwd; TempDir; "/private/tmp"; "/private/var/folders"];
     ExecPaths := ["/bin"; "/usr/bin"; "/usr/local/bin";
                   "/opt/homebrew/bin"; "/usr/sbin"; "/sbin"];
     FallbackOutsideSandbox := true |}.

Inductive ShellExecutor :=
| SandboxedExecutor (config : SandboxConfig)
| PassthroughExecutor.

Definition NewShellExecutor (cfg : SandboxConfig) : ShellExecutor :=
  if Enabled cfg && sandboxAvailable then SandboxedExecutor cfg
  else PassthroughExecutor.

(** The three [fmt.Sprintf] formats of [generateProfile]. *)
Definition readRule (path : string) : string :=
  "(allow file-read* (subpath " +:+ dq +:+ path +:+ dq +:+ "))" +:+ nl.
Definition writeRule (path : string) : string :=
  "(allow file-write* (subpath " +:+ dq +:+ path +:+ dq +:+ "))" +:+ nl.
Definition execRule (path : string) : string :=
  "(allow process-exec (subpath " +:+ dq +:+ path +:+ dq +:+ "))" +:+ nl.

Definition ptyRule : string :=
  "(allow file-read* file-write* (regex #" +:+ dq +:+ "^/dev/" +:+ dq +:+ "))" +:+ nl.
Definition ioctlRule : string :=
  "(allow file-ioctl (regex #" +:+ dq +:+ "^/dev/" +:+ dq +:+ "))" +:+ nl.

(** The builder at the end of [generateProfile]. *)
Definition generateProfile_sb (config : SandboxConfig) : Builder :=
  let sb := newBuilder in
  let sb := WriteString sb ("(version 1)" +:+ nl) in
  let sb := WriteString sb ("(deny default)" +:+ nl) in
  let sb := WriteString sb ("(allow process-fork)" +:+ nl) in
  let sb := WriteString sb ("(allow process-exec)" +:+ nl) in
  let sb := fold_left (fun sb path => WriteString sb (readRule path))
              (ReadPaths config) sb in
  let sb := fold_left (fun sb path => WriteString sb (writeRule path))
              (WritePaths config) sb in
  let sb := fold_left (fun sb path => WriteString sb (execRule path))
              (ExecPaths config) sb in
  let sb := WriteString sb ("(allow file-read-metadata)" +:+ nl) in
  let sb := WriteString sb ("(allow sysctl-read)" +:+ nl) in
  let sb := WriteString sb ("(allow mach-lookup)" +:+ nl) in
  let sb := WriteString sb ("(allow signal)" +:+ nl) in
  let sb := WriteString sb ("(allow iokit-open)" +:+ nl) in
  let sb := WriteString sb ptyRule in
  let sb := WriteString sb ioctlRule in
  let sb := if AllowNetwork config
            then WriteString sb ("(allow network*)" +:+ nl)
            else WriteString sb ("(deny network*)" +:+ nl) in
  sb.

Definition generateProfile (config : SandboxConfig) : string :=
  String_ (generateProfile_sb config).

(** [isSandboxDenial]: [err] is the error of [cmd.CombinedOutput()]. *)
Definition isSandboxDenial (output : string) (err : option error) : bool :=
  let lower := ToLower output in
  if Contains lower "sandbox" && Contains lower "deny" then true
  else if Contains lower "operation not permitted" then true
  else
    match err with
    | Some (ExitError code) =>
        if (code =? 1)%Z && (Contains lower "permission denied" ||
                             Contains lower "not permitted")
        then true else false
    | _ => false
    end.

Definition extractSandboxReason (output : string) : string :=
  let lower := ToLower output in
  if Contains lower "network" then "network access denied"
  else if Contains lower "write" || Contains lower "permission denied"
  then "write access denied"
  else if Contains lower "exec" then "execution denied"
  else if Contains lower "read" then "read access denied"
  else if (100 <? String.length output)%nat
  then substring 0 100 output +:+ "..."
  else if negb (String.eqb output "") then output
  else "sandbox policy violation".

End Sandbox.
End Sandbox.

(** ** types.go *)

(** A Go [any] holding a decoded JSON value (or a plain Go string). *)
Inductive Any : Type :=
| AnyNil
| AnyBool (b : bool)
| AnyNumber (n : Z)
| AnyString (s : string)
| AnyList (l : list Any)
| AnyMap (m : gmap string Any).

Record FunctionCall := mkFunctionCall { Name : string; Arguments : string }.

Record ToolCall := mkToolCall {
  ID : string;
  Type_ : string;
  Function : FunctionCall
}.

Record Message := mkMessage {
  Role : string;
  Content : Any;
  ToolCalls : list ToolCall;
  ToolCallID : string
}.

(** [v, _ := args[key].(string)] on a [map[string]any] (nil or not). *)
Definition argString (args : gmap string Any) (key : string) : string :=
  match args !! key with
  | Some (AnyString s) => s
  | _ => ""
  end.

(** ** config.go *)

Record PreTaskConfig := mkPreTaskConfig {
  TaskName : string;        (* Name *)
  SystemPrompt : string;
  Input : string;
  DoneMarker : string
}.

(** The fields of [Config] the conversation loop reads. *)
Record Config := mkConfig {
  PreTasks : list PreTaskConfig;
  Sandbox_ : SandboxConfig
}.

(** ** The host: everything outside the package *)

(** A child process returns its combined output, the error of
    [CombinedOutput] and the elapsed seconds as [%.1f] prints them. *)
Definition ProcResult : Type := string * option error * string.

Class Host := {
  World : Type;
  (** [exec.Command("sandbox-exec", "-p", profile, "sh", "-c", command)] *)
  sandbox_exec : string -> string -> World -> ProcResult * World;
  (** [exec.Command("sh", "-c", command)] *)
  sh : string -> World -> ProcResult * World;
  (** [client.ChatCompletion(ctx, msgs)] *)
  ChatCompletion : list Message -> World -> (Message + error) * World;
  (** [client.ChatCompletionWithTools(ctx, msgs, SubagentShellTool)] *)
  ChatCompletionWithTools : list Message -> World -> (Message + error) * World;
  (** [json.Unmarshal([]byte(arguments), &args)] into a nil map; a
      malformed payload leaves what was decoded so far. *)
  Unmarshal : string -> gmap string Any;
  (** The file tools [read_file], [write_file] and [edit_file]. *)
  fileTool : string -> gmap string Any -> World -> ToolResult * World;
  (** [pythonCommand(code)]: the here-document around the base64 text. *)
  pythonCommand : string -> string;
  (** [strings.TrimSpace] *)
  TrimSpace : string -> string
}.

(** What the embedding records of a run, in the order it happens. *)
Inductive Event : Type :=
| EvChatCompletion (msgs : list Message)
| EvSandboxExec (profile command : string)
| EvSh (command : string)
| EvFileTool (name : string)
| EvOnToolCall (name : string) (args : gmap string Any) (ok : bool)
| EvOnSandboxFallback (command reason : string) (ok : bool)
| EvOnSubagentToolCall (name : string) (args : gmap string Any)
    (meta : option ExecMeta) (ok : bool).

Section Effects.
Context `{Unicode} `{Platform} `{Host}.

(** The package-level variable [defaultExecutor], the world and the
    trace. *)
Record State := mkState {
  world : World;
  defaultExecutor : option Sandbox.ShellExecutor;
  trace : list Event
}.

Definition M (A : Type) : Type := State -> A * State.

Definition ret {A} (a : A) : M A := fun st => (a, st).

Definition bind {A B} (c : M A) (k : A -> M B) : M B :=
  fun st => let (a, st') := c st in k a st'.

(** Run an effect of the host on the world. *)
Definition liftW {A} (f : World -> A * World) : M A :=
  fun st => let (a, w) := f (world st) in
            (a, mkState w (defaultExecutor st) (trace st)).

(** A hook called for its effect only. *)
Definition notify (f : World -> World) : M unit :=
  fun st => (tt, mkState (f (world st)) (defaultExecutor st) (trace st)).

Definition emit (e : Event) : M unit :=
  fun st => (tt, mkState (world st) (defaultExecutor st) (trace st ++ [e])).

End Effects.

Notation "x <- c ;; k" := (bind c (fun x => k))
  (at level 100, c at next level, right associativity).
Notation "c ;;; k" := (bind c (fun _ => k))
  (at level 100, right associativity).

(** ** sandbox.go: the two executors and the package-level executor *)

Module Executor.
Section Executor.
Context `{Unicode} `{Platform} `{Host}.
Import Sandbox.

(** [(s *SandboxedExecutor) Run(command)] *)
Definition SandboxedRun (config : SandboxConfig) (command : string)
  : M (ToolResult * ExecMeta) :=
  let profile := generateProfile config in
  emit (EvSandboxExec profile command) ;;;
  r <- liftW (sandbox_exec profile command) ;;
  let '(out, err, elapsed) := r in
  let meta := mkExecMeta true false "" in
  match err with
  | Some e =>
      let output := out in
      if isSandboxDenial output err then
        let meta := mkExecMeta true true (extractSandboxReason output) in
        ret (mkToolResult false output
               ("sandbox blocked (" +:+ elapsed +:+ "s)") (Some e) (Some meta),
             meta)
      else
        ret (mkToolResult false output
               ("fail (" +:+ elapsed +:+ "s)") (Some e) (Some meta),
             meta)
  | None =>
      ret (mkToolResult true out ("ok (" +:+ elapsed +:+ "s)") None (Some meta),
           meta)
  end.

(** [(p *PassthroughExecutor) Run(command)] *)
Definition PassthroughRun (command : string) : M (ToolResult * ExecMeta) :=
  let meta := mkExecMeta false false "" in
  emit (EvSh command) ;;;
  r <- liftW (sh command) ;;
  let '(out, err, elapsed) := r in
  match err with
  | Some e =>
      ret (mkToolResult false out ("fail (" +:+ elapsed +:+ "s)") (Some e)
             (Some meta), meta)
  | None =>
      ret (mkToolResult true out ("ok (" +:+ elapsed +:+ "s)") None
             (Some meta), meta)
  end.

Definition Run (e : ShellExecutor) (command : string)
  : M (ToolResult * ExecMeta) :=
  match e with
  | SandboxedExecutor config => SandboxedRun config command
  | PassthroughExecutor => PassthroughRun command
  end.

Definition InitSandbox (cfg : SandboxConfig) : M unit :=
  fun st => (tt, mkState (world st) (Some (NewShellExecutor cfg)) (trace st)).

Definition GetExecutor : M ShellExecutor :=
  fun st =>
    match defaultExecutor st with
    | Some e => (e, st)
    | None =>
        let e := NewShellExecutor DefaultSandboxConfig in
        (e, mkState (world st) (Some e) (trace st))
    end.

Definition IsSandboxEnabled : M bool :=
  exec <- GetExecutor ;;
  match exec with
  | SandboxedExecutor _ => ret true
  | PassthroughExecutor => ret false
  end.

End Executor.
End Executor.

(** ** tools.go, at the revision that has the sandbox *)

Module Tools.
Section Tools.
Context `{Unicode} `{Platform} `{Host}.
Import Sandbox Executor.

Definition ExecuteShell (command : string) : M ToolResult :=
  exec <- GetExecutor ;;
  r <- Run exec command ;;
  ret (fst r).

Definition ExecutePython (code : string) : M ToolResult :=
  let command := pythonCommand code in
  ExecuteShell command.

Definition ExecuteShellUnsandboxed (command : string) : M ToolResult :=
  r <- PassthroughRun command ;;
  ret (fst r).

(** A Go func value, possibly nil, asked for a decision. *)
Definition Callback2 : Type := option (string -> string -> World -> bool * World).

Definition ExecuteShellWithSandbox (command : string) (onFallback : Callback2)
  : M ToolResult :=
  enabled <- IsSandboxEnabled ;;
  if negb enabled then
    ExecuteShellUnsandboxed command
  else
    result <- ExecuteShell command ;;
    match ExecMeta_ result with
    | Some meta =>
        if SandboxError meta then
          match onFallback with
          | Some f =>
              ok <- liftW (f command (SandboxReason meta)) ;;
              emit (EvOnSandboxFallback command (SandboxReason meta) ok) ;;;
              if ok then ExecuteShellUnsandboxed command
              else ret result
          | None => ret result
          end
        else ret result
    | None => ret result
    end.

Definition ExecuteTool (name : string) (args : gmap string Any) : M ToolResult :=
  if String.eqb name "read_file" || String.eqb name "write_file"
     || String.eqb name "edit_file" then
    emit (EvFileTool name) ;;;
    liftW (fileTool name args)
  else if String.eqb name "run_shell" then
    let cmd := argString args "command" in
    ExecuteShell cmd
  else if String.eqb name "python_runtime" then
    let code := argString args "code" in
    ExecutePython code
  else
    ret (mkToolResult false "" "fail: unknown tool"
           (Some (ErrUnknownTool name)) None).

End Tools.
End Tools.

(** What one pass through the body of a turn loop leaves: either the loop
    goes round again or the function returns. *)
Inductive Turn (R : Type) : Type :=
| Next (history : list Message)
| Return (r : R) (history : list Message).
Arguments Next {R} _.
Arguments Return {R} _ _.

(** ** agent.go, at the revision with turn budgets (lines 550-840) *)

Module Orchestrator.
Section Orchestrator.
Context `{Unicode} `{Platform} `{Host}.
Import Tools.

Definition maxChatTurns : nat := 10.
Definition maxPreTaskTurns : nat := 10.

(** The mutable fields and the hooks of [Agent]; a nil hook is [None]. *)
Record Agent := mkAgent {
  config : Config;
  msgs : list Message;
  preTasksDone : bool;
  OnToolCall : option (string -> gmap string Any -> World -> bool * World);
  OnToolDone : option (string -> gmap string Any -> ToolResult -> World -> World);
  OnMessage : option (string -> World -> World);
  OnPreTaskStart : option (string -> World -> World);
  OnPreTaskEnd : option (string -> World -> World);
  OnSandboxFallback : Callback2
}.

(** One step of the [for _, part := range v] loop of [messageContent]. *)
Definition writePart (b : Builder) (part : Any) : Builder :=
  match part with
  | AnyMap m =>
      let t := argString m "type" in
      if negb (String.eqb t "text") && negb (String.eqb t "output_text")
      then b
      else
        let text := argString m "text" in
        if String.eqb text "" then b else WriteString b text
  | _ => b
  end.

Definition messageContent (msg : option Message) : string :=
  match msg with
  | None => ""
  | Some msg =>
      match Content msg with
      | AnyString v => v
      | AnyList v => String_ (fold_left writePart v newBuilder)
      | _ => ""
      end
  end.

(** [if a.OnMessage != nil && strings.TrimSpace(content) != ""] *)
Definition announce (a : Agent) (content : string) : M unit :=
  match OnMessage a with
  | Some f =>
      if negb (String.eqb (TrimSpace content) "") then notify (f content)
      else ret tt
  | None => ret tt
  end.

(** [a.OnToolCall != nil && !a.OnToolCall(name, args)] *)
Definition declined (a : Agent) (name : string) (args : gmap string Any)
  : M bool :=
  match OnToolCall a with
  | Some f =>
      ok <- liftW (f name args) ;;
      emit (EvOnToolCall name args ok) ;;;
      ret (negb ok)
  | None => ret false
  end.

(** The [for _, tc := range msg.ToolCalls] loop, the same text in [Chat]
    and in [runPreTasks]: the result is [(cancelled, toolResults)]. *)
Fixpoint runToolCalls (a : Agent) (tcs : list ToolCall)
    (toolResults : list Message) : M (bool * list Message) :=
  match tcs with
  | [] => ret (false, toolResults)
  | tc :: rest =>
      let args := Unmarshal (Arguments (Function tc)) in
      stop <- declined a (Name (Function tc)) args ;;
      if stop then ret (true, toolResults)
      else
        result <-
          (if String.eqb (Name (Function tc)) "run_shell" then
             let cmd := argString args "command" in
             ExecuteShellWithSandbox cmd (OnSandboxFallback a)
           else ExecuteTool (Name (Function tc)) args) ;;
        match OnToolDone a with
        | Some f => notify (f (Name (Function tc)) args result)
        | None => ret tt
        end ;;;
        runToolCalls a rest
          (toolResults ++
             [mkMessage "tool" (AnyString (Output result)) [] (ID tc)])
  end.

(** The body of the [for turns := 0; ; turns++] loop of [Chat], after
    the budget test. *)
Definition chatTurn (a : Agent) (history : list Message)
  : M (Turn (string * option error)) :=
  r <- (emit (EvChatCompletion history) ;;; liftW (ChatCompletion history)) ;;
  match r with
  | inr err => ret (Return ("", Some err) history)
  | inl msg =>
      let history := history ++ [msg] in
      let content := messageContent (Some msg) in
      announce a content ;;;
      if (List.length (ToolCalls msg) =? 0)%nat then
        if String.eqb content "" then
          ret (Return ("", Some ErrEmptyResponse) history)
        else ret (Return (content, None) history)
      else
        b <- runToolCalls a (ToolCalls msg) [] ;;
        let '(cancelled, toolResults) := b in
        if cancelled then
          ret (Return ("", None) (take (List.length history - 1) history))
        else ret (Next (history ++ toolResults))
  end.

(** The turn loop of [Chat].  [fuel] bounds the recursion; [None] is
    running out of it, which [S maxChatTurns] never does. *)
Fixpoint chatLoop (fuel : nat) (a : Agent) (turns : nat)
    (history : list Message)
  : M (option (string * option error * list Message)) :=
  match fuel with
  | O => ret None
  | S fuel' =>
      if (maxChatTurns <=? turns)%nat then
        ret (Some ("", Some ErrMaxTurnsExceeded, history))
      else
        t <- chatTurn a history ;;
        match t with
        | Return r history' => ret (Some (r, history'))
        | Next history' => chatLoop fuel' a (S turns) history'
        end
  end.

(** The body of the turn loop of [runPreTasks], after the budget test.
    [Return None] is the [break] that completes the task. *)
Definition preTaskTurn (a : Agent) (task : PreTaskConfig)
    (taskMsgs : list Message) : M (Turn (option error)) :=
  r <- (emit (EvChatCompletion taskMsgs) ;;; liftW (ChatCompletion taskMsgs)) ;;
  match r with
  | inr err => ret (Return (Some err) taskMsgs)
  | inl msg =>
      let taskMsgs := taskMsgs ++ [msg] in
      let content := messageContent (Some msg) in
      announce a content ;;;
      if (List.length (ToolCalls msg) =? 0)%nat then
        if String.eqb content "" then
          ret (Return
                 (Some (ErrWrap ("pretask " +:+ TaskName task) ErrEmptyResponse))
                 taskMsgs)
        else ret (Return None taskMsgs)
      else
        b <- runToolCalls a (ToolCalls msg) [] ;;
        let '(cancelled, toolResults) := b in
        if cancelled then
          let taskMsgs := take (List.length taskMsgs - 1) taskMsgs in
          match OnPreTaskEnd a with
          | Some f => notify (f (TaskName task))
          | None => ret tt
          end ;;;
          ret (Return (Some ErrToolCancelled) taskMsgs)
        else ret (Next (taskMsgs ++ toolResults))
  end.

Fixpoint preTaskLoop (fuel : nat) (a : Agent) (task : PreTaskConfig)
    (turns : nat) (taskMsgs : list Message) : M (option (option error)) :=
  match fuel with
  | O => ret None
  | S fuel' =>
      if (maxPreTaskTurns <=? turns)%nat then
        ret (Some (Some (ErrWrap ("pretask " +:+ TaskName task)
                           ErrMaxTurnsExceeded)))
      else
        t <- preTaskTurn a task taskMsgs ;;
        match t with
        | Return r _ => ret (Some r)
        | Next taskMsgs' => preTaskLoop fuel' a task (S turns) taskMsgs'
        end
  end.

(** [runPreTasks], as the loop over the tasks still to run. *)
Fixpoint runPreTasksFrom (a : Agent) (tasks : list PreTaskConfig)
  : M (option (option error)) :=
  match tasks with
  | [] => ret (Some None)
  | task :: rest =>
      match OnPreTaskStart a with
      | Some f => notify (f (TaskName task))
      | None => ret tt
      end ;;;
      let taskMsgs := [mkMessage "system" (AnyString (SystemPrompt task)) [] ""] in
      let input := if String.eqb (Input task) "" then "Begin" else Input task in
      let taskMsgs := taskMsgs ++ [mkMessage "user" (AnyString input) [] ""] in
      r <- preTaskLoop (S maxPreTaskTurns) a task 0 taskMsgs ;;
      match r with
      | Some None =>
          match OnPreTaskEnd a with
          | Some f => notify (f (TaskName task))
          | None => ret tt
          end ;;;
          runPreTasksFrom a rest
      | other => ret other
      end
  end.

Definition runPreTasks (a : Agent) : M (option (option error)) :=
  runPreTasksFrom a (PreTasks (config a)).

Definition setMsgs (a : Agent) (l : list Message) (done : bool) : Agent :=
  mkAgent (config a) l done (OnToolCall a) (OnToolDone a) (OnMessage a)
    (OnPreTaskStart a) (OnPreTaskEnd a) (OnSandboxFallback a).

(** [(a *Agent) Chat(ctx, input)]: the returned pair and the agent as the
    call leaves it. *)
Definition Chat (a : Agent) (input : string)
  : M (option (string * option error * Agent)) :=
  pre <-
    (if negb (preTasksDone a) && (0 <? List.length (PreTasks (config a)))%nat
     then
       r <- runPreTasks a ;;
       match r with
       | None => ret None
       | Some (Some err) => ret (Some (inl err))
       | Some None => ret (Some (inr true))
       end
     else ret (Some (inr (preTasksDone a)))) ;;
  match pre with
  | None => ret None
  | Some (inl err) => ret (Some ("", Some err, a))
  | Some (inr done) =>
      let history := msgs a ++ [mkMessage "user" (AnyString input) [] ""] in
      r <- chatLoop (S maxChatTurns) a 0 history ;;
      match r with
      | None => ret None
      | Some (res, history') => ret (Some (res, setMsgs a history' done))
      end
  end.

End Orchestrator.
End Orchestrator.

(** ** agent.go, at the revision whose shell subagent runs under the
       sandbox (lines 118-548): [executeShellWithSandbox] *)

Module SandboxSubagent.
Section SandboxSubagent.
Context `{Unicode} `{Platform} `{Host}.
Import Sandbox Executor Tools.

(** The fields of [Agent] that [executeShellWithSandbox] reads. *)
Record Agent := mkAgent {
  config : Config;
  OnSubagentToolCall :
    option (string -> gmap string Any -> ExecMeta -> World -> bool * World);
  OnSandboxFallback : Callback2
}.

Definition cancelledResult : ToolResult :=
  mkToolResult false "cancelled by user" "cancelled" None None.

Definition executeShellWithSandbox (a : Agent) (command : string)
    (args : gmap string Any) : M ToolResult :=
  sandboxEnabled <- IsSandboxEnabled ;;
  if sandboxEnabled then
    result <- ExecuteShell command ;;
    if match ExecMeta_ result with
       | Some meta => SandboxError meta
       | None => false
       end
    then
      if FallbackOutsideSandbox (Sandbox_ (config a))
         || FallbackOutsideSandbox DefaultSandboxConfig
      then
        match OnSandboxFallback a with
        | Some f =>
            let reason :=
              match ExecMeta_ result with
              | Some meta => SandboxReason meta
              | None => ""
              end in
            ok <- liftW (f command reason) ;;
            emit (EvOnSandboxFallback command reason ok) ;;;
            if negb ok then ret cancelledResult
            else ExecuteShellUnsandboxed command
        | None => ret result
        end
      else ret result
    else
      match OnSubagentToolCall a with
      | Some f =>
          let meta :=
            match ExecMeta_ result with
            | Some meta => meta
            | None => mkExecMeta true false ""
            end in
          ok <- liftW (f "run_shell" args meta) ;;
          emit (EvOnSubagentToolCall "run_shell" args (Some meta) ok) ;;;
          ret result
      | None => ret result
      end
  else
    match OnSubagentToolCall a with
    | Some f =>
        let meta := mkExecMeta false false "" in
        ok <- liftW (f "run_shell" args meta) ;;
        emit (EvOnSubagentToolCall "run_shell" args (Some meta) ok) ;;;
        if negb ok then ret cancelledResult
        else ExecuteShellUnsandboxed command
    | None => ExecuteShellUnsandboxed command
    end.

End SandboxSubagent.
End SandboxSubagent.

(** ** agent.go, at the revision whose pre-task loop waits for the done
       marker (lines 842-1210), with the tools.go of that revision *)

Module MarkerRunner.
Section MarkerRunner.
Context `{Unicode} `{Platform} `{Host}.

(** tools.go before the sandbox: [ExecuteShell] runs [sh -c] itself and
    [ToolResult] has no [ExecMeta]. *)
Definition ExecuteShell (command : string) : M ToolResult :=
  emit (EvSh command) ;;;
  r <- liftW (sh command) ;;
  let '(out, err, elapsed) := r in
  match err with
  | Some e =>
      ret (mkToolResult false out ("fail (" +:+ elapsed +:+ "s)") (Some e) None)
  | None =>
      ret (mkToolResult true out ("ok (" +:+ elapsed +:+ "s)") None None)
  end.

Definition ExecuteTool (name : string) (args : gmap string Any) : M ToolResult :=
  if String.eqb name "read_file" || String.eqb name "write_file"
     || String.eqb name "edit_file" then
    emit (EvFileTool name) ;;;
    liftW (fileTool name args)
  else if String.eqb name "run_shell" then
    let cmd := argString args "command" in
    ExecuteShell cmd
  else
    ret (mkToolResult false "" "fail: unknown tool"
           (Some (ErrUnknownTool name)) None).

Record Agent := mkAgent {
  config : Config;
  OnToolCall : option (string -> gmap string Any -> World -> bool * World);
  OnToolDone : option (string -> gmap string Any -> ToolResult -> World -> World);
  OnMessage : option (string -> World -> World);
  OnPreTaskStart : option (string -> World -> World);
  OnPreTaskEnd : option (string -> World -> World);
  OnShellSubagentStart : option (string -> World -> World);
  OnShellSubagentEnd : option (ToolResult -> World -> World);
  OnSubagentToolCall : option (string -> gmap string Any -> World -> bool * World);
  OnSubagentToolDone :
    option (string -> gmap string Any -> ToolResult -> World -> World)
}.

(** [if hook != nil { hook(...) }] *)
Definition call (h : option (World -> World)) : M unit :=
  match h with
  | Some f => notify f
  | None => ret tt
  end.

Definition cancelledResult : ToolResult :=
  mkToolResult false "cancelled by user" "cancelled" None None.

(** [a.OnSubagentToolCall != nil && !a.OnSubagentToolCall("run_shell", args)] *)
Definition subagentDeclined (a : Agent) (args : gmap string Any) : M bool :=
  match OnSubagentToolCall a with
  | Some f =>
      ok <- liftW (f "run_shell" args) ;;
      emit (EvOnSubagentToolCall "run_shell" args None ok) ;;;
      ret (negb ok)
  | None => ret false
  end.

(** The follow-up commands of one subagent response. *)
Fixpoint followUps (a : Agent) (tcs : list ToolCall) (msgs : list Message)
  : M (list Message) :=
  match tcs with
  | [] => ret msgs
  | tc :: rest =>
      let args := Unmarshal (Arguments (Function tc)) in
      let cmd := argString args "command" in
      stop <- subagentDeclined a args ;;
      if stop then
        followUps a rest
          (msgs ++ [mkMessage "tool" (AnyString "cancelled by user") [] (ID tc)])
      else
        toolResult <- ExecuteShell cmd ;;
        call (option_map (fun f => f "run_shell" args toolResult)
                (OnSubagentToolDone a)) ;;;
        followUps a rest
          (msgs ++ [mkMessage "tool" (AnyString (Output toolResult)) [] (ID tc)])
  end.

(** The subagent's [for] loop has no budget: [None] is a run that is
    still going when [fuel] turns have passed. *)
Fixpoint subagentLoop (fuel : nat) (a : Agent) (msgs : list Message)
  : M (option ToolResult) :=
  match fuel with
  | O => ret None
  | S fuel' =>
      r <- (emit (EvChatCompletion msgs) ;;;
            liftW (ChatCompletionWithTools msgs)) ;;
      match r with
      | inr err =>
          let errResult := mkToolResult false "" "subagent error" (Some err) None in
          call (option_map (fun f => f errResult) (OnShellSubagentEnd a)) ;;;
          ret (Some errResult)
      | inl msg =>
          let msgs := msgs ++ [msg] in
          if (List.length (ToolCalls msg) =? 0)%nat then
            match Content msg with
            | AnyString content =>
                if Contains content "{{SHELL_DONE}}" then
                  let finalResult :=
                    match afterFirst content "{{SHELL_DONE}}" with
                    | Some rest => mkToolResult true (TrimSpace rest) "ok" None None
                    | None => mkToolResult true content "ok" None None
                    end in
                  call (option_map (fun f => f finalResult)
                          (OnShellSubagentEnd a)) ;;;
                  ret (Some finalResult)
                else subagentLoop fuel' a msgs
            | _ => subagentLoop fuel' a msgs
            end
          else
            msgs' <- followUps a (ToolCalls msg) msgs ;;
            subagentLoop fuel' a msgs'
      end
  end.

Definition ExecuteShellSubagent (fuel : nat) (a : Agent)
    (command description safety systemPrompt : string) : M (option ToolResult) :=
  call (option_map (fun f => f systemPrompt) (OnShellSubagentStart a)) ;;;
  let initialArgs : gmap string Any :=
    <["command" := AnyString command]>
      (<["description" := AnyString description]>
         (<["safety" := AnyString safety]> ∅)) in
  stop <- subagentDeclined a initialArgs ;;
  if stop then
    call (option_map (fun f => f cancelledResult) (OnShellSubagentEnd a)) ;;;
    ret (Some cancelledResult)
  else
    result <- ExecuteShell command ;;
    call (option_map (fun f => f "run_shell" initialArgs result)
            (OnSubagentToolDone a)) ;;;
    let msgs :=
      [mkMessage "system" (AnyString systemPrompt) [] "";
       mkMessage "user"
         (AnyString ("Command: " +:+ command +:+ nl +:+ nl +:+ "Output:" +:+ nl
                     +:+ Output result)) [] ""] in
    subagentLoop fuel a msgs.

(** [a.OnToolCall != nil && !a.OnToolCall(name, args)] *)
Definition declined (a : Agent) (name : string) (args : gmap string Any)
  : M bool :=
  match OnToolCall a with
  | Some f =>
      ok <- liftW (f name args) ;;
      emit (EvOnToolCall name args ok) ;;;
      ret (negb ok)
  | None => ret false
  end.

(** The tool loop of [runPreTasks]: it appends to [taskMsgs] as it goes.
    The result is [(cancelled, taskMsgs)], or [None] when a subagent is
    still running after [fuel] turns. *)
Fixpoint runToolCalls (fuel : nat) (a : Agent) (tcs : list ToolCall)
    (taskMsgs : list Message) : M (option (bool * list Message)) :=
  match tcs with
  | [] => ret (Some (false, taskMsgs))
  | tc :: rest =>
      let name := Name (Function tc) in
      let args := Unmarshal (Arguments (Function tc)) in
      stop <- declined a name args ;;
      if stop then ret (Some (true, taskMsgs))
      else
        r <-
          (if String.eqb name "run_shell" then
             let cmd := argString args "command" in
             let desc := argString args "description" in
             let safety := argString args "safety" in
             let sysPrompt := argString args "system_prompt" in
             ExecuteShellSubagent fuel a cmd desc safety sysPrompt
           else
             result <- ExecuteTool name args ;; ret (Some result)) ;;
        match r with
        | None => ret None
        | Some result =>
            call (option_map (fun f => f name args result) (OnToolDone a)) ;;;
            runToolCalls fuel a rest
              (taskMsgs ++
                 [mkMessage "tool" (AnyString (Output result)) [] (ID tc)])
        end
  end.

(** The [for] loop of one pre-task: [Some None] is the [break], [Some
    (Some err)] a [return err], [None] a loop still going after [fuel]
    turns. *)
Fixpoint preTaskLoop (fuel : nat) (a : Agent) (task : PreTaskConfig)
    (taskMsgs : list Message) : M (option (option error)) :=
  match fuel with
  | O => ret None
  | S fuel' =>
      r <- (emit (EvChatCompletion taskMsgs) ;;;
            liftW (ChatCompletion taskMsgs)) ;;
      match r with
      | inr err => ret (Some (Some err))
      | inl msg =>
          let taskMsgs := taskMsgs ++ [msg] in
          if (List.length (ToolCalls msg) =? 0)%nat then
            match Content msg with
            | AnyString content =>
                (if negb (String.eqb content "")
                 then call (option_map (fun f => f content) (OnMessage a))
                 else ret tt) ;;;
                if Contains content (DoneMarker task) then ret (Some None)
                else preTaskLoop fuel' a task taskMsgs
            | _ => preTaskLoop fuel' a task taskMsgs
            end
          else
            let checkpoint := (List.length taskMsgs - 1)%nat in
            b <- runToolCalls fuel' a (ToolCalls msg) taskMsgs ;;
            match b with
            | None => ret None
            | Some (cancelled, taskMsgs) =>
                if (cancelled : bool) then
                  let taskMsgs := take checkpoint taskMsgs in
                  call (option_map (fun f => f (TaskName task))
                          (OnPreTaskEnd a)) ;;;
                  ret (Some (Some ErrToolCancelled))
                else preTaskLoop fuel' a task taskMsgs
            end
      end
  end.

Fixpoint runPreTasksFrom (fuel : nat) (a : Agent) (tasks : list PreTaskConfig)
  : M (option (option error)) :=
  match tasks with
  | [] => ret (Some None)
  | task :: rest =>
      call (option_map (fun f => f (TaskName task)) (OnPreTaskStart a)) ;;;
      let taskMsgs := [mkMessage "system" (AnyString (SystemPrompt task)) [] ""] in
      let input := if String.eqb (Input task) "" then "Begin" else Input task in
      let taskMsgs := taskMsgs ++ [mkMessage "user" (AnyString input) [] ""] in
      r <- preTaskLoop fuel a task taskMsgs ;;
      match r with
      | Some None =>
          call (option_map (fun f => f (TaskName task)) (OnPreTaskEnd a)) ;;;
          runPreTasksFrom fuel a rest
      | other => ret other
      end
  end.

Definition runPreTasks (fuel : nat) (a : Agent) : M (option (option error)) :=
  runPreTasksFrom fuel a (PreTasks (config a)).

End MarkerRunner.
End MarkerRunner.

(** ** tools.go: which tools ask for confirmation *)

Module Confirmation.
Section Confirmation.
Context `{Unicode} `{Platform} `{Host}.
Import Executor.

(** [RequiresConfirmation(name, sandboxed)] of the revision with the
    sandbox; [&&] asks [IsSandboxEnabled] only when what stands before it
    holds. *)
Definition RequiresConfirmation (name : string) (sandboxed : bool) : M bool :=
  if String.eqb name "read_file" then ret false
  else if (String.eqb name "run_shell" || String.eqb name "python_runtime")
          && sandboxed
  then
    enabled <- IsSandboxEnabled ;;
    if enabled then ret false else ret true
  else ret true.

(** [RequiresConfirmation(name)] of the revision before it. *)
Definition RequiresConfirmation0 (name : string) : bool :=
  negb (String.eqb name "read_file").

End Confirmation.
End Confirmation.

(** ** agent.go, marker revision (lines 915-987): [Chat] *)

Module MarkerChat.
Section MarkerChat.
Context `{Unicode} `{Platform} `{Host}.
Import MarkerRunner.

(** The [for] loop of [Chat], with [a.msgs] passed along.  The loop has
    no budget: [None] is a run that is still going when [fuel] turns have
    passed.  A result carries [a.msgs] as the return leaves it. *)
Fixpoint chatLoop (fuel : nat) (a : Agent) (msgs : list Message)
  : M (option (string * option error * list Message)) :=
  match fuel with
  | O => ret None
  | S fuel' =>
      r <- (emit (EvChatCompletion msgs) ;;; liftW (ChatCompletion msgs)) ;;
      match r with
      | inr err => ret (Some ("", Some err, msgs))
      | inl msg =>
          let msgs := msgs ++ [msg] in
          if (List.length (ToolCalls msg) =? 0)%nat then
            let content :=
              match Content msg with
              | AnyString content => content
              | _ => ""
              end in
            (if negb (String.eqb content "")
             then call (option_map (fun f => f content) (OnMessage a))
             else ret tt) ;;;
            ret (Some (content, None, msgs))
          else
            let checkpoint := (List.length msgs - 1)%nat in
            b <- runToolCalls fuel' a (ToolCalls msg) msgs ;;
            match b with
            | None => ret None
            | Some (cancelled, msgs) =>
                if (cancelled : bool) then
                  ret (Some ("", None, take checkpoint msgs))
                else chatLoop fuel' a msgs
            end
      end
  end.

(** [(a *Agent) Chat(ctx, input)], with the fields [msgs] and
    [preTasksDone] of the agent passed in and out. *)
Definition Chat (fuel : nat) (a : Agent) (msgs : list Message)
    (preTasksDone : bool) (input : string)
  : M (option (string * option error * list Message * bool)) :=
  pre <-
    (if negb preTasksDone && (0 <? List.length (PreTasks (config a)))%nat
     then
       r <- runPreTasks fuel a ;;
       match r with
       | None => ret None
       | Some (Some err) => ret (Some (inl err))
       | Some None => ret (Some (inr true))
       end
     else ret (Some (inr preTasksDone))) ;;
  match pre with
  | None => ret None
  | Some (inl err) => ret (Some ("", Some err, msgs, preTasksDone))
  | Some (inr done) =>
      r <- chatLoop fuel a (msgs ++ [mkMessage "user" (AnyString input) [] ""]) ;;
      match r with
      | None => ret None
      | Some (res, err, msgs') => ret (Some (res, err, msgs', done))
      end
  end.

End MarkerChat.
End MarkerChat.

(** ** config.go, client.go and agent.go: making an agent *)

Module Settings.
Section Settings.
Context `{Unicode} `{Platform} `{Host}.
Import Sandbox Executor.

(** A Go slice, which may be nil. *)
Definition slice (A : Type) : Type := option (list A).

(** What [range] goes through. *)
Definition elems {A : Type} (s : slice A) : list A :=
  match s with
  | Some l => l
  | None => []
  end.

(** [SandboxConfig] as the caller writes it: each path list may be nil. *)
Record SandboxSettings := mkSandboxSettings {
  Enabled : bool;
  AllowNetwork : bool;
  ReadPaths : slice string;
  WritePaths : slice string;
  ExecPaths : slice string;
  FallbackOutsideSandbox : bool
}.

(** The same configuration as the executor reads it. *)
Definition asSandboxConfig (s : SandboxSettings) : SandboxConfig :=
  mkSandboxConfig (Enabled s) (AllowNetwork s) (elems (ReadPaths s))
    (elems (WritePaths s)) (elems (ExecPaths s)) (FallbackOutsideSandbox s).

(** types.go *)
Record ToolFunction := mkToolFunction {
  FunctionName : string;     (* Name *)
  Description : string;
  Parameters : gmap string Any
}.

Record Tool := mkTool { ToolType : string; ToolFunction_ : ToolFunction }.

(** [time.Duration]: nanoseconds. *)
Definition Duration : Type := Z.
Definition Second : Duration := 1000000000%Z.

Record Config := mkConfig {
  APIKey : string;
  BaseURL : string;
  Model : string;
  Tools : list Tool;
  SystemPrompt : string;
  HTTPTimeout : Duration;
  PreTasks : list PreTaskConfig;
  Sandbox : SandboxSettings
}.

(** errors.go *)
Definition ErrMissingAPIKey : error := ErrOther "API key is required".

(** [(c *Config) Validate()]: the error and the configuration as the call
    leaves it. *)
Definition Validate (c : Config) : option error * Config :=
  if String.eqb (APIKey c) "" then (Some ErrMissingAPIKey, c)
  else
    let c :=
      if String.eqb (BaseURL c) "" then
        mkConfig (APIKey c) "https://openrouter.ai/api/v1" (Model c) (Tools c)
          (SystemPrompt c) (HTTPTimeout c) (PreTasks c) (Sandbox c)
      else c in
    let c :=
      if String.eqb (Model c) "" then
        mkConfig (APIKey c) (BaseURL c) "anthropic/claude-opus-4.5" (Tools c)
          (SystemPrompt c) (HTTPTimeout c) (PreTasks c) (Sandbox c)
      else c in
    let c :=
      if (HTTPTimeout c =? 0)%Z then
        mkConfig (APIKey c) (BaseURL c) (Model c) (Tools c)
          (SystemPrompt c) (30 * Second)%Z (PreTasks c) (Sandbox c)
      else c in
    (None, c).

(** client.go: the client holds its own copy of the configuration and the
    timeout of its HTTP client. *)
Record Client := mkClient { clientConfig : Config; Timeout : Duration }.

Definition NewClient (config : Config) : error + Client :=
  match Validate config with
  | (Some err, _) => inl err
  | (None, config) => inr (mkClient config (HTTPTimeout config))
  end.

(** The fields of [Agent] that [NewAgent] sets; the hooks are nil and
    [preTasksDone] is false. *)
Record Agent := mkAgent {
  config : Config;
  client : Client;
  msgs : list Message
}.

(** The history an agent starts from. *)
Definition initialMsgs (config : Config) : list Message :=
  if negb (String.eqb (SystemPrompt config) "")
  then [mkMessage "system" (AnyString (SystemPrompt config)) [] ""]
  else [].

(** [NewAgent(config)] of the revision with the sandbox (agent.go, lines
    596-619). *)
Definition NewAgent (config : Config) : M (error + Agent) :=
  match Validate config with
  | (Some err, _) => ret (inl err)
  | (None, config) =>
      match NewClient config with
      | inl err => ret (inl err)
      | inr client =>
          let sandboxCfg :=
            match ReadPaths (Sandbox config), WritePaths (Sandbox config),
                  ExecPaths (Sandbox config) with
            | None, None, None => DefaultSandboxConfig
            | _, _, _ => asSandboxConfig (Sandbox config)
            end in
          InitSandbox sandboxCfg ;;;
          ret (inr (mkAgent config client (initialMsgs config)))
      end
  end.

(** [(a *Agent) Messages()] and [(a *Agent) Reset()] *)
Definition Messages (a : Agent) : list Message := msgs a.

Definition Reset (a : Agent) : Agent :=
  mkAgent (config a) (client a) (initialMsgs (config a)).

End Settings.
End Settings.

(** ** tools.go: the command that runs Python code *)

Module Python.

(** [base64.StdEncoding]: the alphabet of RFC 4648 and the padding. *)
Definition alphabet : string :=
  "ABCDEFGHIJKLMNOPQRSTUVWXYZabcdefghijklmnopqrstuvwxyz0123456789+/".

Definition padding : ascii := "="%char.

(** [enc.encode[n]] *)
Definition digit (n : N) : ascii :=
  match String.get (N.to_nat n) alphabet with
  | Some c => c
  | None => padding
  end.

(** [base64.StdEncoding.EncodeToString]: three bytes give four digits, a
    rest of one or two bytes is padded to four. *)
Fixpoint EncodeToString (src : string) : string :=
  match src with
  | EmptyString => EmptyString
  | String a EmptyString =>
      let val := (N_of_ascii a * 65536)%N in
      String (digit (val / 262144 mod 64))
        (String (digit (val / 4096 mod 64))
           (String padding (String padding EmptyString)))
  | String a (String b EmptyString) =>
      let val := (N_of_ascii a * 65536 + N_of_ascii b * 256)%N in
      String (digit (val / 262144 mod 64))
        (String (digit (val / 4096 mod 64))
           (String (digit (val / 64 mod 64))
              (String padding EmptyString)))
  | String a (String b (String c rest)) =>
      let val := (N_of_ascii a * 65536 + N_of_ascii b * 256 + N_of_ascii c)%N in
      String (digit (val / 262144 mod 64))
        (String (digit (val / 4096 mod 64))
           (String (digit (val / 64 mod 64))
              (String (digit (val mod 64)) (EncodeToString rest))))
  end.

Import GoStrings.

(** [pythonCommand(code)] *)
Definition pythonCommand_sb (code : string) : Builder :=
  let encoded := EncodeToString code in
  let b := newBuilder in
  let b := WriteString b ("python3 - <<'PY'" +:+ nl) in
  let b := WriteString b ("import base64" +:+ nl) in
  let b := WriteString b "code = base64.b64decode('" in
  let b := WriteString b encoded in
  let b := WriteString b ("')" +:+ nl) in
  let b := WriteString b ("exec(compile(code, '<bono>', 'exec'))" +:+ nl) in
  let b := WriteString b ("PY" +:+ nl) in
  b.

Definition pythonCommand (code : string) : string :=
  String_ (pythonCommand_sb code).

(** The reading side, which is Python's: [base64.b64decode] on text that
    is well formed, by RFC 4648. *)
Fixpoint indexOf (c : ascii) (s : string) : N :=
  match s with
  | EmptyString => 0%N
  | String a s' => if Ascii.eqb a c then 0%N else N.succ (indexOf c s')
  end.

Definition value (c : ascii) : N :=
  if Ascii.eqb c padding then 0%N else indexOf c alphabet.

Fixpoint b64decode (s : string) : string :=
  match s with
  | String c1 (String c2 (String c3 (String c4 rest))) =>
      let v := (value c1 * 262144 + value c2 * 4096 + value c3 * 64 + value c4)%N in
      let b1 := ascii_of_N (v / 65536 mod 256) in
      let b2 := ascii_of_N (v / 256 mod 256) in
      let b3 := ascii_of_N (v mod 256) in
      if Ascii.eqb c3 padding then String b1 EmptyString
      else if Ascii.eqb c4 padding then String b1 (String b2 EmptyString)
      else String b1 (String b2 (String b3 (b64decode rest)))
  | _ => EmptyString
  end.

End Python.

(* ===================================================================== *)
(** * Part II: theorems                                                   *)
(* ===================================================================== *)

(** ** Strings and the builder *)

Section StringFacts.

Lemma append_assoc (a b c : string) : (a +:+ b) +:+ c = a +:+ (b +:+ c).
Proof. induction a as [|x a IH]; simpl; [reflexivity | now rewrite IH]. Qed.

Lemma append_empty_r (a : string) : a +:+ "" = a.
Proof. induction a as [|x a IH]; simpl; [reflexivity | now rewrite IH]. Qed.

Lemma HasPrefix_append (p s : string) : HasPrefix (p +:+ s) p = true.
Proof.
  induction p as [|x p IH]; simpl; [reflexivity |].
  now rewrite Ascii.eqb_refl.
Qed.

Lemma Contains_HasPrefix (s sub : string) :
  HasPrefix s sub = true -> Contains s sub = true.
Proof. intros Hp. destruct s; simpl in *; rewrite Hp; reflexivity. Qed.

Lemma Contains_append_l (a s sub : string) :
  Contains s sub = true -> Contains (a +:+ s) sub = true.
Proof.
  intros Hc. induction a as [|x a IH]; simpl; [exact Hc |].
  rewrite IH. apply orb_true_r.
Qed.

Lemma Contains_middle (a b c : string) : Contains (a +:+ b +:+ c) b = true.
Proof. apply Contains_append_l, Contains_HasPrefix, HasPrefix_append. Qed.

Lemma join_app (l1 l2 : list string) : join (l1 ++ l2) = join l1 +:+ join l2.
Proof.
  induction l1 as [|s l1 IH]; simpl; [reflexivity |].
  now rewrite IH, append_assoc.
Qed.

(** The buffer of a builder is always the concatenation of what was
    written to it. *)
Definition consistent (sb : Builder) : Prop := buf sb = join (written sb).

Lemma consistent_new : consistent newBuilder.
Proof. reflexivity. Qed.

Lemma consistent_WriteString (sb : Builder) (s : string) :
  consistent sb -> consistent (WriteString sb s).
Proof.
  unfold consistent. intros Hc. simpl.
  rewrite join_app, Hc. simpl. now rewrite append_empty_r.
Qed.

Lemma written_fold (f : string -> string) (l : list string) (sb : Builder) :
  written (fold_left (fun sb p => WriteString sb (f p)) l sb)
  = written sb ++ map f l.
Proof.
  revert sb. induction l as [|p l IH]; intros sb; simpl.
  - now rewrite app_nil_r.
  - rewrite IH. simpl. now rewrite <- app_assoc.
Qed.

Lemma consistent_fold (f : string -> string) (l : list string) (sb : Builder) :
  consistent sb ->
  consistent (fold_left (fun sb p => WriteString sb (f p)) l sb).
Proof.
  revert sb. induction l as [|p l IH]; intros sb Hc; simpl; [exact Hc |].
  apply IH, consistent_WriteString, Hc.
Qed.

End StringFacts.

(** ** The denial classifier and the reason it extracts *)

Section ClassifierFacts.
Context `{Unicode} `{Platform}.
Import Sandbox.

(** The spec's fourth rule presupposes that none of the first three
    fired. *)
Definition exitCodeIs (n : Z) (err : option error) : bool :=
  match err with
  | Some (ExitError code) => (code =? n)%Z
  | _ => false
  end.

(** The classification of the spec, rule by rule, first hit wins, on the
    case-folded output and the exit outcome. *)
Definition classifyBySpec (lower : string) (err : option error) : bool :=
  if Contains lower "sandbox" && Contains lower "deny" then true        (* 1 *)
  else if Contains lower "operation not permitted" then true            (* 2 *)
  else if exitCodeIs 1 err &&
          (Contains lower "permission denied" || Contains lower "not permitted")
  then true                                                             (* 3 *)
  else false.                                                           (* 4 *)

Lemma isSandboxDenial_spec (output : string) (err : option error) :
  isSandboxDenial output err = classifyBySpec (ToLower output) err.
Proof.
  unfold isSandboxDenial, classifyBySpec, exitCodeIs.
  destruct (Contains (ToLower output) "sandbox" && Contains (ToLower output) "deny");
    [reflexivity |].
  destruct (Contains (ToLower output) "operation not permitted"); [reflexivity |].
  destruct err as [[code| | | | | |]|]; reflexivity.
Qed.

(** C1.  [isSandboxDenial] decides by the four rules of the spec, in
    order, on the case-folded output: (1) "sandbox" and "deny" both occur:
    denial whatever the exit outcome; (2) "operation not permitted"
    occurs: denial; (3) the process exited with code exactly 1 and
    "permission denied" or "not permitted" occurs: denial; (4) in every
    other case, and so for every output in which none of the patterns
    occurs, whatever the exit code: no denial. *)
Theorem isSandboxDenial_four_rules (output : string) (err : option error) :
  let lower := ToLower output in
  isSandboxDenial output err = classifyBySpec lower err /\
  (Contains lower "sandbox" = true /\ Contains lower "deny" = true ->
   isSandboxDenial output err = true) /\
  (Contains lower "operation not permitted" = true ->
   isSandboxDenial output err = true) /\
  (err = Some (ExitError 1) ->
   Contains lower "permission denied" = true \/
   Contains lower "not permitted" = true ->
   isSandboxDenial output err = true) /\
  (isSandboxDenial output err = true ->
   (Contains lower "sandbox" = true /\ Contains lower "deny" = true) \/
   Contains lower "operation not permitted" = true \/
   (err = Some (ExitError 1) /\
    (Contains lower "permission denied" = true \/
     Contains lower "not permitted" = true))) /\
  (Contains lower "sandbox" && Contains lower "deny" = false ->
   Contains lower "operation not permitted" = false ->
   Contains lower "permission denied" = false ->
   Contains lower "not permitted" = false ->
   isSandboxDenial output err = false).
Proof.
  intros lower. split; [apply isSandboxDenial_spec |].
  rewrite isSandboxDenial_spec. fold lower.
  unfold classifyBySpec, exitCodeIs.
  split; [| split; [| split; [| split]]].
  - intros [-> ->]. reflexivity.
  - intros ->. now destruct (_ && _).
  - intros -> Hp. simpl.
    destruct (_ && _); [reflexivity |].
    destruct (Contains lower "operation not permitted"); [reflexivity |].
    now destruct Hp as [-> | ->]; rewrite ?orb_true_r.
  - destruct (Contains lower "sandbox" && Contains lower "deny") eqn:E1.
    { apply andb_true_iff in E1. now left. }
    destruct (Contains lower "operation not permitted") eqn:E2.
    { right. now left. }
    destruct err as [[code| | | | | |]|]; try discriminate.
    destruct (code =? 1)%Z eqn:Ec; [| discriminate].
    apply Z.eqb_eq in Ec. subst code. simpl.
    destruct (Contains lower "permission denied" || Contains lower "not permitted")
      eqn:E3; [| discriminate].
    apply orb_true_iff in E3. intros _. right. right. now split.
  - intros -> -> -> ->. now rewrite andb_false_r.
Qed.

(** C8.  [extractSandboxReason] follows the priority order of the spec on
    the case-folded output: "network", then "write" or "permission
    denied", then "exec", then "read"; after these the output itself
    decides: longer than 100 bytes, its first 100 bytes followed by
    "..."; otherwise, if not empty, the output as it is; otherwise the
    fixed text. *)
Theorem extractSandboxReason_priority (output : string) :
  let lower := ToLower output in
  let reason := extractSandboxReason output in
  (Contains lower "network" = true -> reason = "network access denied") /\
  (Contains lower "network" = false ->
   (Contains lower "write" = true \/ Contains lower "permission denied" = true ->
    reason = "write access denied") /\
   (Contains lower "write" = false -> Contains lower "permission denied" = false ->
    (Contains lower "exec" = true -> reason = "execution denied") /\
    (Contains lower "exec" = false ->
     (Contains lower "read" = true -> reason = "read access denied") /\
     (Contains lower "read" = false ->
      (100 < String.length output ->
       reason = substring 0 100 output +:+ "...") /\
      (String.length output <= 100 -> output <> "" -> reason = output) /\
      (output = "" -> reason = "sandbox policy violation"))))).
Proof.
  intros lower reason. unfold reason, extractSandboxReason. fold lower.
  split; [intros ->; reflexivity |].
  intros ->. split.
  { intros [-> | ->]; [reflexivity | now rewrite orb_true_r]. }
  intros -> ->. simpl. split; [intros ->; reflexivity |].
  intros ->. split; [intros ->; reflexivity |].
  intros ->. split; [| split].
  - intros Hlen. apply Nat.ltb_lt in Hlen. now rewrite Hlen.
  - intros Hlen Hne.
    destruct (100 <? String.length output)%nat eqn:E.
    { apply Nat.ltb_lt in E. lia. }
    destruct (String.eqb output "") eqn:E2; [| reflexivity].
    apply String.eqb_eq in E2. contradiction.
  - intros ->. reflexivity.
Qed.

End ClassifierFacts.

(** ** The policy compiler *)

Section ProfileFacts.
Context `{Unicode} `{Platform}.
Import Sandbox.

(** A read rule, by its text. *)
Definition isReadRule (s : string) : bool :=
  HasPrefix s ("(allow file-read* (subpath " +:+ dq).
Definition networkRule (allow : bool) : string :=
  if allow then "(allow network*)" +:+ nl else "(deny network*)" +:+ nl.

Definition preamble : list string :=
  ["(version 1)" +:+ nl; "(deny default)" +:+ nl;
   "(allow process-fork)" +:+ nl; "(allow process-exec)" +:+ nl].

Definition essentials : list string :=
  ["(allow file-read-metadata)" +:+ nl; "(allow sysctl-read)" +:+ nl;
   "(allow mach-lookup)" +:+ nl; "(allow signal)" +:+ nl;
   "(allow iokit-open)" +:+ nl; ptyRule; ioctlRule].

Lemma generateProfile_written (config : SandboxConfig) :
  written (generateProfile_sb config)
  = preamble ++ map readRule (ReadPaths config)
      ++ map writeRule (WritePaths config)
      ++ map execRule (ExecPaths config)
      ++ essentials ++ [networkRule (AllowNetwork config)].
Proof.
  unfold generateProfile_sb, networkRule.
  destruct (AllowNetwork config); simpl;
    rewrite !written_fold; simpl; rewrite <- !app_assoc; reflexivity.
Qed.

Lemma generateProfile_consistent (config : SandboxConfig) :
  consistent (generateProfile_sb config).
Proof.
  unfold generateProfile_sb.
  assert (Hw : forall sb s, consistent sb -> consistent (WriteString sb s))
    by (intros; now apply consistent_WriteString).
  destruct (AllowNetwork config);
    repeat (first [ apply Hw | apply consistent_fold ]); apply consistent_new.
Qed.

(** The number of places of [s] at which [sub] begins. *)
Fixpoint occurs (sub s : string) : nat :=
  (if HasPrefix s sub then 1 else 0) +
  match s with
  | EmptyString => 0
  | String _ s' => occurs sub s'
  end.

(** No byte of [s] is an opening parenthesis. *)
Fixpoint parenFree (s : string) : bool :=
  match s with
  | EmptyString => true
  | String c s' => negb (Ascii.eqb c "("%char) && parenFree s'
  end.

(** [sub] begins with an opening parenthesis. *)
Definition startsParen (sub : string) : bool := HasPrefix sub "(".

(** Whether [sub] begins at the head of [l ++ rest] is settled by [l]
    alone: [sub] fits into [l], or they differ on a byte of [l]. *)
Definition settled (sub l : string) : bool :=
  HasPrefix l sub || negb (HasPrefix sub l).

Fixpoint clean (sub l : string) : bool :=
  match l with
  | EmptyString => true
  | String _ l' => settled sub l && clean sub l'
  end.

Lemma HasPrefix_settled (sub l rest : string) :
  settled sub l = true -> HasPrefix (l +:+ rest) sub = HasPrefix l sub.
Proof.
  unfold settled. revert l. induction sub as [|a sub IH]; intros l Hs; [reflexivity |].
  destruct l as [|b l]; [discriminate Hs |].
  cbn [String.append HasPrefix] in *.
  rewrite (Ascii.eqb_sym b a) in Hs.
  destruct (Ascii.eqb a b); [| reflexivity]. now apply IH.
Qed.

Lemma occurs_app (sub l rest : string) :
  sub <> "" -> clean sub l = true ->
  occurs sub (l +:+ rest) = occurs sub l + occurs sub rest.
Proof.
  intros Hsub. induction l as [|c l IH]; intros Hc.
  - cbn [String.append]. destruct sub as [|a sub]; [now contradiction Hsub |].
    reflexivity.
  - cbn [clean] in Hc. apply andb_prop in Hc as [Hs Hc].
    change (String c l +:+ rest) with (String c (l +:+ rest)).
    cbn [occurs]. change (String c (l +:+ rest)) with (String c l +:+ rest).
    rewrite (HasPrefix_settled sub (String c l) rest Hs), (IH Hc). lia.
Qed.

Lemma parenFree_clean (sub p : string) :
  startsParen sub = true -> parenFree p = true ->
  clean sub p = true /\ occurs sub p = 0.
Proof.
  unfold startsParen. destruct sub as [|a sub]; [discriminate |].
  cbn [HasPrefix]. intros Ha.
  assert (Ea : a = "("%char).
  { destruct (Ascii.eqb_spec "("%char a) as [<- |]; [reflexivity | discriminate Ha]. }
  subst a. clear Ha.
  induction p as [|c p IH]; intros Hp; [now split |].
  cbn [parenFree] in Hp. apply andb_prop in Hp as [Hc Hp].
  destruct (IH Hp) as (IHc & IHo).
  assert (Hne : Ascii.eqb "("%char c = false).
  { rewrite Ascii.eqb_sym. now apply negb_true_iff. }
  apply negb_true_iff in Hc.
  cbn [clean occurs]. unfold settled. cbn [HasPrefix]. rewrite Hne, Hc.
  cbn. now rewrite IHc, IHo.
Qed.

(** The heads of the three kinds of subpath rule, and their common end. *)
Definition readHead : string := "(allow file-read* (subpath " +:+ dq.
Definition writeHead : string := "(allow file-write* (subpath " +:+ dq.
Definition execHead : string := "(allow process-exec (subpath " +:+ dq.
Definition ruleTail : string := dq +:+ "))" +:+ nl.

Lemma readRule_parts (p : string) : readRule p = readHead +:+ p +:+ ruleTail.
Proof. reflexivity. Qed.

Lemma writeRule_parts (p : string) : writeRule p = writeHead +:+ p +:+ ruleTail.
Proof. reflexivity. Qed.

Lemma execRule_parts (p : string) : execRule p = execHead +:+ p +:+ ruleTail.
Proof. reflexivity. Qed.

Lemma startsParen_nonempty (sub : string) : startsParen sub = true -> sub <> "".
Proof. intros Hs ->. discriminate Hs. Qed.

(** The rules of one category, followed by [rest]. *)
Lemma occurs_rules (sub head : string) (rule : string -> string)
    (paths : list string) (rest : string) :
  (forall p, rule p = head +:+ p +:+ ruleTail) ->
  startsParen sub = true -> clean sub head = true -> clean sub ruleTail = true ->
  Forall (fun p => parenFree p = true) paths ->
  occurs sub (join (map rule paths) +:+ rest)
  = List.length paths * (occurs sub head + occurs sub ruleTail) + occurs sub rest.
Proof.
  intros Hrule Hs Hhead Htail Hfree.
  pose proof (startsParen_nonempty sub Hs) as Hne.
  induction Hfree as [|p paths Hp _ IH]; [reflexivity |].
  cbn [map join List.length]. rewrite Hrule, !append_assoc.
  destruct (parenFree_clean sub p Hs Hp) as (Hpc & Hpo).
  rewrite (occurs_app sub head _ Hne Hhead), (occurs_app sub p _ Hne Hpc),
    (occurs_app sub ruleTail _ Hne Htail), IH, Hpo.
  lia.
Qed.

(** What has to be checked of [sub] against the fixed text of a profile. *)
Definition fixedClean (sub : string) : bool :=
  startsParen sub && clean sub (join preamble) && clean sub readHead
  && clean sub writeHead && clean sub execHead && clean sub ruleTail
  && clean sub (join essentials) && clean sub (networkRule true)
  && clean sub (networkRule false).

(** The paths of a configuration, of all three categories. *)
Definition allPaths (config : SandboxConfig) : list string :=
  ReadPaths config ++ WritePaths config ++ ExecPaths config.

Lemma generateProfile_text (config : SandboxConfig) :
  generateProfile config
  = join preamble +:+ join (map readRule (ReadPaths config))
    +:+ join (map writeRule (WritePaths config))
    +:+ join (map execRule (ExecPaths config))
    +:+ join essentials +:+ networkRule (AllowNetwork config).
Proof.
  rewrite (generateProfile_consistent config : generateProfile _ = _).
  rewrite generateProfile_written, !join_app. cbn [join].
  now rewrite append_empty_r.
Qed.

Lemma occurs_profile (sub : string) (config : SandboxConfig) :
  fixedClean sub = true ->
  Forall (fun p => parenFree p = true) (allPaths config) ->
  occurs sub (generateProfile config)
  = occurs sub (join preamble)
    + List.length (ReadPaths config) * (occurs sub readHead + occurs sub ruleTail)
    + List.length (WritePaths config) * (occurs sub writeHead + occurs sub ruleTail)
    + List.length (ExecPaths config) * (occurs sub execHead + occurs sub ruleTail)
    + occurs sub (join essentials)
    + occurs sub (networkRule (AllowNetwork config)).
Proof.
  unfold fixedClean, allPaths. intros Hfixed Hfree.
  repeat (apply andb_prop in Hfixed as [Hfixed ?]).
  apply Forall_app in Hfree as [Hr Hfree]. apply Forall_app in Hfree as [Hw He].
  pose proof (startsParen_nonempty sub Hfixed) as Hne.
  rewrite generateProfile_text.
  rewrite (occurs_app sub (join preamble) _ Hne) by assumption.
  rewrite (occurs_rules sub readHead readRule _ _ readRule_parts) by assumption.
  rewrite (occurs_rules sub writeHead writeRule _ _ writeRule_parts) by assumption.
  rewrite (occurs_rules sub execHead execRule _ _ execRule_parts) by assumption.
  rewrite (occurs_app sub (join essentials) _ Hne) by assumption.
  lia.
Qed.

(** Replaces the count of [sub] in the fixed text [t] by its value. *)
Ltac count_fixed :=
  repeat match goal with
         | |- context [occurs ?sub ?t] =>
             let v := eval vm_compute in (occurs sub t) in
             change (occurs sub t) with v
         end.

(** C2, as the code has it.  The compiled profile is a function of the
    configuration alone: the fixed preamble, then one subpath rule for
    each entry of [ReadPaths], of [WritePaths] and of [ExecPaths], then
    the fixed system essentials and one network rule, in this order, with
    the text of each path put between the quotes as it is.  When no path
    contains an opening parenthesis, the text of the profile holds exactly
    as many rules of each category as the configuration has entries for
    it, exactly one default-deny declaration, and exactly one network
    rule, which allows exactly when [AllowNetwork] is set. *)
Theorem generateProfile_one_rule_per_entry (config : SandboxConfig) :
  generateProfile config
  = join preamble +:+ join (map readRule (ReadPaths config))
    +:+ join (map writeRule (WritePaths config))
    +:+ join (map execRule (ExecPaths config))
    +:+ join essentials +:+ networkRule (AllowNetwork config) /\
  (Forall (fun p => parenFree p = true) (allPaths config) ->
   occurs readHead (generateProfile config) = List.length (ReadPaths config) /\
   occurs writeHead (generateProfile config) = List.length (WritePaths config) /\
   occurs execHead (generateProfile config) = List.length (ExecPaths config) /\
   occurs "(deny default)" (generateProfile config) = 1 /\
   occurs "(allow network*)" (generateProfile config)
   = (if AllowNetwork config then 1 else 0) /\
   occurs "(deny network*)" (generateProfile config)
   = (if AllowNetwork config then 0 else 1)).
Proof.
  split; [apply generateProfile_text |].
  intros Hfree.
  split; [| split; [| split; [| split; [| split]]]];
    (rewrite occurs_profile by (try exact Hfree; vm_compute; reflexivity));
    destruct (AllowNetwork config); count_fixed; lia.
Qed.

(** C10.  The default configuration reads from the single entry "/",
    denies the network and allows the fallback; the profile compiled from
    it has exactly one read rule, the one for the subtree "/", which is
    the whole file system. *)
Theorem DefaultSandboxConfig_reads_root :
  ReadPaths DefaultSandboxConfig = ["/"] /\
  AllowNetwork DefaultSandboxConfig = false /\
  FallbackOutsideSandbox DefaultSandboxConfig = true /\
  List.filter isReadRule (written (generateProfile_sb DefaultSandboxConfig))
    = [readRule "/"] /\
  Contains (generateProfile DefaultSandboxConfig) (readRule "/") = true.
Proof.
  split; [reflexivity |]. split; [reflexivity |]. split; [reflexivity |].
  split.
  - rewrite generateProfile_written. reflexivity.
  - rewrite (generateProfile_consistent DefaultSandboxConfig : generateProfile _ = _).
    rewrite generateProfile_written.
    change (ReadPaths DefaultSandboxConfig) with ["/"].
    rewrite join_app. simpl map.
    change (join ([readRule "/"] ++ ?l)) with (readRule "/" +:+ join l).
    apply Contains_middle.
Qed.

End ProfileFacts.

(** ** The text of an assistant message *)

Section ContentFacts.
Context `{Unicode} `{Platform} `{Host}.
Import Orchestrator.

(** A typed part is a JSON object; its type is its "type" member. *)
Definition isTextPart (part : Any) : bool :=
  match part with
  | AnyMap m =>
      String.eqb (argString m "type") "text"
      || String.eqb (argString m "type") "output_text"
  | _ => false
  end.

Definition partText (part : Any) : string :=
  match part with
  | AnyMap m => argString m "text"
  | _ => ""
  end.

(** The text of a content value, in the words of the spec. *)
Definition textOfContent (content : Any) : string :=
  match content with
  | AnyString s => s
  | AnyList parts => join (map partText (List.filter isTextPart parts))
  | _ => ""
  end.

Lemma writePart_text (b : Builder) (part : Any) :
  buf (writePart b part)
  = buf b +:+ (if isTextPart part then partText part else "").
Proof.
  destruct part as [| | | |l|m]; simpl; try (now rewrite append_empty_r).
  destruct (String.eqb (argString m "type") "text");
    destruct (String.eqb (argString m "type") "output_text"); simpl;
    try (now rewrite append_empty_r);
    destruct (String.eqb (argString m "text") "") eqn:E; try reflexivity;
    apply String.eqb_eq in E; rewrite E; now rewrite append_empty_r.
Qed.

Lemma fold_writePart (parts : list Any) (b : Builder) :
  buf (fold_left writePart parts b)
  = buf b +:+ join (map partText (List.filter isTextPart parts)).
Proof.
  revert b. induction parts as [|part parts IH]; intros b; simpl.
  - now rewrite append_empty_r.
  - rewrite IH, writePart_text.
    destruct (isTextPart part); simpl.
    + now rewrite append_assoc.
    + now rewrite append_empty_r.
Qed.

(** C9.  The text extracted from an assistant message is its content when
    that is a plain string; when it is a list of parts, the texts of the
    parts whose type is "text" or "output_text", in order, one after the
    other, every other part being skipped; and the empty string for any
    other content (and for no message at all). *)
Theorem messageContent_text (msg : Message) :
  messageContent (Some msg) = textOfContent (Content msg) /\
  messageContent None = "" /\
  (forall s, Content msg = AnyString s -> messageContent (Some msg) = s) /\
  (forall parts, Content msg = AnyList parts ->
     messageContent (Some msg)
     = join (map partText (List.filter isTextPart parts))) /\
  (forall parts part, Content msg = AnyList (parts ++ [part]) ->
     messageContent (Some msg)
     = messageContent (Some (mkMessage (Role msg) (AnyList parts)
                                (ToolCalls msg) (ToolCallID msg)))
       +:+ (if isTextPart part then partText part else "")) /\
  ((forall s, Content msg <> AnyString s) ->
   (forall parts, Content msg <> AnyList parts) ->
   messageContent (Some msg) = "").
Proof.
  assert (Hmain : messageContent (Some msg) = textOfContent (Content msg)).
  { unfold messageContent, textOfContent.
    destruct (Content msg); try reflexivity.
    unfold String_. now rewrite fold_writePart. }
  split; [exact Hmain |]. split; [reflexivity |].
  rewrite Hmain.
  split; [| split; [| split]].
  - intros s ->. reflexivity.
  - intros parts ->. reflexivity.
  - intros parts part ->. simpl.
    unfold String_. rewrite fold_writePart. simpl.
    rewrite List.filter_app, map_app, join_app. simpl.
    destruct (isTextPart part); simpl; now rewrite ?append_empty_r.
  - intros Hs Hl. destruct (Content msg) eqn:E; try reflexivity.
    + now destruct (Hs s).
    + now destruct (Hl l).
Qed.

End ContentFacts.

(** ** What a computation adds to the trace *)

Section EffectFacts.
Context `{Unicode} `{Platform} `{Host}.
Import Sandbox Executor Tools.

(** The events recorded between two states of one run. *)
Definition since (st st' : State) : list Event :=
  drop (List.length (trace st)) (trace st').

(** Every event that [c] records satisfies [P]. *)
Definition emits {A} (c : M A) (P : Event -> Prop) : Prop :=
  forall st, exists evs, trace (snd (c st)) = trace st ++ evs /\ Forall P evs.

Lemma since_app (st st' : State) (evs : list Event) :
  trace st' = trace st ++ evs -> since st st' = evs.
Proof. intros E. unfold since. rewrite E. apply drop_app_length. Qed.

Lemma emits_ret {A} (a : A) P : emits (ret a) P.
Proof. intros st. exists []. simpl. now rewrite app_nil_r. Qed.

Lemma emits_liftW {A} (f : World -> A * World) P : emits (liftW f) P.
Proof.
  intros st. exists []. unfold liftW. destruct (f (world st)). simpl.
  now rewrite app_nil_r.
Qed.

Lemma emits_notify (f : World -> World) P : emits (notify f) P.
Proof. intros st. exists []. simpl. now rewrite app_nil_r. Qed.

Lemma emits_emit (e : Event) (P : Event -> Prop) : P e -> emits (emit e) P.
Proof. intros He st. exists [e]. simpl. split; [reflexivity | now constructor]. Qed.

Lemma emits_bind {A B} (c : M A) (k : A -> M B) P :
  emits c P -> (forall a, emits (k a) P) -> emits (bind c k) P.
Proof.
  intros Hc Hk st. unfold bind.
  destruct (Hc st) as (evs1 & E1 & F1).
  destruct (c st) as [a st1]. simpl in E1.
  destruct (Hk a st1) as (evs2 & E2 & F2).
  exists (evs1 ++ evs2). split.
  - now rewrite E2, E1, app_assoc.
  - now apply Forall_app.
Qed.

Lemma emits_weaken {A} (c : M A) (P Q : Event -> Prop) :
  (forall e, P e -> Q e) -> emits c P -> emits c Q.
Proof.
  intros HPQ Hc st. destruct (Hc st) as (evs & E & F).
  exists evs. split; [exact E |]. eapply Forall_impl; eauto.
Qed.

Lemma emits_GetExecutor P : emits GetExecutor P.
Proof.
  intros st. exists []. unfold GetExecutor.
  destruct (defaultExecutor st); simpl; now rewrite app_nil_r.
Qed.

End EffectFacts.

Ltac emits_step :=
  first
    [ apply emits_ret
    | apply emits_liftW
    | apply emits_notify
    | apply emits_GetExecutor
    | apply emits_emit; exact I
    | apply emits_bind; [| intros ?]
    | match goal with
      | |- emits (match ?x with _ => _ end) _ => destruct x
      end ].

Section ToolFacts.
Context `{Unicode} `{Platform} `{Host}.
Import Sandbox Executor Tools.

(** The events of running a tool: child processes, file tools and the
    fallback question. *)
Definition isToolEvent (e : Event) : Prop :=
  match e with
  | EvSandboxExec _ _ | EvSh _ | EvFileTool _ | EvOnSandboxFallback _ _ _ => True
  | _ => False
  end.

Lemma emits_Run (e : ShellExecutor) (command : string) :
  emits (Run e command) isToolEvent.
Proof.
  destruct e; unfold Run, SandboxedRun, PassthroughRun; repeat emits_step.
Qed.

Lemma emits_ExecuteShell (command : string) :
  emits (ExecuteShell command) isToolEvent.
Proof.
  unfold ExecuteShell. emits_step; [emits_step |].
  emits_step; [apply emits_Run | emits_step].
Qed.

Lemma emits_ExecuteShellUnsandboxed (command : string) :
  emits (ExecuteShellUnsandboxed command) isToolEvent.
Proof.
  unfold ExecuteShellUnsandboxed.
  emits_step; [apply (emits_Run PassthroughExecutor) | emits_step].
Qed.

Lemma emits_ExecuteShellWithSandbox (command : string) (cb : Callback2) :
  emits (ExecuteShellWithSandbox command cb) isToolEvent.
Proof.
  unfold ExecuteShellWithSandbox, IsSandboxEnabled.
  repeat first [ apply emits_ExecuteShellUnsandboxed
               | apply emits_ExecuteShell
               | emits_step ].
Qed.

Lemma emits_ExecuteTool (name : string) (args : gmap string Any) :
  emits (ExecuteTool name args) isToolEvent.
Proof.
  unfold ExecuteTool, ExecutePython.
  repeat first [ apply emits_ExecuteShell | emits_step ].
Qed.

End ToolFacts.

(** ** The conversation orchestrator *)

Section OrchestratorFacts.
Context `{Unicode} `{Platform} `{Host}.
Import Sandbox Executor Tools Orchestrator.

Lemma bind_run {A B} (c : M A) (k : A -> M B) (st st1 : State) (a : A) :
  c st = (a, st1) -> bind c k st = k a st1.
Proof. intros E. unfold bind. now rewrite E. Qed.

(** The events of a batch of tool calls that is not cancelled. *)
Definition batchEvent (e : Event) : Prop :=
  isToolEvent e \/ exists name args, e = EvOnToolCall name args true.

Lemma batchEvent_tool (e : Event) : isToolEvent e -> batchEvent e.
Proof. now left. Qed.

Lemma declined_spec (a : Agent) (name : string) (args : gmap string Any)
    (st : State) :
  exists evs : list Event,
    trace (snd (declined a name args st)) = trace st ++ evs /\
    ((fst (declined a name args st) = true /\ evs = [EvOnToolCall name args false])
     \/ (fst (declined a name args st) = false /\ Forall batchEvent evs)).
Proof.
  unfold declined. destruct (OnToolCall a) as [f|].
  - unfold bind, liftW, emit, ret.
    destruct (f name args (world st)) as [ok w] eqn:E. simpl.
    exists [EvOnToolCall name args ok]. split; [reflexivity |].
    destruct ok; [right | left]; split; try reflexivity.
    constructor; [| constructor]. right. eauto.
  - exists []. simpl. rewrite app_nil_r. split; [reflexivity |].
    right. split; [reflexivity | constructor].
Qed.

(** The tool run for one call of a batch, and the hook after it. *)
Definition runTool (a : Agent) (tc : ToolCall) : M ToolResult :=
  let args := Unmarshal (Arguments (Function tc)) in
  if String.eqb (Name (Function tc)) "run_shell" then
    ExecuteShellWithSandbox (argString args "command") (OnSandboxFallback a)
  else ExecuteTool (Name (Function tc)) args.

Definition toolDone (a : Agent) (tc : ToolCall) (result : ToolResult) : M unit :=
  match OnToolDone a with
  | Some f =>
      notify (f (Name (Function tc)) (Unmarshal (Arguments (Function tc))) result)
  | None => ret tt
  end.

Definition toolMessage (tc : ToolCall) (result : ToolResult) : Message :=
  mkMessage "tool" (AnyString (Output result)) [] (ID tc).

(** One pass through the loop over the tool calls, every state named. *)
Lemma runToolCalls_cons (a : Agent) (tc : ToolCall) (rest : list ToolCall)
    (acc : list Message) (st : State) :
  runToolCalls a (tc :: rest) acc st =
  let d := declined a (Name (Function tc)) (Unmarshal (Arguments (Function tc))) st in
  if fst d then ((true, acc), snd d)
  else
    let r := runTool a tc (snd d) in
    let st3 := snd (toolDone a tc (fst r) (snd r)) in
    runToolCalls a rest (acc ++ [toolMessage tc (fst r)]) st3.
Proof.
  cbn [runToolCalls]. unfold bind at 1.
  destruct (declined a _ _ st) as [[] st1]; cbn [fst snd]; [reflexivity |].
  fold (runTool a tc). unfold bind at 1.
  destruct (runTool a tc st1) as [result st2]. cbn [fst snd]. cbv zeta.
  fold (toolDone a tc result). unfold bind at 1.
  now destruct (toolDone a tc result st2) as [[] st3].
Qed.

Lemma emits_runTool (a : Agent) (tc : ToolCall) : emits (runTool a tc) batchEvent.
Proof.
  apply emits_weaken with (P := isToolEvent); [apply batchEvent_tool |].
  unfold runTool. destruct (String.eqb _ _).
  - apply emits_ExecuteShellWithSandbox.
  - apply emits_ExecuteTool.
Qed.

Lemma toolDone_trace (a : Agent) (tc : ToolCall) (result : ToolResult)
    (st : State) :
  trace (snd (toolDone a tc result st)) = trace st.
Proof. unfold toolDone. now destruct (OnToolDone a). Qed.

(** A batch that is not cancelled records tool events and approvals only;
    a cancelled one ends with the refusal. *)
Lemma runToolCalls_trace (a : Agent) (tcs : list ToolCall) :
  forall (acc : list Message) (st : State),
  exists evs : list Event,
    trace (snd (runToolCalls a tcs acc st)) = trace st ++ evs /\
    if fst (fst (runToolCalls a tcs acc st))
    then exists pre name args,
           evs = pre ++ [EvOnToolCall name args false] /\ Forall batchEvent pre
    else Forall batchEvent evs.
Proof.
  induction tcs as [|tc rest IH]; intros acc st.
  - exists []. simpl. rewrite app_nil_r. split; [reflexivity | constructor].
  - rewrite runToolCalls_cons. cbv zeta.
    destruct (declined_spec a (Name (Function tc))
                (Unmarshal (Arguments (Function tc))) st) as (evd & Ed & Hd).
    destruct (declined a _ _ st) as [stop st1]. cbn [fst snd] in *.
    destruct Hd as [[-> ->] | [-> Fd]].
    + exists [EvOnToolCall (Name (Function tc))
                (Unmarshal (Arguments (Function tc))) false].
      cbn [fst snd]. split; [exact Ed |]. exists [], (Name (Function tc)),
        (Unmarshal (Arguments (Function tc))). split; [reflexivity | constructor].
    + destruct (emits_runTool a tc st1) as (evt & Et & Ft).
      destruct (runTool a tc st1) as [result st2]. cbn [fst snd] in *.
      pose proof (toolDone_trace a tc result st2) as Hdone.
      destruct (IH (acc ++ [toolMessage tc result])
                  (snd (toolDone a tc result st2))) as (evr & Er & Hr).
      exists (evd ++ evt ++ evr). split.
      { rewrite Er, Hdone, Et, Ed. now rewrite <- !app_assoc. }
      destruct (fst (fst (runToolCalls a rest _ _))).
      * destruct Hr as (pre & name & args & -> & Fpre).
        exists (evd ++ evt ++ pre), name, args. split.
        { now rewrite <- !app_assoc. }
        now repeat apply Forall_app_2.
      * now repeat apply Forall_app_2.
Qed.

Lemma announce_trace (a : Agent) (content : string) (st : State) :
  trace (snd (announce a content st)) = trace st.
Proof.
  unfold announce. destruct (OnMessage a); [| reflexivity].
  now destruct (negb _).
Qed.

(** The state after the model round-trip of a turn. *)
Definition afterModel (history : list Message) (st : State) : State :=
  mkState (snd (ChatCompletion history (world st))) (defaultExecutor st)
    (trace st ++ [EvChatCompletion history]).

(** [chatTurn], with every intermediate state named. *)
Lemma chatTurn_unfold (a : Agent) (history : list Message) (st : State) :
  chatTurn a history st =
  match fst (ChatCompletion history (world st)) with
  | inr err => (Return ("", Some err) history, afterModel history st)
  | inl msg =>
      let content := messageContent (Some msg) in
      let st1 := snd (announce a content (afterModel history st)) in
      if (List.length (ToolCalls msg) =? 0)%nat then
        if String.eqb content "" then
          (Return ("", Some ErrEmptyResponse) (history ++ [msg]), st1)
        else (Return (content, None) (history ++ [msg]), st1)
      else
        let b := runToolCalls a (ToolCalls msg) [] st1 in
        if fst (fst b) then
          (Return ("", None)
             (take (List.length (history ++ [msg]) - 1) (history ++ [msg])),
           snd b)
        else (Next ((history ++ [msg]) ++ snd (fst b)), snd b)
  end.
Proof.
  unfold chatTurn, afterModel, bind, emit, liftW. cbn [fst snd world trace defaultExecutor].
  destruct (ChatCompletion history (world st)) as [[msg | err] w1];
    cbn [fst snd]; [| reflexivity].
  destruct (announce a (messageContent (Some msg)) _) as [[] st1].
  cbn [fst snd].
  destruct (List.length (ToolCalls msg) =? 0)%nat.
  - now destruct (String.eqb _ _).
  - destruct (runToolCalls a (ToolCalls msg) [] st1) as [[[] trs] st2];
      reflexivity.
Qed.

Definition isDecline (e : Event) : Prop :=
  exists name args, e = EvOnToolCall name args false.

Lemma batchEvent_not_decline (e : Event) : batchEvent e -> ~ isDecline e.
Proof.
  intros [Ht | (n & ar & ->)] (n' & ar' & E); [| discriminate].
  subst e. exact Ht.
Qed.

Lemma take_all_but_last {A} (l : list A) (x : A) :
  take (List.length (l ++ [x]) - 1) (l ++ [x]) = l.
Proof.
  rewrite length_app. simpl.
  replace (List.length l + 1 - 1) with (List.length l) by lia.
  now rewrite take_app_length.
Qed.

(** C3.  Whatever the history [history] at the start of a turn: if during
    the turn the approval hook declines a tool call, the turn ends the call
    of [Chat] with no answer and no error, and the history it leaves is
    [history] itself: the assistant message appended at the start of the
    turn is gone and no tool message of the batch was appended. *)
Theorem cancelled_turn_restores_history (a : Agent) (history : list Message)
    (st st' : State) (t : Turn (string * option error)) :
  chatTurn a history st = (t, st') ->
  (exists name args, In (EvOnToolCall name args false) (since st st')) ->
  t = Return ("", None) history.
Proof.
  rewrite chatTurn_unfold. intros Hrun (name & args & Hin).
  assert (Hno : forall evs, Forall batchEvent evs ->
                  since st st' = EvChatCompletion history :: evs -> False).
  { intros evs Fevs E. rewrite E in Hin. destruct Hin as [Hin | Hin]; [discriminate |].
    rewrite List.Forall_forall in Fevs. apply (batchEvent_not_decline _ (Fevs _ Hin)).
    now exists name, args. }
  destruct (fst (ChatCompletion history (world st))) as [msg | err].
  2:{ inversion Hrun; subst. exfalso. apply (Hno []); [constructor |].
      apply since_app. reflexivity. }
  cbv zeta in Hrun.
  pose proof (announce_trace a (messageContent (Some msg)) (afterModel history st))
    as Hann.
  set (st1 := snd (announce a (messageContent (Some msg)) (afterModel history st)))
    in *.
  destruct (List.length (ToolCalls msg) =? 0)%nat.
  { exfalso. apply (Hno []); [constructor |]. apply since_app.
    destruct (String.eqb _ _); inversion Hrun; subst; rewrite Hann; reflexivity. }
  destruct (runToolCalls_trace a (ToolCalls msg) [] st1) as (evs & E & Hevs).
  destruct (fst (fst (runToolCalls a (ToolCalls msg) [] st1))).
  - inversion Hrun; subst. now rewrite take_all_but_last.
  - exfalso. inversion Hrun; subst. apply (Hno evs Hevs). apply since_app.
    rewrite E, Hann. simpl. now rewrite <- app_assoc.
Qed.

(** ** The turn budget *)

Definition isModelCall (e : Event) : bool :=
  match e with
  | EvChatCompletion _ => true
  | _ => false
  end.

(** The number of model round-trips among some events. *)
Definition modelCalls (evs : list Event) : nat :=
  List.length (List.filter isModelCall evs).

Lemma modelCalls_app (l1 l2 : list Event) :
  modelCalls (l1 ++ l2) = modelCalls l1 + modelCalls l2.
Proof. unfold modelCalls. now rewrite List.filter_app, length_app. Qed.

Lemma modelCalls_batch (evs : list Event) :
  Forall batchEvent evs -> modelCalls evs = 0.
Proof.
  induction 1 as [|e evs He _ IH]; [reflexivity |].
  unfold modelCalls in *. simpl.
  destruct He as [Ht | (n & ar & ->)]; [| exact IH].
  destruct e; simpl in *; try contradiction; exact IH.
Qed.

(** The model never stops asking for tools. *)
Definition alwaysCallsTools : Prop :=
  forall (h : list Message) (w : World),
  exists msg w', ChatCompletion h w = (inl msg, w') /\ ToolCalls msg <> [].

(** The approval hook, if there is one, approves every call. *)
Definition neverDeclines (a : Agent) : Prop :=
  forall f name args w, OnToolCall a = Some f -> fst (f name args w) = true.

Lemma declined_approved (a : Agent) (name : string) (args : gmap string Any)
    (st : State) :
  neverDeclines a -> fst (declined a name args st) = false.
Proof.
  intros Hok. unfold declined. destruct (OnToolCall a) as [f|] eqn:Ehook.
  - unfold bind, liftW, emit, ret.
    pose proof (Hok f name args (world st) Ehook) as Hf.
    destruct (f name args (world st)) as [ok w]. simpl in Hf. now subst ok.
  - reflexivity.
Qed.

Lemma runToolCalls_approved (a : Agent) (tcs : list ToolCall) :
  neverDeclines a ->
  forall acc st, fst (fst (runToolCalls a tcs acc st)) = false.
Proof.
  intros Hok. induction tcs as [|tc rest IH]; intros acc st; [reflexivity |].
  rewrite runToolCalls_cons. cbv zeta.
  rewrite (declined_approved a _ _ st Hok). apply IH.
Qed.

Lemma chatTurn_next (a : Agent) (history : list Message) (st : State) :
  alwaysCallsTools -> neverDeclines a ->
  exists history' evs,
    fst (chatTurn a history st) = Next history' /\
    trace (snd (chatTurn a history st)) = trace st ++ evs /\
    modelCalls evs = 1.
Proof.
  intros Hmodel Hok. rewrite chatTurn_unfold.
  pose proof (announce_trace a) as Hann.
  unfold afterModel in *.
  destruct (Hmodel history (world st)) as (msg & w' & -> & Hcalls).
  cbn [fst snd]. cbv zeta.
  destruct (ToolCalls msg) as [|tc tcs] eqn:Etcs; [contradiction |].
  cbn [List.length Nat.eqb]. rewrite <- Etcs.
  rewrite (runToolCalls_approved a (ToolCalls msg) Hok).
  destruct (runToolCalls_trace a (ToolCalls msg) []
              (snd (announce a (messageContent (Some msg))
                      (mkState w' (defaultExecutor st)
                         (trace st ++ [EvChatCompletion history])))))
    as (evs & E & Hevs).
  rewrite (runToolCalls_approved a (ToolCalls msg) Hok) in Hevs.
  eexists. exists (EvChatCompletion history :: evs). cbn [fst snd].
  split; [reflexivity |]. split.
  - rewrite E, Hann. simpl. now rewrite <- app_assoc.
  - change (EvChatCompletion history :: evs)
      with ([EvChatCompletion history] ++ evs).
    rewrite modelCalls_app, (modelCalls_batch evs Hevs). reflexivity.
Qed.

Lemma chatLoop_budget (a : Agent) :
  alwaysCallsTools -> neverDeclines a ->
  forall (n fuel turns : nat) (history : list Message) (st : State),
  turns + n = maxChatTurns -> n < fuel ->
  exists history' evs,
    fst (chatLoop fuel a turns history st)
    = Some ("", Some ErrMaxTurnsExceeded, history') /\
    trace (snd (chatLoop fuel a turns history st)) = trace st ++ evs /\
    modelCalls evs = n.
Proof.
  intros Hmodel Hok. induction n as [|n IH]; intros fuel turns history st Hn Hfuel.
  - destruct fuel as [|fuel]; [lia |]. cbn [chatLoop].
    replace (maxChatTurns <=? turns)%nat with true
      by (symmetry; apply Nat.leb_le; lia).
    exists history, []. simpl. now rewrite app_nil_r.
  - destruct fuel as [|fuel]; [lia |]. cbn [chatLoop].
    replace (maxChatTurns <=? turns)%nat with false
      by (symmetry; apply Nat.leb_gt; lia).
    destruct (chatTurn_next a history st Hmodel Hok) as (h1 & evs1 & Et & Etr & Hc).
    destruct (chatTurn a history st) as [t st1] eqn:Eturn.
    rewrite (bind_run _ _ _ _ _ Eturn). simpl in Et, Etr. subst t.
    destruct (IH fuel (S turns) h1 st1) as (h2 & evs2 & Er & Etr2 & Hc2); [lia | lia |].
    exists h2, (evs1 ++ evs2). split; [exact Er |]. split.
    + now rewrite Etr2, Etr, app_assoc.
    + rewrite modelCalls_app. lia.
Qed.

Definition preTaskEnd (a : Agent) (task : PreTaskConfig) : M unit :=
  match OnPreTaskEnd a with
  | Some f => notify (f (TaskName task))
  | None => ret tt
  end.

Definition preTaskStart (a : Agent) (task : PreTaskConfig) : M unit :=
  match OnPreTaskStart a with
  | Some f => notify (f (TaskName task))
  | None => ret tt
  end.

Lemma preTaskEnd_trace (a : Agent) (task : PreTaskConfig) (st : State) :
  trace (snd (preTaskEnd a task st)) = trace st.
Proof. unfold preTaskEnd. now destruct (OnPreTaskEnd a). Qed.

Lemma preTaskStart_trace (a : Agent) (task : PreTaskConfig) (st : State) :
  trace (snd (preTaskStart a task st)) = trace st.
Proof. unfold preTaskStart. now destruct (OnPreTaskStart a). Qed.

(** [preTaskTurn], with every intermediate state named. *)
Lemma preTaskTurn_unfold (a : Agent) (task : PreTaskConfig)
    (taskMsgs : list Message) (st : State) :
  preTaskTurn a task taskMsgs st =
  match fst (ChatCompletion taskMsgs (world st)) with
  | inr err => (Return (Some err) taskMsgs, afterModel taskMsgs st)
  | inl msg =>
      let content := messageContent (Some msg) in
      let st1 := snd (announce a content (afterModel taskMsgs st)) in
      if (List.length (ToolCalls msg) =? 0)%nat then
        if String.eqb content "" then
          (Return (Some (ErrWrap ("pretask " +:+ TaskName task) ErrEmptyResponse))
             (taskMsgs ++ [msg]), st1)
        else (Return None (taskMsgs ++ [msg]), st1)
      else
        let b := runToolCalls a (ToolCalls msg) [] st1 in
        if fst (fst b) then
          (Return (Some ErrToolCancelled)
             (take (List.length (taskMsgs ++ [msg]) - 1) (taskMsgs ++ [msg])),
           snd (preTaskEnd a task (snd b)))
        else (Next ((taskMsgs ++ [msg]) ++ snd (fst b)), snd b)
  end.
Proof.
  unfold preTaskTurn, afterModel, bind, emit, liftW.
  cbn [fst snd world trace defaultExecutor].
  destruct (ChatCompletion taskMsgs (world st)) as [[msg | err] w1];
    cbn [fst snd]; [| reflexivity].
  destruct (announce a (messageContent (Some msg)) _) as [[] st1].
  cbn [fst snd].
  destruct (List.length (ToolCalls msg) =? 0)%nat.
  - now destruct (String.eqb _ _).
  - destruct (runToolCalls a (ToolCalls msg) [] st1) as [[[] trs] st2];
      cbn [fst snd]; [| reflexivity].
    fold (preTaskEnd a task). now destruct (preTaskEnd a task st2) as [[] st3].
Qed.

Lemma preTaskTurn_next (a : Agent) (task : PreTaskConfig)
    (taskMsgs : list Message) (st : State) :
  alwaysCallsTools -> neverDeclines a ->
  exists taskMsgs' evs,
    fst (preTaskTurn a task taskMsgs st) = Next taskMsgs' /\
    trace (snd (preTaskTurn a task taskMsgs st)) = trace st ++ evs /\
    modelCalls evs = 1.
Proof.
  intros Hmodel Hok. rewrite preTaskTurn_unfold.
  pose proof (announce_trace a) as Hann.
  unfold afterModel in *.
  destruct (Hmodel taskMsgs (world st)) as (msg & w' & -> & Hcalls).
  cbn [fst snd]. cbv zeta.
  destruct (ToolCalls msg) as [|tc tcs] eqn:Etcs; [contradiction |].
  cbn [List.length Nat.eqb]. rewrite <- Etcs.
  rewrite (runToolCalls_approved a (ToolCalls msg) Hok).
  destruct (runToolCalls_trace a (ToolCalls msg) []
              (snd (announce a (messageContent (Some msg))
                      (mkState w' (defaultExecutor st)
                         (trace st ++ [EvChatCompletion taskMsgs])))))
    as (evs & E & Hevs).
  rewrite (runToolCalls_approved a (ToolCalls msg) Hok) in Hevs.
  eexists. exists (EvChatCompletion taskMsgs :: evs). cbn [fst snd].
  split; [reflexivity |]. split.
  - rewrite E, Hann. simpl. now rewrite <- app_assoc.
  - change (EvChatCompletion taskMsgs :: evs)
      with ([EvChatCompletion taskMsgs] ++ evs).
    rewrite modelCalls_app, (modelCalls_batch evs Hevs). reflexivity.
Qed.

Lemma preTaskLoop_budget (a : Agent) (task : PreTaskConfig) :
  alwaysCallsTools -> neverDeclines a ->
  forall (n fuel turns : nat) (taskMsgs : list Message) (st : State),
  turns + n = maxPreTaskTurns -> n < fuel ->
  exists evs,
    fst (preTaskLoop fuel a task turns taskMsgs st)
    = Some (Some (ErrWrap ("pretask " +:+ TaskName task) ErrMaxTurnsExceeded)) /\
    trace (snd (preTaskLoop fuel a task turns taskMsgs st)) = trace st ++ evs /\
    modelCalls evs = n.
Proof.
  intros Hmodel Hok.
  induction n as [|n IH]; intros fuel turns taskMsgs st Hn Hfuel.
  - destruct fuel as [|fuel]; [lia |]. cbn [preTaskLoop].
    replace (maxPreTaskTurns <=? turns)%nat with true
      by (symmetry; apply Nat.leb_le; lia).
    exists []. simpl. now rewrite app_nil_r.
  - destruct fuel as [|fuel]; [lia |]. cbn [preTaskLoop].
    replace (maxPreTaskTurns <=? turns)%nat with false
      by (symmetry; apply Nat.leb_gt; lia).
    destruct (preTaskTurn_next a task taskMsgs st Hmodel Hok)
      as (h1 & evs1 & Et & Etr & Hc).
    destruct (preTaskTurn a task taskMsgs st) as [t st1] eqn:Eturn.
    rewrite (bind_run _ _ _ _ _ Eturn). simpl in Et, Etr. subst t.
    destruct (IH fuel (S turns) h1 st1) as (evs2 & Er & Etr2 & Hc2); [lia | lia |].
    exists (evs1 ++ evs2). split; [exact Er |]. split.
    + now rewrite Etr2, Etr, app_assoc.
    + rewrite modelCalls_app. lia.
Qed.

(** C7.  If every response of the model carries tool calls and the
    approval hook declines none of them, [Chat] returns, with the error
    [ErrMaxTurnsExceeded] (wrapped with the task's name when it is a
    pre-task that exhausts its budget), after exactly [maxChatTurns] model
    round-trips. *)
Theorem chat_stops_at_turn_budget (a : Agent) (input : string) (st : State) :
  alwaysCallsTools -> neverDeclines a ->
  exists (e : error) (a' : Agent) (st' : State),
    Chat a input st = (Some ("", Some e, a'), st') /\
    errors_Is e ErrMaxTurnsExceeded /\
    modelCalls (since st st') = maxChatTurns.
Proof.
  intros Hmodel Hok. unfold Chat.
  destruct (negb (preTasksDone a) && (0 <? List.length (PreTasks (config a)))%nat)
    eqn:Epre.
  - unfold runPreTasks.
    destruct (PreTasks (config a)) as [|task rest]; [now rewrite andb_false_r in Epre |].
    cbn [runPreTasksFrom]. fold (preTaskStart a task).
    pose proof (preTaskStart_trace a task st) as Hstart.
    set (taskMsgs := [mkMessage "system" (AnyString (SystemPrompt task)) [] ""] ++ _).
    destruct (preTaskLoop_budget a task Hmodel Hok maxPreTaskTurns
                (S maxPreTaskTurns) 0 taskMsgs (snd (preTaskStart a task st)))
      as (evs & Er & Etr & Hc); [reflexivity | lia |].
    unfold bind.
    destruct (preTaskStart a task st) as [[] st0]. cbn [fst snd] in *.
    destruct (preTaskLoop (S maxPreTaskTurns) a task 0 taskMsgs st0) as [r st1].
    cbn [fst snd] in *. subst r.
    eexists. exists a, st1. split; [reflexivity |]. split.
    + right. now left.
    + rewrite (since_app st st1 evs); [exact Hc |]. now rewrite Etr, Hstart.
  - set (history := msgs a ++ _).
    destruct (chatLoop_budget a Hmodel Hok maxChatTurns (S maxChatTurns) 0
                history st) as (h' & evs & Er & Etr & Hc); [reflexivity | lia |].
    unfold bind, ret.
    destruct (chatLoop (S maxChatTurns) a 0 history st) as [r st1].
    cbn [fst snd] in *. subst r.
    exists ErrMaxTurnsExceeded, (setMsgs a h' (preTasksDone a)), st1.
    split; [reflexivity |]. split.
    + now left.
    + now rewrite (since_app st st1 evs).
Qed.

(** ** The pre-task loop of the revision with turn budgets *)

(** Here a response without tool calls ends the loop of the task whatever
    its text says about the marker: with empty text the runner fails, with
    any other text the task is complete. *)
Lemma preTaskTurn_no_tool_calls (a : Agent) (task : PreTaskConfig)
    (taskMsgs : list Message) (st : State) (msg : Message) (w1 : World) :
  ChatCompletion taskMsgs (world st) = (inl msg, w1) ->
  ToolCalls msg = [] ->
  fst (preTaskTurn a task taskMsgs st)
  = if String.eqb (messageContent (Some msg)) ""
    then Return (Some (ErrWrap ("pretask " +:+ TaskName task) ErrEmptyResponse))
           (taskMsgs ++ [msg])
    else Return None (taskMsgs ++ [msg]).
Proof.
  intros Emodel Etcs. rewrite preTaskTurn_unfold, Emodel. cbn [fst]. cbv zeta.
  rewrite Etcs. cbn [List.length Nat.eqb].
  now destruct (String.eqb _ _).
Qed.

(** The loops of this revision never run out of the fuel they are given. *)
Lemma chatLoop_total (a : Agent) (n fuel turns : nat) :
  forall (history : list Message) (st : State),
  maxChatTurns <= turns + n -> n < fuel ->
  fst (chatLoop fuel a turns history st) <> None.
Proof.
  revert fuel turns. induction n as [|n IH]; intros fuel turns history st Hn Hfuel;
    (destruct fuel as [|fuel]; [lia |]); cbn [chatLoop].
  - replace (maxChatTurns <=? turns)%nat with true
      by (symmetry; apply Nat.leb_le; lia).
    discriminate.
  - destruct (maxChatTurns <=? turns)%nat; [discriminate |].
    unfold bind. destruct (chatTurn a history st) as [[h1 | r h1] st1].
    + apply IH; lia.
    + discriminate.
Qed.

Lemma preTaskLoop_total (a : Agent) (task : PreTaskConfig) (n fuel turns : nat) :
  forall (taskMsgs : list Message) (st : State),
  maxPreTaskTurns <= turns + n -> n < fuel ->
  fst (preTaskLoop fuel a task turns taskMsgs st) <> None.
Proof.
  revert fuel turns. induction n as [|n IH]; intros fuel turns taskMsgs st Hn Hfuel;
    (destruct fuel as [|fuel]; [lia |]); cbn [preTaskLoop].
  - replace (maxPreTaskTurns <=? turns)%nat with true
      by (symmetry; apply Nat.leb_le; lia).
    discriminate.
  - destruct (maxPreTaskTurns <=? turns)%nat; [discriminate |].
    unfold bind. destruct (preTaskTurn a task taskMsgs st) as [[h1 | r h1] st1].
    + apply IH; lia.
    + discriminate.
Qed.

Lemma runPreTasksFrom_total (a : Agent) (tasks : list PreTaskConfig) :
  forall st, fst (runPreTasksFrom a tasks st) <> None.
Proof.
  induction tasks as [|task rest IH]; intros st; [discriminate |].
  cbn [runPreTasksFrom]. fold (preTaskStart a task) (preTaskEnd a task).
  unfold bind at 1.
  destruct (preTaskStart a task st) as [[] st0].
  unfold bind at 1.
  pose proof (preTaskLoop_total a task maxPreTaskTurns (S maxPreTaskTurns) 0
                ([mkMessage "system" (AnyString (SystemPrompt task)) [] ""] ++
                 [mkMessage "user"
                    (AnyString (if String.eqb (Input task) "" then "Begin"
                                else Input task)) [] ""]) st0) as Hloop.
  destruct (preTaskLoop _ a task 0 _ st0) as [[[e|]|] st1]; cbn [fst] in *.
  - discriminate.
  - unfold bind.
    destruct (preTaskEnd a task st1) as [[] st2].
    apply IH.
  - exfalso. apply Hloop; [lia | lia | reflexivity].
Qed.

(** [Chat] always returns. *)
Lemma Chat_total (a : Agent) (input : string) (st : State) :
  fst (Chat a input st) <> None.
Proof.
  unfold Chat. unfold bind at 1.
  destruct (negb (preTasksDone a) && _).
  - unfold runPreTasks. unfold bind at 1.
    pose proof (runPreTasksFrom_total a (PreTasks (config a)) st) as Hpre.
    destruct (runPreTasksFrom a (PreTasks (config a)) st) as [[[e|]|] st0];
      cbn [fst] in *; try discriminate; [| now exfalso].
    unfold ret. unfold bind.
    pose proof (chatLoop_total a maxChatTurns (S maxChatTurns) 0
                  (msgs a ++ [mkMessage "user" (AnyString input) [] ""]) st0) as Hl.
    destruct (chatLoop _ a 0 _ st0) as [[[res h]|] st1]; cbn [fst] in *.
    + discriminate.
    + exfalso. apply Hl; [lia | lia | reflexivity].
  - unfold ret. unfold bind.
    pose proof (chatLoop_total a maxChatTurns (S maxChatTurns) 0
                  (msgs a ++ [mkMessage "user" (AnyString input) [] ""]) st) as Hl.
    destruct (chatLoop _ a 0 _ st) as [[[res h]|] st1]; cbn [fst] in *.
    + discriminate.
    + exfalso. apply Hl; [lia | lia | reflexivity].
Qed.

End OrchestratorFacts.

(** ** The fallback negotiator *)

Section NegotiatorFacts.
Context `{Unicode} `{Platform} `{Host}.
Import Sandbox Executor Tools.

(** The result [SandboxedExecutor.Run] builds for a denial. *)
Definition denialResult (output : string) (e : error) (elapsed : string)
  : ToolResult :=
  mkToolResult false output ("sandbox blocked (" +:+ elapsed +:+ "s)") (Some e)
    (Some (mkExecMeta true true (extractSandboxReason output))).

(** The result [PassthroughExecutor.Run] builds from what [sh -c] gave. *)
Definition passthroughResult (p : ProcResult) : ToolResult :=
  let '(out, err, elapsed) := p in
  match err with
  | Some e =>
      mkToolResult false out ("fail (" +:+ elapsed +:+ "s)") (Some e)
        (Some (mkExecMeta false false ""))
  | None =>
      mkToolResult true out ("ok (" +:+ elapsed +:+ "s)") None
        (Some (mkExecMeta false false ""))
  end.

(** The state once [e] is recorded and the world has become [w]. *)
Definition moved (st : State) (w : World) (e : Event) : State :=
  mkState w (defaultExecutor st) (trace st ++ [e]).

(** The unconfined path hands the command text it is given to [sh -c],
    once, and returns what that run gave. *)
Lemma ExecuteShellUnsandboxed_run (command : string) (st : State) :
  ExecuteShellUnsandboxed command st
  = (passthroughResult (fst (sh command (world st))),
     moved st (snd (sh command (world st))) (EvSh command)).
Proof.
  unfold ExecuteShellUnsandboxed, PassthroughRun, bind, emit, liftW, ret, moved.
  cbn [world defaultExecutor trace].
  destruct (sh command (world st)) as [[[out [e|]] elapsed] w1]; reflexivity.
Qed.

(** Confinement is on in [st]: the package-level executor, as
    [GetExecutor] finds or makes it, is the sandboxed one for [cfg]. *)
Definition confined (st : State) (cfg : SandboxConfig) : Prop :=
  fst (GetExecutor st) = SandboxedExecutor cfg.

(** Confinement is off in [st]. *)
Definition unconfined (st : State) : Prop :=
  fst (GetExecutor st) = PassthroughExecutor.

Lemma GetExecutor_world (st : State) :
  world (snd (GetExecutor st)) = world st /\
  trace (snd (GetExecutor st)) = trace st /\
  defaultExecutor (snd (GetExecutor st)) = Some (fst (GetExecutor st)).
Proof. unfold GetExecutor. now destruct (defaultExecutor st) eqn:E. Qed.

Lemma GetExecutor_again (st : State) :
  GetExecutor (snd (GetExecutor st)) = (fst (GetExecutor st), snd (GetExecutor st)).
Proof.
  unfold GetExecutor at 1.
  destruct (GetExecutor_world st) as (_ & _ & ->). reflexivity.
Qed.

(** A confined run of [command] that the classifier takes for a denial. *)
Definition denied (st : State) (cfg : SandboxConfig) (command : string)
    (output : string) (e : error) (elapsed : string) (w1 : World) : Prop :=
  confined st cfg /\
  sandbox_exec (generateProfile cfg) command (world st)
  = ((output, Some e, elapsed), w1) /\
  isSandboxDenial output (Some e) = true.

(** The state after the denied attempt. *)
Definition afterAttempt (st : State) (cfg : SandboxConfig) (command : string)
    (w1 : World) : State :=
  moved (snd (GetExecutor st)) w1 (EvSandboxExec (generateProfile cfg) command).

Lemma ExecuteShell_denied (st : State) (cfg : SandboxConfig)
    (command output : string) (e : error) (elapsed : string) (w1 : World) :
  denied st cfg command output e elapsed w1 ->
  ExecuteShell command (snd (GetExecutor st))
  = (denialResult output e elapsed, afterAttempt st cfg command w1).
Proof.
  intros (Hc & Hrun & Hden). unfold ExecuteShell.
  rewrite (bind_run _ _ _ _ _ (GetExecutor_again st)).
  unfold confined in Hc. rewrite Hc.
  destruct (GetExecutor_world st) as (Hw & Ht & Hd).
  unfold Run, SandboxedRun, bind, emit, liftW, ret, afterAttempt, moved.
  cbn [world defaultExecutor trace]. rewrite Hw, Hrun, Hden. reflexivity.
Qed.

Lemma IsSandboxEnabled_run (st : State) :
  IsSandboxEnabled st
  = (match fst (GetExecutor st) with
     | SandboxedExecutor _ => true
     | PassthroughExecutor => false
     end, snd (GetExecutor st)).
Proof.
  unfold IsSandboxEnabled, bind.
  destruct (GetExecutor st) as [[cfg|] st0]; reflexivity.
Qed.

(** C4, as the code has it.  After a confined attempt at [command] that
    was classified as a denial, both negotiators ask the fallback callback,
    when there is one, with the command and the reason extracted from the
    output; on approval both run the very same command text through the
    unconfined path and return its result; without a callback both return
    the denial result of the attempt unchanged.  When the callback
    declines, the package-level [ExecuteShellWithSandbox] returns the
    denial result unchanged, and the agent's [executeShellWithSandbox]
    returns a new failed result that says "cancelled by user".  None of
    this depends on [FallbackOutsideSandbox] of the agent's configuration:
    the package-level function does not read it, and the agent's method
    takes it together with the default, which is [true]. *)
Theorem fallback_after_denial (a : SandboxSubagent.Agent)
    (args : gmap string Any) (st : State) (cfg : SandboxConfig)
    (command output : string) (e : error) (elapsed : string) (w1 : World) :
  denied st cfg command output e elapsed w1 ->
  let denial := denialResult output e elapsed in
  let reason := extractSandboxReason output in
  let st1 := afterAttempt st cfg command w1 in
  let asked ok w2 := moved st1 w2 (EvOnSandboxFallback command reason ok) in
  ExecuteShellWithSandbox command None st = (denial, st1) /\
  (forall f ok w2, f command reason w1 = (ok, w2) ->
     ExecuteShellWithSandbox command (Some f) st
     = if ok then ExecuteShellUnsandboxed command (asked ok w2)
       else (denial, asked ok w2)) /\
  (SandboxSubagent.OnSandboxFallback a = None ->
     SandboxSubagent.executeShellWithSandbox a command args st = (denial, st1)) /\
  (forall f ok w2, SandboxSubagent.OnSandboxFallback a = Some f ->
     f command reason w1 = (ok, w2) ->
     SandboxSubagent.executeShellWithSandbox a command args st
     = if ok then ExecuteShellUnsandboxed command (asked ok w2)
       else (SandboxSubagent.cancelledResult, asked ok w2)) /\
  (forall st2,
     ExecuteShellUnsandboxed command st2
     = (passthroughResult (fst (sh command (world st2))),
        moved st2 (snd (sh command (world st2))) (EvSh command))).
Proof.
  intros Hd denial reason st1 asked.
  pose proof (ExecuteShell_denied _ _ _ _ _ _ _ Hd) as Hshell.
  destruct Hd as (Hc & Hrun & Hden). unfold confined in Hc.
  assert (Hen : IsSandboxEnabled st = (true, snd (GetExecutor st)))
    by (rewrite IsSandboxEnabled_run, Hc; reflexivity).
  assert (Hw1 : world st1 = w1) by reflexivity.
  split; [| split; [| split; [| split]]].
  - unfold ExecuteShellWithSandbox.
    rewrite (bind_run _ _ _ _ _ Hen). cbn [negb].
    rewrite (bind_run _ _ _ _ _ Hshell). reflexivity.
  - intros f ok w2 Hf. unfold ExecuteShellWithSandbox.
    rewrite (bind_run _ _ _ _ _ Hen). cbn [negb].
    rewrite (bind_run _ _ _ _ _ Hshell).
    cbn [denialResult ExecMeta_ SandboxError SandboxReason].
    unfold bind, liftW, emit. fold st1. rewrite Hw1. fold reason. rewrite Hf.
    destruct ok; reflexivity.
  - intros Hnone. unfold SandboxSubagent.executeShellWithSandbox.
    rewrite (bind_run _ _ _ _ _ Hen).
    rewrite (bind_run _ _ _ _ _ Hshell).
    cbn [denialResult ExecMeta_ SandboxError SandboxReason].
    rewrite Hnone. rewrite orb_true_r. reflexivity.
  - intros f ok w2 Hsome Hf. unfold SandboxSubagent.executeShellWithSandbox.
    rewrite (bind_run _ _ _ _ _ Hen).
    rewrite (bind_run _ _ _ _ _ Hshell).
    cbn [denialResult ExecMeta_ SandboxError SandboxReason].
    rewrite Hsome. rewrite orb_true_r.
    unfold bind, liftW, emit. fold st1. rewrite Hw1. fold reason. rewrite Hf.
    destruct ok; reflexivity.
  - intros st2. apply ExecuteShellUnsandboxed_run.
Qed.

Lemma unconfined_moved (st : State) (w : World) (e : Event) :
  unconfined st -> unconfined (moved st w e).
Proof.
  unfold unconfined, GetExecutor, moved. cbn [defaultExecutor].
  now destruct (defaultExecutor st).
Qed.

Lemma GetExecutor_moved (st : State) (w : World) (e : Event) :
  snd (GetExecutor (moved st w e)) = moved (snd (GetExecutor st)) w e.
Proof.
  unfold GetExecutor, moved. cbn [defaultExecutor world trace].
  destruct (defaultExecutor st) eqn:E; cbn [snd defaultExecutor world trace];
    rewrite ?E; reflexivity.
Qed.

Lemma ExecuteShellWithSandbox_unconfined (command : string) (cb : Callback2)
    (st : State) :
  unconfined st ->
  ExecuteShellWithSandbox command cb st
  = ExecuteShellUnsandboxed command (snd (GetExecutor st)).
Proof.
  intros Hun. unfold unconfined in Hun. unfold ExecuteShellWithSandbox.
  assert (Hen : IsSandboxEnabled st = (false, snd (GetExecutor st)))
    by (rewrite IsSandboxEnabled_run, Hun; reflexivity).
  now rewrite (bind_run _ _ _ _ _ Hen).
Qed.

(** C5, as the code has it.  With confinement off, the agent's
    [executeShellWithSandbox] asks its [OnSubagentToolCall] hook, when
    there is one, exactly once and before anything is run; it runs the
    command (unconfined, once) only if the hook approves, and returns the
    "cancelled by user" result otherwise; the fallback callback is not
    asked.  When the hook is nil the command runs without any question.
    The package-level [ExecuteShellWithSandbox] runs the command at once
    and never asks its callback; in the revision that calls it, the
    question is the turn loop's: [OnToolCall], when there is one, is asked
    once before the call, and a [run_shell] call runs only if it approves. *)
Theorem approval_when_unconfined (a : SandboxSubagent.Agent)
    (args : gmap string Any) (st : State) (command : string) :
  unconfined st ->
  let st0 := snd (GetExecutor st) in
  let meta := mkExecMeta false false "" in
  let run st1 :=
    (passthroughResult (fst (sh command (world st1))),
     moved st1 (snd (sh command (world st1))) (EvSh command)) in
  (forall f ok w1, SandboxSubagent.OnSubagentToolCall a = Some f ->
     f "run_shell" args meta (world st) = (ok, w1) ->
     let st1 := moved st0 w1 (EvOnSubagentToolCall "run_shell" args (Some meta) ok) in
     SandboxSubagent.executeShellWithSandbox a command args st
     = (if ok then run st1 else (SandboxSubagent.cancelledResult, st1)) /\
     since st (snd (SandboxSubagent.executeShellWithSandbox a command args st))
     = EvOnSubagentToolCall "run_shell" args (Some meta) ok
       :: (if ok then [EvSh command] else [])) /\
  (SandboxSubagent.OnSubagentToolCall a = None ->
     SandboxSubagent.executeShellWithSandbox a command args st = run st0 /\
     since st (snd (SandboxSubagent.executeShellWithSandbox a command args st))
     = [EvSh command]) /\
  (forall cb,
     ExecuteShellWithSandbox command cb st = run st0 /\
     since st (snd (ExecuteShellWithSandbox command cb st)) = [EvSh command]) /\
  (forall (o : Orchestrator.Agent) (tc : ToolCall) (acc : list Message) f ok w1,
     Orchestrator.OnToolCall o = Some f ->
     Name (Function tc) = "run_shell" ->
     argString (Unmarshal (Arguments (Function tc))) "command" = command ->
     f "run_shell" (Unmarshal (Arguments (Function tc))) (world st) = (ok, w1) ->
     fst (fst (Orchestrator.runToolCalls o [tc] acc st)) = negb ok /\
     since st (snd (Orchestrator.runToolCalls o [tc] acc st))
     = EvOnToolCall "run_shell" (Unmarshal (Arguments (Function tc))) ok
       :: (if ok then [EvSh command] else [])).
Proof.
  intros Hun st0 meta run.
  assert (Hen : IsSandboxEnabled st = (false, st0))
    by (unfold unconfined in Hun; rewrite IsSandboxEnabled_run, Hun; reflexivity).
  destruct (GetExecutor_world st) as (Hw & Ht & _). fold st0 in Hw, Ht.
  split; [| split; [| split]].
  - intros f ok w1 Hsome Hf st1.
    assert (Hrun : SandboxSubagent.executeShellWithSandbox a command args st
                   = if ok then run st1 else (SandboxSubagent.cancelledResult, st1)).
    { unfold SandboxSubagent.executeShellWithSandbox.
      rewrite (bind_run _ _ _ _ _ Hen). rewrite Hsome.
      unfold bind, liftW, emit. fold meta. rewrite Hw, Hf.
      cbn [world defaultExecutor trace].
      destruct ok; cbn [negb]; [apply ExecuteShellUnsandboxed_run | reflexivity]. }
    split; [exact Hrun |]. rewrite Hrun. apply since_app.
    destruct ok; unfold run, st1, moved; cbn [snd trace]; rewrite Ht;
      now rewrite <- ?app_assoc.
  - intros Hnone.
    assert (Hrun : SandboxSubagent.executeShellWithSandbox a command args st = run st0).
    { unfold SandboxSubagent.executeShellWithSandbox.
      rewrite (bind_run _ _ _ _ _ Hen). rewrite Hnone.
      apply ExecuteShellUnsandboxed_run. }
    split; [exact Hrun |]. rewrite Hrun. apply since_app.
    unfold run, moved; cbn [snd trace]. now rewrite Ht.
  - intros cb.
    assert (Hrun : ExecuteShellWithSandbox command cb st = run st0).
    { rewrite (ExecuteShellWithSandbox_unconfined command cb st Hun).
      apply ExecuteShellUnsandboxed_run. }
    split; [exact Hrun |]. rewrite Hrun. apply since_app.
    unfold run, moved; cbn [snd trace]. now rewrite Ht.
  - intros o tc acc f ok w1 Hsome Hname Hcmd Hf.
    rewrite runToolCalls_cons. cbv zeta.
    set (targs := Unmarshal (Arguments (Function tc))) in *.
    assert (Hdecl : Orchestrator.declined o (Name (Function tc)) targs st
                    = (negb ok, moved st w1 (EvOnToolCall "run_shell" targs ok))).
    { unfold Orchestrator.declined. rewrite Hsome, Hname.
      unfold bind, liftW, emit, ret. now rewrite Hf. }
    rewrite Hdecl. cbn [fst snd].
    destruct ok; cbn [negb].
    + unfold runTool. fold targs. rewrite Hname, Hcmd, String.eqb_refl.
      rewrite (ExecuteShellWithSandbox_unconfined command _ _
                 (unconfined_moved st w1 _ Hun)).
      rewrite ExecuteShellUnsandboxed_run. cbn [fst snd].
      cbn [Orchestrator.runToolCalls]. unfold ret. cbn [fst snd].
      split; [reflexivity |]. apply since_app.
      rewrite toolDone_trace. rewrite GetExecutor_moved.
      unfold moved. cbn [trace]. fold st0. rewrite Ht. now rewrite <- app_assoc.
    + split; [reflexivity |]. apply since_app. reflexivity.
Qed.

End NegotiatorFacts.

(** ** When the pre-task loop ends *)

Section PreTaskFacts.
Context `{Unicode} `{Platform} `{Host}.

(** [if a.OnMessage != nil && content != ""] of the marker revision. *)
Definition said (a : MarkerRunner.Agent) (content : string) : M unit :=
  if negb (String.eqb content "")
  then MarkerRunner.call (option_map (fun f => f content) (MarkerRunner.OnMessage a))
  else ret tt.

Lemma said_trace (a : MarkerRunner.Agent) (content : string) (st : State) :
  trace (snd (said a content st)) = trace st.
Proof.
  unfold said, MarkerRunner.call.
  destruct (negb _); [| reflexivity].
  now destruct (MarkerRunner.OnMessage a).
Qed.

(** In the marker revision a text response ends the loop exactly when the
    marker occurs in it; otherwise the loop goes round again. *)
Lemma marker_step (a : MarkerRunner.Agent) (task : PreTaskConfig)
    (taskMsgs : list Message) (st : State) (fuel : nat) (msg : Message)
    (w1 : World) (content : string) :
  ChatCompletion taskMsgs (world st) = (inl msg, w1) ->
  ToolCalls msg = [] ->
  Content msg = AnyString content ->
  MarkerRunner.preTaskLoop (S fuel) a task taskMsgs st
  = if Contains content (DoneMarker task)
    then (Some None, snd (said a content (afterModel taskMsgs st)))
    else MarkerRunner.preTaskLoop fuel a task (taskMsgs ++ [msg])
           (snd (said a content (afterModel taskMsgs st))).
Proof.
  intros Emodel Etcs Econtent. cbn [MarkerRunner.preTaskLoop].
  unfold afterModel. rewrite Emodel. cbn [snd].
  unfold bind at 1. unfold bind at 1. unfold emit at 1. unfold liftW at 1.
  cbn [world defaultExecutor trace]. rewrite Emodel.
  rewrite Etcs, Econtent. cbn [List.length Nat.eqb].
  fold (said a content). unfold bind at 1.
  destruct (said a content _) as [[] st1]. cbn [snd].
  now destruct (Contains content (DoneMarker task)).
Qed.

Lemma afterModel_trace (h : list Message) (st : State) :
  trace (afterModel h st) = trace st ++ [EvChatCompletion h].
Proof. reflexivity. Qed.

(** In the marker revision a response without tool calls ends the loop
    exactly when its content is a string in which the marker occurs;
    with any other content the loop goes round again. *)
Lemma marker_step_any (a : MarkerRunner.Agent) (task : PreTaskConfig)
    (taskMsgs : list Message) (st : State) (fuel : nat) (msg : Message)
    (w1 : World) :
  ChatCompletion taskMsgs (world st) = (inl msg, w1) ->
  ToolCalls msg = [] ->
  MarkerRunner.preTaskLoop (S fuel) a task taskMsgs st
  = match Content msg with
    | AnyString content =>
        if Contains content (DoneMarker task)
        then (Some None, snd (said a content (afterModel taskMsgs st)))
        else MarkerRunner.preTaskLoop fuel a task (taskMsgs ++ [msg])
               (snd (said a content (afterModel taskMsgs st)))
    | _ => MarkerRunner.preTaskLoop fuel a task (taskMsgs ++ [msg])
             (afterModel taskMsgs st)
    end.
Proof.
  intros Emodel Etcs.
  destruct (Content msg) as [| b | z | content | l | m] eqn:Econtent;
    try (now apply (marker_step a task taskMsgs st fuel msg w1 content));
    cbn [MarkerRunner.preTaskLoop]; unfold afterModel; rewrite Emodel; cbn [snd];
    unfold bind at 1; unfold bind at 1; unfold emit at 1; unfold liftW at 1;
    cbn [world defaultExecutor trace]; rewrite Emodel;
    rewrite Etcs, Econtent; reflexivity.
Qed.

(** The runner with turn budgets reads of a task only its name once the
    loop has started. *)
Lemma preTaskTurn_name (a : Orchestrator.Agent) (task task' : PreTaskConfig)
    (taskMsgs : list Message) (st : State) :
  TaskName task = TaskName task' ->
  Orchestrator.preTaskTurn a task taskMsgs st
  = Orchestrator.preTaskTurn a task' taskMsgs st.
Proof.
  intros Ename. rewrite !preTaskTurn_unfold. unfold preTaskEnd. now rewrite Ename.
Qed.

Lemma preTaskLoop_name (a : Orchestrator.Agent) (task task' : PreTaskConfig) :
  TaskName task = TaskName task' ->
  forall (fuel turns : nat) (taskMsgs : list Message) (st : State),
  Orchestrator.preTaskLoop fuel a task turns taskMsgs st
  = Orchestrator.preTaskLoop fuel a task' turns taskMsgs st.
Proof.
  intros Ename. induction fuel as [|fuel IH]; intros turns taskMsgs st; [reflexivity |].
  cbn [Orchestrator.preTaskLoop]. rewrite Ename.
  destruct (Orchestrator.maxPreTaskTurns <=? turns)%nat; [reflexivity |].
  unfold bind. rewrite (preTaskTurn_name a task task' taskMsgs st Ename).
  destruct (Orchestrator.preTaskTurn a task' taskMsgs st) as [[h | r h] st1];
    [apply IH | reflexivity].
Qed.

(** C6, as the code has it.  In the revision of the runner that checks the
    marker, a response without tool calls ends the loop only if its
    content is a string in which the marker occurs; with a string without
    the marker, and with content that is not a string, the loop issues a
    further turn.  So a run without the marker on turn 1 and with it on
    turn 2 completes after exactly 2 turns.  In the revision with turn
    budgets the marker is not consulted: a response without tool calls
    ends the loop at once, as complete when its text is not empty and with
    the error [ErrEmptyResponse], wrapped with the task's name, when it is;
    either way after exactly 1 turn.  Of the task this loop reads nothing
    but the name. *)
Theorem pretask_loop_end :
  (forall (a : MarkerRunner.Agent) task taskMsgs st fuel msg w1,
     ChatCompletion taskMsgs (world st) = (inl msg, w1) ->
     ToolCalls msg = [] ->
     MarkerRunner.preTaskLoop (S fuel) a task taskMsgs st
     = match Content msg with
       | AnyString content =>
           if Contains content (DoneMarker task)
           then (Some None, snd (said a content (afterModel taskMsgs st)))
           else MarkerRunner.preTaskLoop fuel a task (taskMsgs ++ [msg])
                  (snd (said a content (afterModel taskMsgs st)))
       | _ => MarkerRunner.preTaskLoop fuel a task (taskMsgs ++ [msg])
                (afterModel taskMsgs st)
       end) /\
  (forall (a : MarkerRunner.Agent) task h0 st m1 w1 c1 m2 w2 c2,
     ChatCompletion h0 (world st) = (inl m1, w1) ->
     ToolCalls m1 = [] -> Content m1 = AnyString c1 ->
     Contains c1 (DoneMarker task) = false ->
     let st1 := snd (said a c1 (afterModel h0 st)) in
     ChatCompletion (h0 ++ [m1]) (world st1) = (inl m2, w2) ->
     ToolCalls m2 = [] -> Content m2 = AnyString c2 ->
     Contains c2 (DoneMarker task) = true ->
     forall fuel, 2 <= fuel ->
     fst (MarkerRunner.preTaskLoop fuel a task h0 st) = Some None /\
     modelCalls (since st (snd (MarkerRunner.preTaskLoop fuel a task h0 st))) = 2) /\
  (forall (a : Orchestrator.Agent) task taskMsgs st msg w1,
     ChatCompletion taskMsgs (world st) = (inl msg, w1) ->
     ToolCalls msg = [] ->
     let outcome :=
       if String.eqb (Orchestrator.messageContent (Some msg)) ""
       then Some (ErrWrap ("pretask " +:+ TaskName task) ErrEmptyResponse)
       else None in
     fst (Orchestrator.preTaskTurn a task taskMsgs st)
     = Return outcome (taskMsgs ++ [msg]) /\
     fst (Orchestrator.preTaskLoop (S Orchestrator.maxPreTaskTurns) a task 0
            taskMsgs st) = Some outcome /\
     modelCalls
       (since st (snd (Orchestrator.preTaskLoop (S Orchestrator.maxPreTaskTurns)
                         a task 0 taskMsgs st))) = 1) /\
  (forall (a : Orchestrator.Agent) task task' fuel turns taskMsgs st,
     TaskName task = TaskName task' ->
     Orchestrator.preTaskLoop fuel a task turns taskMsgs st
     = Orchestrator.preTaskLoop fuel a task' turns taskMsgs st).
Proof.
  split; [| split; [| split]].
  - intros a task taskMsgs st fuel msg w1 E T.
    exact (marker_step_any a task taskMsgs st fuel msg w1 E T).
  - intros a task h0 st m1 w1 c1 m2 w2 c2 E1 T1 C1 N1 st1 E2 T2 C2 Y2 fuel Hfuel.
    destruct fuel as [|[|fuel]]; try lia.
    rewrite (marker_step a task h0 st (S fuel) m1 w1 c1 E1 T1 C1), N1.
    fold st1.
    rewrite (marker_step a task (h0 ++ [m1]) st1 fuel m2 w2 c2 E2 T2 C2), Y2.
    cbn [fst snd]. split; [reflexivity |].
    rewrite (since_app st _ [EvChatCompletion h0; EvChatCompletion (h0 ++ [m1])]);
      [reflexivity |].
    rewrite said_trace, afterModel_trace. unfold st1.
    rewrite said_trace, afterModel_trace. now rewrite <- app_assoc.
  - intros a task taskMsgs st msg w1 Emodel Etcs outcome.
    pose proof (preTaskTurn_no_tool_calls a task taskMsgs st msg w1 Emodel Etcs)
      as Hturn.
    assert (Hturn' : fst (Orchestrator.preTaskTurn a task taskMsgs st)
                     = Return outcome (taskMsgs ++ [msg])).
    { rewrite Hturn. unfold outcome. now destruct (String.eqb _ _). }
    clear Hturn. split; [exact Hturn' |].
    cbn [Orchestrator.preTaskLoop]. cbn [Nat.leb Orchestrator.maxPreTaskTurns].
    unfold bind.
    assert (Htrace : trace (snd (Orchestrator.preTaskTurn a task taskMsgs st))
                     = trace st ++ [EvChatCompletion taskMsgs]).
    { rewrite preTaskTurn_unfold, Emodel. cbn [fst]. cbv zeta.
      rewrite Etcs. cbn [List.length Nat.eqb].
      destruct (String.eqb _ _); cbn [snd]; now rewrite announce_trace. }
    destruct (Orchestrator.preTaskTurn a task taskMsgs st) as [t st1].
    cbn [fst snd] in *. subst t. unfold ret. cbn [fst snd].
    split; [reflexivity |].
    now rewrite (since_app st st1 [EvChatCompletion taskMsgs]).
  - intros a task task' fuel turns taskMsgs st Ename.
    now apply preTaskLoop_name.
Qed.

End PreTaskFacts.

(** ** The turn loop hands the history of a returning turn to the agent *)

Section RollbackFacts.
Context `{Unicode} `{Platform} `{Host}.
Import Orchestrator.

(** A turn that returns ends the loop with the history the turn left. *)
Lemma chatLoop_returns (a : Agent) (fuel turns : nat) (history history' : list Message)
    (st st' : State) (r : string * option error) :
  turns < maxChatTurns ->
  chatTurn a history st = (Return r history', st') ->
  chatLoop (S fuel) a turns history st = (Some (r, history'), st').
Proof.
  intros Hturns Hturn. cbn [chatLoop].
  replace (maxChatTurns <=? turns)%nat with false
    by (symmetry; apply Nat.leb_gt; lia).
  now rewrite (bind_run _ _ _ _ _ Hturn).
Qed.

(** When the first turn of a call of [Chat] returns, so does [Chat], and
    the agent keeps the history that turn left. *)
Lemma Chat_first_turn_returns (a : Agent) (input : string) (st st' : State)
    (r : string * option error) (history' : list Message) :
  preTasksDone a = true ->
  chatTurn a (msgs a ++ [mkMessage "user" (AnyString input) [] ""]) st
  = (Return r history', st') ->
  Chat a input st = (Some (r, setMsgs a history' true), st') /\
  msgs (setMsgs a history' true) = history'.
Proof.
  intros Hdone Hturn. split; [| reflexivity].
  unfold Chat. rewrite Hdone. cbn [negb andb]. unfold ret at 1. unfold bind at 1.
  assert (Hlt : 0 < maxChatTurns) by (unfold maxChatTurns; lia).
  rewrite (bind_run _ _ _ _ _
             (chatLoop_returns a maxChatTurns 0 _ _ st st' r Hlt Hturn)).
  reflexivity.
Qed.

End RollbackFacts.

(* ===================================================================== *)
(** * Part III: the theorems at work on scripted runs                     *)
(* ===================================================================== *)

Module Scenarios.
Import Sandbox Executor Tools.

(** ASCII text only: the Unicode path of [ToLower] is never taken. *)
Definition asciiText : Unicode := {| unicodeLower := fun s => s |}.

(** macOS with [sandbox-exec] on the search path, and Linux. *)
Definition macOS : Platform :=
  {| GOOS := "darwin"; LookPath := fun _ => true;
     Getwd := "/work"; TempDir := "/tmp" |}.
Definition linux : Platform :=
  {| GOOS := "linux"; LookPath := fun _ => true;
     Getwd := "/work"; TempDir := "/tmp" |}.

Definition blockedOutput : string :=
  "touch: /usr/local/blocked.txt: Permission denied".

(** A host whose model follows a script: the world counts the model
    round-trips made so far, every confined run is refused with
    [blockedOutput] and exit code 1, and every unconfined run succeeds. *)
Definition scripted (script : nat -> Message) : Host :=
  {| World := nat;
     sandbox_exec := fun _ _ w => ((blockedOutput, Some (ExitError 1), "0.0"), w);
     sh := fun _ w => (("", None, "0.0"), w);
     ChatCompletion := fun _ w => (inl (script w), S w);
     ChatCompletionWithTools := fun _ w => (inl (script w), S w);
     Unmarshal := fun s => <["path" := AnyString s]> ∅;
     fileTool := fun _ _ w => (mkToolResult true "ok" "ok" None None, w);
     pythonCommand := fun code => code;
     TrimSpace := fun s => s |}.

Definition text (s : string) : Message := mkMessage "assistant" (AnyString s) [] "".
Definition user (s : string) : Message := mkMessage "user" (AnyString s) [] "".

Definition call (id name arguments : string) : ToolCall :=
  mkToolCall id "function" (mkFunctionCall name arguments).

(** An assistant message that asks for two file tools. *)
Definition twoCalls : Message :=
  mkMessage "assistant" AnyNil
    [call "call_1" "read_file" "a.txt"; call "call_2" "write_file" "b.txt"] "".

Definition noConfig : Config :=
  mkConfig [] (mkSandboxConfig false false [] [] [] false).

Definition exploring : PreTaskConfig :=
  mkPreTaskConfig "exploring" "Document the project." "Begin" "{{DONE}}".

(** Turn 1 says "working", turn 2 says "{{DONE}}". *)
Definition workingThenDone (n : nat) : Message :=
  match n with
  | O => text "working"
  | _ => text "{{DONE}}"
  end.

Section Runs.
#[local] Existing Instance asciiText.

(** *** A cancelled turn *)

Section Cancelled.
#[local] Existing Instance macOS.
#[local] Instance toolHost : Host := scripted (fun _ => twoCalls).

Definition start : State := mkState (0 : World) None [].

(** The hook lets [read_file] through and nothing else. *)
Definition readOnly : Orchestrator.Agent :=
  Orchestrator.mkAgent noConfig [] true
    (Some (fun name _ (w : World) => (String.eqb name "read_file", w)))
    None None None None None.

Definition approving : Orchestrator.Agent :=
  Orchestrator.mkAgent noConfig [] true None None None None None None.

Lemma cancelled_turn_example :
  (exists name args,
     In (EvOnToolCall name args false)
        (since start (snd (Orchestrator.chatTurn readOnly [user "hi"] start)))) /\
  fst (Orchestrator.chatTurn readOnly [user "hi"] start)
  = Return ("", None) [user "hi"].
Proof.
  assert (Hdecl : exists name args,
            In (EvOnToolCall name args false)
               (since start (snd (Orchestrator.chatTurn readOnly [user "hi"] start)))).
  { exists "write_file", (Unmarshal "b.txt"). vm_compute. tauto. }
  split; [exact Hdecl |].
  apply (cancelled_turn_restores_history readOnly [user "hi"] start
           (snd (Orchestrator.chatTurn readOnly [user "hi"] start))).
  - apply surjective_pairing.
  - exact Hdecl.
Defined.

Lemma turn_budget_example :
  exists e a' st',
    Orchestrator.Chat approving "go" start = (Some ("", Some e, a'), st') /\
    errors_Is e ErrMaxTurnsExceeded /\
    modelCalls (since start st') = Orchestrator.maxChatTurns.
Proof.
  apply (chat_stops_at_turn_budget approving "go" start).
  - intros h w. exists twoCalls, (S w). split; [reflexivity | discriminate].
  - intros f name args w Hf. discriminate Hf.
Defined.

(** The whole call: [Chat] answers nothing and the agent keeps the input
    it was given and nothing of the cancelled turn. *)
Example cancelled_chat_keeps_input :
  option_map (fun r => (fst r, Orchestrator.msgs (snd r)))
    (fst (Orchestrator.Chat readOnly "hi" start))
  = Some (("", None), [user "hi"]).
Proof. vm_compute. reflexivity. Qed.

End Cancelled.

(** *** A denied command and the fallback *)

Section Denied.
#[local] Existing Instance macOS.
#[local] Instance quietHost : Host := scripted (fun _ => text "ok").

Definition touch : string := "touch /usr/local/blocked.txt".

Definition declining : Callback2 := Some (fun _ _ (w : World) => (false, w)).
Definition approvingFallback : Callback2 := Some (fun _ _ (w : World) => (true, w)).

(** Writes are allowed under "/tmp" only, and the fallback is on. *)
Definition tmpOnly : SandboxConfig :=
  mkSandboxConfig true false ["/"] ["/tmp"] ["/bin"; "/usr/bin"] true.

Definition withFallback : Config := mkConfig [] tmpOnly.

(** The state [NewAgent] leaves: [InitSandbox] has run on the agent's
    sandbox configuration. *)
Definition fresh : State :=
  snd (InitSandbox tmpOnly (mkState (0 : World) None [])).

Definition decliningAgent : SandboxSubagent.Agent :=
  SandboxSubagent.mkAgent withFallback None declining.

Definition touchArgs : gmap string Any := <["command" := AnyString touch]> ∅.

(** The agent's negotiator answers a refused fallback with "cancelled by
    user", which is not the denial result of the attempt. *)
Lemma declined_fallback_is_cancelled :
  denied fresh tmpOnly touch blockedOutput (ExitError 1) "0.0" 0 /\
  FallbackOutsideSandbox (Sandbox_ (SandboxSubagent.config decliningAgent)) = true /\
  fst (ExecuteShell touch fresh) = denialResult blockedOutput (ExitError 1) "0.0" /\
  fst (SandboxSubagent.executeShellWithSandbox decliningAgent touch touchArgs fresh)
  = SandboxSubagent.cancelledResult /\
  SandboxSubagent.cancelledResult <> denialResult blockedOutput (ExitError 1) "0.0".
Proof.
  split; [repeat split; vm_compute; reflexivity |].
  split; [reflexivity |].
  split; [vm_compute; reflexivity |].
  split; [vm_compute; reflexivity | discriminate].
Qed.

Lemma fallback_example :
  denied fresh tmpOnly touch blockedOutput (ExitError 1) "0.0" 0 /\
  extractSandboxReason blockedOutput = "write access denied" /\
  fst (ExecuteShellWithSandbox touch None fresh)
  = denialResult blockedOutput (ExitError 1) "0.0" /\
  fst (ExecuteShellWithSandbox touch declining fresh)
  = denialResult blockedOutput (ExitError 1) "0.0" /\
  since fresh (snd (ExecuteShellWithSandbox touch approvingFallback fresh))
  = [EvSandboxExec (generateProfile tmpOnly) touch;
     EvOnSandboxFallback touch "write access denied" true;
     EvSh touch].
Proof.
  assert (Hd : denied fresh tmpOnly touch blockedOutput
                 (ExitError 1) "0.0" 0)
    by (repeat split; vm_compute; reflexivity).
  split; [exact Hd |]. split; [vm_compute; reflexivity |].
  destruct (fallback_after_denial decliningAgent touchArgs fresh
              tmpOnly touch blockedOutput (ExitError 1) "0.0" 0 Hd)
    as (Hnone & Hask & _ & _ & Hrun).
  split; [now rewrite Hnone |].
  split.
  - unfold declining.
    rewrite (Hask (fun _ _ (w : World) => (false, w)) false 0 eq_refl).
    reflexivity.
  - unfold approvingFallback.
    rewrite (Hask (fun _ _ (w : World) => (true, w)) true 0 eq_refl).
    rewrite Hrun. vm_compute. reflexivity.
Defined.

End Denied.

(** *** Confinement off *)

Section Unconfined.
#[local] Existing Instance linux.
#[local] Instance plainHost : Host := scripted (fun _ => text "ok").

Definition initial : State := mkState (0 : World) None [].

Definition refusing : Callback2 := Some (fun _ _ (w : World) => (false, w)).

Definition noHooks : SandboxSubagent.Agent :=
  SandboxSubagent.mkAgent noConfig None None.

Definition asking (ok : bool) : SandboxSubagent.Agent :=
  SandboxSubagent.mkAgent noConfig
    (Some (fun _ _ _ (w : World) => (ok, w))) None.

Definition echoArgs : gmap string Any := <["command" := AnyString "echo hello"]> ∅.

(** With confinement off the package-level function runs the command
    without asking the callback it was given, and so does the agent's
    method when it has no hook. *)
Lemma unconfined_runs_unasked :
  unconfined initial /\
  since initial (snd (ExecuteShellWithSandbox "echo hello" refusing initial))
  = [EvSh "echo hello"] /\
  Success (fst (ExecuteShellWithSandbox "echo hello" refusing initial)) = true /\
  since initial
    (snd (SandboxSubagent.executeShellWithSandbox noHooks "echo hello" echoArgs initial))
  = [EvSh "echo hello"].
Proof. repeat split; vm_compute; reflexivity. Qed.

Lemma approval_example :
  unconfined initial /\
  since initial
    (snd (SandboxSubagent.executeShellWithSandbox (asking true) "echo hello"
            echoArgs initial))
  = [EvOnSubagentToolCall "run_shell" echoArgs
       (Some (mkExecMeta false false "")) true;
     EvSh "echo hello"] /\
  SandboxSubagent.executeShellWithSandbox (asking false) "echo hello" echoArgs initial
  = (SandboxSubagent.cancelledResult,
     moved (snd (GetExecutor initial)) 0
       (EvOnSubagentToolCall "run_shell" echoArgs
          (Some (mkExecMeta false false "")) false)).
Proof.
  assert (Hun : unconfined initial) by reflexivity.
  split; [exact Hun |].
  destruct (approval_when_unconfined (asking true) echoArgs initial "echo hello" Hun)
    as (Hyes & _ & _ & _).
  destruct (approval_when_unconfined (asking false) echoArgs initial "echo hello" Hun)
    as (Hno & _ & _ & _).
  split.
  - exact (proj2 (Hyes (fun _ _ _ (w : World) => (true, w)) true 0 eq_refl eq_refl)).
  - exact (proj1 (Hno (fun _ _ _ (w : World) => (false, w)) false 0 eq_refl eq_refl)).
Defined.

End Unconfined.

(** *** A pre-task whose first text lacks the marker *)

Section PreTask.
#[local] Existing Instance linux.
#[local] Instance slowHost : Host := scripted workingThenDone.

Definition begin : State := mkState (0 : World) None [].

Definition oneTask : Config :=
  mkConfig [exploring] (mkSandboxConfig false false [] [] [] false).

Definition budgeted : Orchestrator.Agent :=
  Orchestrator.mkAgent oneTask [] false None None None None None None.

Definition waiting : MarkerRunner.Agent :=
  MarkerRunner.mkAgent oneTask None None None None None None None None None.

(** The runner with turn budgets takes "working" for the end of the task:
    it completes after one turn, the turn with the marker is never asked
    for. *)
Lemma budgeted_pretask_stops_after_one_turn :
  Contains "working" (DoneMarker exploring) = false /\
  fst (Orchestrator.runPreTasks budgeted begin) = Some None /\
  modelCalls (since begin (snd (Orchestrator.runPreTasks budgeted begin))) = 1.
Proof. repeat split; vm_compute; reflexivity. Qed.

Definition seed : list Message :=
  [mkMessage "system" (AnyString (SystemPrompt exploring)) [] ""; user "Begin"].

Lemma marker_pretask_example :
  fst (MarkerRunner.preTaskLoop 5 waiting exploring seed begin) = Some None /\
  modelCalls (since begin (snd (MarkerRunner.preTaskLoop 5 waiting exploring seed begin)))
  = 2.
Proof.
  apply (proj1 (proj2 pretask_loop_end) waiting exploring seed begin
           (text "working") 1 "working" (text "{{DONE}}") 2 "{{DONE}}");
    try reflexivity.
  lia.
Defined.

End PreTask.

(** *** The classifier, the reason and the profile on concrete text *)

Section Text.
#[local] Existing Instance macOS.

Example denial_by_sandbox_deny :
  isSandboxDenial "Sandbox: touch(123) DENY file-write-create /usr/x" None = true.
Proof. vm_compute. reflexivity. Qed.

Example denial_needs_exit_code_1 :
  isSandboxDenial blockedOutput (Some (ExitError 1)) = true /\
  isSandboxDenial blockedOutput (Some (ExitError 2)) = false /\
  isSandboxDenial "ls: no such file" (Some (ExitError 1)) = false.
Proof. repeat split; vm_compute; reflexivity. Qed.

Example reason_examples :
  extractSandboxReason "deny network-outbound, file-write" = "network access denied" /\
  extractSandboxReason blockedOutput = "write access denied" /\
  extractSandboxReason "deny process-EXEC" = "execution denied" /\
  extractSandboxReason "cannot READ" = "read access denied" /\
  extractSandboxReason "nope" = "nope" /\
  extractSandboxReason "" = "sandbox policy violation".
Proof. repeat split; vm_compute; reflexivity. Qed.

Example profile_example :
  generateProfile (mkSandboxConfig true false ["/"] ["/tmp"] [] false)
  = join ["(version 1)" +:+ nl; "(deny default)" +:+ nl;
          "(allow process-fork)" +:+ nl; "(allow process-exec)" +:+ nl;
          readRule "/"; writeRule "/tmp";
          "(allow file-read-metadata)" +:+ nl; "(allow sysctl-read)" +:+ nl;
          "(allow mach-lookup)" +:+ nl; "(allow signal)" +:+ nl;
          "(allow iokit-open)" +:+ nl; ptyRule; ioctlRule;
          "(deny network*)" +:+ nl].
Proof. vm_compute. reflexivity. Qed.

Example content_example :
  Orchestrator.messageContent
    (Some (mkMessage "assistant"
             (AnyList [AnyMap (<["type" := AnyString "text"]>
                                 (<["text" := AnyString "Hello, "]> ∅));
                       AnyMap (<["type" := AnyString "image"]>
                                 (<["text" := AnyString "skipped"]> ∅));
                       AnyString "skipped too";
                       AnyMap (<["type" := AnyString "output_text"]>
                                 (<["text" := AnyString "world"]> ∅))])
             [] ""))
  = "Hello, world".
Proof. vm_compute. reflexivity. Qed.

End Text.
End Runs.
End Scenarios.

(* ===================================================================== *)
(** * Part IV: the rest of the package                                    *)
(* ===================================================================== *)

(** ** The reason of a denial is short and never empty *)

Section ReasonFacts.
Context `{Unicode} `{Platform}.
Import Sandbox.

Lemma length_append (a b : string) :
  String.length (a +:+ b) = String.length a + String.length b.
Proof. induction a as [|x a IH]; simpl; [reflexivity | now rewrite IH]. Qed.

Lemma length_substring_0 (n : nat) (s : string) :
  n <= String.length s -> String.length (substring 0 n s) = n.
Proof.
  revert s. induction n as [|n IH]; intros s Hn.
  - now destruct s.
  - destruct s as [|c s]; simpl in *; [lia |]. rewrite IH; [reflexivity | lia].
Qed.

(** X1.  Whatever the output, the reason [extractSandboxReason] gives is
    not the empty string and is at most 103 bytes long: one of the four
    fixed texts, the output itself when that has 1 to 100 bytes, its first
    100 bytes and "..." when it is longer, or the fixed fallback text. *)
Theorem extractSandboxReason_bounded (output : string) :
  extractSandboxReason output <> "" /\
  String.length (extractSandboxReason output) <= 103.
Proof.
  unfold extractSandboxReason.
  destruct (Contains (ToLower output) "network"); [split; [discriminate | simpl; lia] |].
  destruct (Contains (ToLower output) "write" || Contains (ToLower output) "permission denied");
    [split; [discriminate | simpl; lia] |].
  destruct (Contains (ToLower output) "exec"); [split; [discriminate | simpl; lia] |].
  destruct (Contains (ToLower output) "read"); [split; [discriminate | simpl; lia] |].
  destruct (100 <? String.length output)%nat eqn:Elen.
  - apply Nat.ltb_lt in Elen. split.
    + intros E. apply (f_equal String.length) in E.
      rewrite length_append, length_substring_0 in E by lia. simpl in E. lia.
    + rewrite length_append, length_substring_0 by lia. simpl. lia.
  - apply Nat.ltb_ge in Elen.
    destruct (String.eqb output "") eqn:Eempty; simpl.
    + split; [discriminate | lia].
    + apply String.eqb_neq in Eempty. split; [exact Eempty | lia].
Qed.

Lemma extractSandboxReason_nonempty (output : string) :
  extractSandboxReason output <> "".
Proof.
  unfold extractSandboxReason.
  destruct (Contains (ToLower output) "network"); [discriminate |].
  destruct (Contains (ToLower output) "write" || Contains (ToLower output) "permission denied");
    [discriminate |].
  destruct (Contains (ToLower output) "exec"); [discriminate |].
  destruct (Contains (ToLower output) "read"); [discriminate |].
  destruct (100 <? String.length output)%nat.
  - intros E. apply (f_equal String.length) in E.
    rewrite length_append in E. simpl in E. lia.
  - destruct (String.eqb output "") eqn:Eempty; simpl; [discriminate |].
    now apply String.eqb_neq in Eempty.
Qed.

End ReasonFacts.

(** ** The executors *)

Section ExecutorFacts.
Context `{Unicode} `{Platform} `{Host}.
Import Sandbox Executor Tools.

(** [SandboxedExecutor.Run], with the state it leaves named. *)
Lemma SandboxedRun_run (config : SandboxConfig) (command : string) (st : State) :
  SandboxedRun config command st
  = (let '(out, err, elapsed) :=
       fst (sandbox_exec (generateProfile config) command (world st)) in
     match err with
     | Some e =>
         if isSandboxDenial out err
         then (denialResult out e elapsed,
               mkExecMeta true true (extractSandboxReason out))
         else (mkToolResult false out ("fail (" +:+ elapsed +:+ "s)") (Some e)
                 (Some (mkExecMeta true false "")),
               mkExecMeta true false "")
     | None =>
         (mkToolResult true out ("ok (" +:+ elapsed +:+ "s)") None
            (Some (mkExecMeta true false "")),
          mkExecMeta true false "")
     end,
     moved st (snd (sandbox_exec (generateProfile config) command (world st)))
       (EvSandboxExec (generateProfile config) command)).
Proof.
  unfold SandboxedRun, bind, emit, liftW, ret, moved, denialResult.
  cbn [world defaultExecutor trace].
  destruct (sandbox_exec (generateProfile config) command (world st))
    as [[[out [e|]] elapsed] w1]; cbn [fst snd]; [| reflexivity].
  now destruct (isSandboxDenial out (Some e)).
Qed.

Lemma PassthroughRun_run (command : string) (st : State) :
  PassthroughRun command st
  = ((passthroughResult (fst (sh command (world st))), mkExecMeta false false ""),
     moved st (snd (sh command (world st))) (EvSh command)).
Proof.
  unfold PassthroughRun, bind, emit, liftW, ret, moved, passthroughResult.
  cbn [world defaultExecutor trace].
  destruct (sh command (world st)) as [[[out [e|]] elapsed] w1]; reflexivity.
Qed.

Lemma since_moved (st : State) (w : World) (e : Event) :
  since st (moved st w e) = [e].
Proof. apply since_app. reflexivity. Qed.

(** X2.  A confined run starts one [sandbox-exec] process on the profile
    of the executor's configuration and the command as given.  Its result
    carries the metadata that is returned beside it, always marked
    [Sandboxed]; output and error are the process's own; it is a success
    exactly when the process gave no error; it is a sandbox error exactly
    when the process failed and the classifier takes its output for a
    denial, and then, and only then, a reason is set, which is not empty. *)
Theorem SandboxedRun_outcomes (config : SandboxConfig) (command : string)
    (st : State) :
  let run := SandboxedRun config command st in
  let r := fst (fst run) in
  let meta := snd (fst run) in
  let p := fst (sandbox_exec (generateProfile config) command (world st)) in
  ExecMeta_ r = Some meta /\
  Sandboxed meta = true /\
  Output r = fst (fst p) /\
  Error r = snd (fst p) /\
  Success r = match snd (fst p) with None => true | Some _ => false end /\
  SandboxError meta
  = match snd (fst p) with
    | None => false
    | Some _ => isSandboxDenial (fst (fst p)) (snd (fst p))
    end /\
  SandboxReason meta
  = (if SandboxError meta then extractSandboxReason (fst (fst p)) else "") /\
  (SandboxError meta = true -> Success r = false /\ SandboxReason meta <> "") /\
  since st (snd run) = [EvSandboxExec (generateProfile config) command].
Proof.
  intros run r meta p. unfold r, meta, run, p. rewrite SandboxedRun_run.
  cbn [fst snd]. rewrite since_moved.
  destruct (fst (sandbox_exec (generateProfile config) command (world st)))
    as [[out [e|]] elapsed]; cbn [fst snd].
  - destruct (isSandboxDenial out (Some e)) eqn:Eden;
      cbn [fst snd denialResult ExecMeta_ Sandboxed Output Error Success
             SandboxError SandboxReason];
      repeat split; try reflexivity; try discriminate.
    eapply extractSandboxReason_nonempty; eassumption.
  - cbn [fst snd ExecMeta_ Sandboxed Output Error Success SandboxError SandboxReason].
    repeat split; try reflexivity; discriminate.
Qed.

Lemma GetExecutor_trace (st : State) :
  trace (snd (GetExecutor st)) = trace st /\ world (snd (GetExecutor st)) = world st.
Proof. unfold GetExecutor. now destruct (defaultExecutor st). Qed.

Lemma ExecuteShell_run (command : string) (st : State) :
  ExecuteShell command st
  = (fst (fst (Run (fst (GetExecutor st)) command (snd (GetExecutor st)))),
     snd (Run (fst (GetExecutor st)) command (snd (GetExecutor st)))).
Proof.
  unfold ExecuteShell, bind, ret.
  destruct (GetExecutor st) as [exec st0]. cbn [fst snd].
  now destruct (Run exec command st0) as [[r m] st1].
Qed.

(** X3.  [ExecuteShell] starts exactly one process for the command text it
    is given: [sandbox-exec] when the package-level executor is the
    sandboxed one, plain [sh -c] otherwise.  Its result always carries
    metadata, whose [Sandboxed] flag tells which of the two ran; an
    unconfined run is never reported as a sandbox error and has no reason,
    whatever it printed. *)
Theorem ExecuteShell_one_run (command : string) (st : State) :
  let r := fst (ExecuteShell command st) in
  let st' := snd (ExecuteShell command st) in
  exists meta : ExecMeta,
    ExecMeta_ r = Some meta /\
    Sandboxed meta = fst (IsSandboxEnabled st) /\
    (Sandboxed meta = false -> SandboxError meta = false /\ SandboxReason meta = "") /\
    since st st'
    = [match fst (GetExecutor st) with
       | SandboxedExecutor config => EvSandboxExec (generateProfile config) command
       | PassthroughExecutor => EvSh command
       end].
Proof.
  intros r st'. unfold r, st'. rewrite ExecuteShell_run. cbn [fst snd].
  rewrite IsSandboxEnabled_run. cbn [fst].
  destruct (GetExecutor_trace st) as (Ht & Hw).
  destruct (fst (GetExecutor st)) as [config|]; cbn [Run].
  - rewrite SandboxedRun_run. cbn [fst snd].
    destruct (fst (sandbox_exec (generateProfile config) command
                     (world (snd (GetExecutor st))))) as [[out [e|]] elapsed].
    + destruct (isSandboxDenial out (Some e)); eexists;
        (split; [reflexivity |]); (split; [reflexivity |]);
        (split; [discriminate |]); apply since_app; unfold moved; cbn [trace];
        now rewrite Ht.
    + eexists. split; [reflexivity |]. split; [reflexivity |].
      split; [discriminate |]. apply since_app. unfold moved. cbn [trace].
      now rewrite Ht.
  - rewrite PassthroughRun_run. cbn [fst snd].
    exists (mkExecMeta false false ""). split.
    + unfold passthroughResult.
      now destruct (fst (sh command (world (snd (GetExecutor st)))))
        as [[out [e|]] elapsed].
    + split; [reflexivity |]. split; [now split |].
      apply since_app. unfold moved. cbn [trace]. now rewrite Ht.
Qed.

(** X4.  The package-level executor is made once: [GetExecutor] on a state
    that has none makes it from the default configuration; on a state that
    has one it returns that one and changes nothing.  Either way the
    executor it returns is the one stored in [defaultExecutor] afterwards,
    so a second call returns what the first returned.  [InitSandbox]
    stores the executor for the configuration given, which [GetExecutor]
    then returns.  Neither touches the world or the trace. *)
Theorem GetExecutor_once (st : State) :
  (defaultExecutor st = None ->
   fst (GetExecutor st) = NewShellExecutor DefaultSandboxConfig) /\
  (forall e, defaultExecutor st = Some e -> GetExecutor st = (e, st)) /\
  defaultExecutor (snd (GetExecutor st)) = Some (fst (GetExecutor st)) /\
  GetExecutor (snd (GetExecutor st)) = (fst (GetExecutor st), snd (GetExecutor st)) /\
  (forall cfg,
     defaultExecutor (snd (InitSandbox cfg st)) = Some (NewShellExecutor cfg) /\
     GetExecutor (snd (InitSandbox cfg st))
     = (NewShellExecutor cfg, snd (InitSandbox cfg st))) /\
  world (snd (GetExecutor st)) = world st /\
  trace (snd (GetExecutor st)) = trace st /\
  (forall cfg, world (snd (InitSandbox cfg st)) = world st /\
               trace (snd (InitSandbox cfg st)) = trace st).
Proof.
  split; [| split; [| split; [| split; [| split; [| split; [| split]]]]]].
  - intros Hnone. unfold GetExecutor. now rewrite Hnone.
  - intros e Hsome. unfold GetExecutor. now rewrite Hsome.
  - apply GetExecutor_world.
  - apply GetExecutor_again.
  - intros cfg. now split.
  - apply GetExecutor_trace.
  - apply GetExecutor_trace.
  - intros cfg. now split.
Qed.

(** X5.  [NewShellExecutor] confines only when the configuration enables
    it, the platform is macOS and [sandbox-exec] resolves on the search
    path; in every other case it gives the passthrough executor, whatever
    else the configuration says.  The sandboxed executor it gives holds the
    configuration unchanged. *)
Theorem NewShellExecutor_confines_iff (cfg : SandboxConfig) :
  (NewShellExecutor cfg = SandboxedExecutor cfg <->
   Enabled cfg = true /\ GOOS = "darwin" /\ LookPath "sandbox-exec" = true) /\
  (NewShellExecutor cfg = PassthroughExecutor <->
   Enabled cfg = false \/ GOOS <> "darwin" \/ LookPath "sandbox-exec" = false) /\
  (forall cfg', NewShellExecutor cfg = SandboxedExecutor cfg' -> cfg' = cfg) /\
  Enabled DefaultSandboxConfig = sandboxAvailable.
Proof.
  assert (Hnew : NewShellExecutor cfg
                 = if Enabled cfg && (String.eqb GOOS "darwin" && LookPath "sandbox-exec")
                   then SandboxedExecutor cfg else PassthroughExecutor).
  { unfold NewShellExecutor, sandboxAvailable.
    now destruct (String.eqb GOOS "darwin"). }
  split; [| split; [| split; [| reflexivity]]]; rewrite Hnew; clear Hnew.
  - destruct (Enabled cfg), (String.eqb_spec GOOS "darwin"),
      (LookPath "sandbox-exec"); cbn [andb];
      intuition (try discriminate; try congruence).
  - destruct (Enabled cfg), (String.eqb_spec GOOS "darwin"),
      (LookPath "sandbox-exec"); cbn [andb];
      intuition (try discriminate; try congruence).
  - intros cfg' E.
    destruct (Enabled cfg && _); [now inversion E | discriminate E].
Qed.

End ExecutorFacts.

(** ** The tool dispatcher *)

Section DispatchFacts.
Context `{Unicode} `{Platform} `{Host}.
Import Sandbox Executor Tools.

Lemma ExecuteShell_confined (command : string) (st : State) (cfg : SandboxConfig) :
  confined st cfg ->
  since st (snd (ExecuteShell command st))
  = [EvSandboxExec (generateProfile cfg) command].
Proof.
  intros Hc. unfold confined in Hc. rewrite ExecuteShell_run, Hc. cbn [snd Run].
  rewrite SandboxedRun_run. cbn [snd]. apply since_app.
  unfold moved. cbn [trace]. now rewrite (proj1 (GetExecutor_trace st)).
Qed.

(** The events of a process run under the sandbox and of the file tools. *)
Definition confinedEvent (e : Event) : Prop :=
  match e with
  | EvSandboxExec _ _ | EvFileTool _ => True
  | _ => False
  end.

(** X6.  A tool name the dispatcher does not know gives a failed result
    that names it, and nothing else happens: no process, no file tool, no
    change of state. *)
Theorem ExecuteTool_unknown (name : string) (args : gmap string Any) (st : State) :
  name <> "read_file" -> name <> "write_file" -> name <> "edit_file" ->
  name <> "run_shell" -> name <> "python_runtime" ->
  ExecuteTool name args st
  = (mkToolResult false "" "fail: unknown tool" (Some (ErrUnknownTool name)) None,
     st).
Proof.
  intros H1' H2' H3' H4' H5'. unfold ExecuteTool.
  apply String.eqb_neq in H1', H2', H3', H4', H5'.
  now rewrite H1', H2', H3', H4', H5'.
Qed.

(** X7.  Under confinement the plain dispatcher never leaves the sandbox:
    [run_shell] and [python_runtime] start exactly one [sandbox-exec]
    process (for the "command" argument, and for the Python command built
    from the "code" argument; a missing or non-string argument counts as
    the empty string), and no tool makes it run [sh -c] directly or ask the
    fallback callback. *)
Theorem ExecuteTool_stays_confined (name : string) (args : gmap string Any)
    (st : State) (cfg : SandboxConfig) :
  confined st cfg ->
  (name = "run_shell" ->
   since st (snd (ExecuteTool name args st))
   = [EvSandboxExec (generateProfile cfg) (argString args "command")]) /\
  (name = "python_runtime" ->
   since st (snd (ExecuteTool name args st))
   = [EvSandboxExec (generateProfile cfg) (pythonCommand (argString args "code"))]) /\
  (args !! "command" = None -> argString args "command" = "") /\
  Forall confinedEvent (since st (snd (ExecuteTool name args st))).
Proof.
  intros Hc. split; [| split; [| split]].
  - intros ->. unfold ExecuteTool. cbn [String.eqb Ascii.eqb Bool.eqb orb].
    now apply ExecuteShell_confined.
  - intros ->. unfold ExecuteTool, ExecutePython.
    cbn [String.eqb Ascii.eqb Bool.eqb orb].
    now apply ExecuteShell_confined.
  - intros Hnone. unfold argString. now rewrite Hnone.
  - unfold ExecuteTool, ExecutePython.
    destruct (String.eqb name "read_file" || String.eqb name "write_file"
              || String.eqb name "edit_file").
    { unfold bind, emit, liftW. cbn [world defaultExecutor trace].
      destruct (fileTool name args (world st)) as [r w]. cbn [snd].
      rewrite (since_app st _ [EvFileTool name]); [| reflexivity].
      now repeat constructor. }
    destruct (String.eqb name "run_shell").
    { rewrite (ExecuteShell_confined _ st cfg Hc). now repeat constructor. }
    destruct (String.eqb name "python_runtime").
    { rewrite (ExecuteShell_confined _ st cfg Hc). now repeat constructor. }
    unfold ret. cbn [snd]. rewrite (since_app st st []); [constructor |].
    now rewrite app_nil_r.
Qed.

End DispatchFacts.

(** ** Which tools ask for confirmation *)

Section ConfirmationFacts.
Context `{Unicode} `{Platform} `{Host}.
Import Sandbox Executor Confirmation.

(** X8.  [read_file] never needs confirmation.  A shell or Python call
    needs none exactly when the caller says it is sandboxed and confinement
    is on.  Every other tool always needs it.  With [sandboxed] false the
    answer is that of the earlier revision.  Asking never runs anything:
    world and trace stay as they are. *)
Theorem RequiresConfirmation_cases (name : string) (sandboxed : bool) (st : State) :
  let answer := fst (RequiresConfirmation name sandboxed st) in
  let st' := snd (RequiresConfirmation name sandboxed st) in
  (name = "read_file" -> answer = false) /\
  (name = "run_shell" \/ name = "python_runtime" ->
   answer = negb (sandboxed && fst (IsSandboxEnabled st))) /\
  (name <> "read_file" -> name <> "run_shell" -> name <> "python_runtime" ->
   answer = true) /\
  fst (RequiresConfirmation name false st) = RequiresConfirmation0 name /\
  world st' = world st /\ trace st' = trace st.
Proof.
  intros answer st'. unfold answer, st', RequiresConfirmation, RequiresConfirmation0.
  rewrite IsSandboxEnabled_run.
  destruct (GetExecutor_trace st) as (Ht & Hw).
  split; [| split; [| split; [| split]]].
  - intros ->. reflexivity.
  - intros [-> | ->]; cbn [String.eqb Ascii.eqb Bool.eqb orb andb];
      destruct sandboxed; cbn [fst]; try reflexivity;
      rewrite (bind_run _ _ _ _ _ (IsSandboxEnabled_run st));
      now destruct (fst (GetExecutor st)).
  - intros H1' H2' H3'. apply String.eqb_neq in H1', H2', H3'.
    now rewrite H1', H2', H3'.
  - destruct (String.eqb name "read_file"); [reflexivity |].
    now rewrite andb_false_r.
  - destruct (String.eqb name "read_file"); [now split |].
    destruct ((String.eqb name "run_shell" || String.eqb name "python_runtime")
              && sandboxed); [| now split].
    rewrite (bind_run _ _ _ _ _ (IsSandboxEnabled_run st)).
    now destruct (fst (GetExecutor st)).
Qed.

End ConfirmationFacts.

(** ** The turn loop: what a turn leaves in the history *)

Section HistoryFacts.
Context `{Unicode} `{Platform} `{Host}.
Import Sandbox Executor Tools Orchestrator.

(** A tool-role message: no tool calls of its own. *)
Definition isToolMessage (m : Message) : Prop :=
  Role m = "tool" /\ ToolCalls m = [].

(** The batch loop answers the calls it gets to in their order, one tool
    message each with the id of the call, and it gets to all of them unless
    it is cancelled. *)
Lemma runToolCalls_results (a : Agent) (tcs : list ToolCall) :
  forall (acc : list Message) (st : State),
  exists (n : nat) (results : list Message),
    snd (fst (runToolCalls a tcs acc st)) = acc ++ results /\
    map ToolCallID results = map ID (take n tcs) /\
    Forall isToolMessage results /\
    (fst (fst (runToolCalls a tcs acc st)) = false -> n = List.length tcs) /\
    (fst (fst (runToolCalls a tcs acc st)) = true -> n < List.length tcs).
Proof.
  induction tcs as [|tc rest IH]; intros acc st.
  - exists 0, []. cbn. rewrite app_nil_r.
    split; [reflexivity |]. split; [reflexivity |]. split; [apply List.Forall_nil |].
    split; intros E; [reflexivity | discriminate E].
  - rewrite runToolCalls_cons. cbv zeta.
    destruct (fst (declined a (Name (Function tc))
                     (Unmarshal (Arguments (Function tc))) st)).
    + exists 0, []. cbn [fst snd]. rewrite app_nil_r. cbn.
      split; [reflexivity |]. split; [reflexivity |]. split; [apply List.Forall_nil |].
      split; intros E; [discriminate E | lia].
    + set (r := runTool a tc _).
      destruct (IH (acc ++ [toolMessage tc (fst r)])
                  (snd (toolDone a tc (fst r) (snd r))))
        as (n & results & Eres & Eids & Ftool & Hall & Hcut).
      exists (S n), (toolMessage tc (fst r) :: results).
      rewrite Eres, <- app_assoc. cbn [app map take List.length ToolCallID toolMessage].
      split; [reflexivity |]. split; [now rewrite Eids |].
      split; [constructor; [now split | exact Ftool] |].
      split; intros E; [rewrite (Hall E); reflexivity | specialize (Hcut E); lia].
Qed.

Lemma modelCalls_declined (pre : list Event) (name : string)
    (args : gmap string Any) :
  Forall batchEvent pre -> modelCalls (pre ++ [EvOnToolCall name args false]) = 0.
Proof. intros F. rewrite modelCalls_app, (modelCalls_batch pre F). reflexivity. Qed.

(** The five ways a turn of [Chat] can end. *)
Inductive TurnEnd (history : list Message)
  : Turn (string * option error) -> list Event -> Prop :=
| end_transport (err : error) :
    TurnEnd history (Return ("", Some err) history) []
| end_empty (msg : Message) :
    ToolCalls msg = [] -> messageContent (Some msg) = "" ->
    TurnEnd history (Return ("", Some ErrEmptyResponse) (history ++ [msg])) []
| end_answer (msg : Message) :
    ToolCalls msg = [] -> messageContent (Some msg) <> "" ->
    TurnEnd history
      (Return (messageContent (Some msg), None) (history ++ [msg])) []
| end_cancelled (pre : list Event) (name : string) (args : gmap string Any) :
    Forall batchEvent pre ->
    TurnEnd history (Return ("", None) history)
      (pre ++ [EvOnToolCall name args false])
| end_tools (msg : Message) (results : list Message) (evs : list Event) :
    ToolCalls msg <> [] ->
    map ToolCallID results = map ID (ToolCalls msg) ->
    Forall isToolMessage results ->
    Forall batchEvent evs ->
    TurnEnd history (Next (history ++ msg :: results)) evs.

Lemma TurnEnd_calls (history : list Message) t evs :
  TurnEnd history t evs -> modelCalls evs = 0.
Proof.
  destruct 1; try reflexivity.
  - now apply modelCalls_declined.
  - now apply modelCalls_batch.
Qed.

Lemma chatTurn_cases (a : Agent) (history : list Message) (st : State) :
  exists evs : list Event,
    trace (snd (chatTurn a history st))
    = trace st ++ EvChatCompletion history :: evs /\
    TurnEnd history (fst (chatTurn a history st)) evs.
Proof.
  rewrite chatTurn_unfold.
  destruct (fst (ChatCompletion history (world st))) as [msg | err].
  2:{ exists []. split; [reflexivity | constructor]. }
  cbv zeta.
  pose proof (announce_trace a (messageContent (Some msg)) (afterModel history st))
    as Hann.
  set (st1 := snd (announce a (messageContent (Some msg)) (afterModel history st)))
    in *.
  destruct (List.length (ToolCalls msg) =? 0)%nat eqn:Elen.
  { apply Nat.eqb_eq in Elen. apply length_zero_iff_nil in Elen.
    exists []. destruct (String.eqb _ _) eqn:Eempty; cbn [fst snd];
      (split; [now rewrite Hann |]).
    - apply String.eqb_eq in Eempty. now constructor.
    - apply String.eqb_neq in Eempty. now constructor. }
  apply Nat.eqb_neq in Elen.
  destruct (runToolCalls_trace a (ToolCalls msg) [] st1) as (evs & E & Hevs).
  destruct (runToolCalls_results a (ToolCalls msg) [] st1)
    as (n & results & Eres & Eids & Ftool & Hall & _).
  exists evs.
  destruct (fst (fst (runToolCalls a (ToolCalls msg) [] st1))); cbn [fst snd].
  - split; [rewrite E, Hann; cbn; now rewrite <- app_assoc |].
    rewrite take_all_but_last.
    destruct Hevs as (pre & name & args & -> & Fpre). now constructor.
  - split; [rewrite E, Hann; cbn; now rewrite <- app_assoc |].
    rewrite Eres. cbn [app]. rewrite <- app_assoc. cbn [app].
    constructor; try assumption.
    + intros Enil. apply Elen. now rewrite Enil.
    + rewrite Eids, (Hall eq_refl). now rewrite firstn_all.
Qed.

(** No event of [evs] is a refusal by the approval hook. *)
Definition noDecline (evs : list Event) : Prop :=
  Forall (fun e => ~ isDecline e) evs.

(** [evs] ends with a refusal, the only one in it. *)
Definition Cancelled (evs : list Event) : Prop :=
  exists pre name args,
    evs = pre ++ [EvOnToolCall name args false] /\ noDecline pre.

Lemma noDecline_batch (evs : list Event) : Forall batchEvent evs -> noDecline evs.
Proof.
  unfold noDecline. apply List.Forall_impl. intros e. apply batchEvent_not_decline.
Qed.

Lemma noDecline_app (l1 l2 : list Event) :
  noDecline l1 -> noDecline l2 -> noDecline (l1 ++ l2).
Proof. unfold noDecline. intros F1 F2. now apply Forall_app_2. Qed.

Lemma noDecline_model (h : list Message) (evs : list Event) :
  noDecline evs -> noDecline (EvChatCompletion h :: evs).
Proof.
  intros F. constructor; [| exact F]. intros (name & args & E). discriminate E.
Qed.

Lemma Cancelled_prepend (l evs : list Event) :
  noDecline l -> Cancelled evs -> Cancelled (l ++ evs).
Proof.
  intros Fl (pre & name & args & -> & Fpre).
  exists (l ++ pre), name, args. split; [now rewrite app_assoc |].
  now apply noDecline_app.
Qed.

(** A model round-trip on a history that begins with [prefix]; any other
    event passes. *)
Definition callsOn (prefix : list Message) (e : Event) : Prop :=
  match e with
  | EvChatCompletion h => exists more, h = prefix ++ more
  | _ => True
  end.

Lemma callsOn_prefix (p q : list Message) (e : Event) :
  callsOn (p ++ q) e -> callsOn p e.
Proof.
  destruct e; cbn; try easy. intros (more & ->). exists (q ++ more).
  now rewrite app_assoc.
Qed.

Lemma callsOn_quiet (p : list Message) (evs : list Event) :
  modelCalls evs = 0 -> Forall (callsOn p) evs.
Proof.
  induction evs as [|e evs IH]; [constructor |].
  unfold modelCalls. cbn [List.filter]. destruct e; cbn [isModelCall List.length];
    try discriminate; intros E; (constructor; [exact I | now apply IH]).
Qed.

Lemma modelCalls_cons_model (h : list Message) (evs : list Event) :
  modelCalls (EvChatCompletion h :: evs) = S (modelCalls evs).
Proof. reflexivity. Qed.

(** Rounds of tool use: a message of the model that asks for tools, then
    one tool message for each of its calls, in the order of the calls. *)
Inductive Rounds : list Message -> Prop :=
| rounds_nil : Rounds []
| rounds_cons (msg : Message) (results rest : list Message) :
    ToolCalls msg <> [] ->
    map ToolCallID results = map ID (ToolCalls msg) ->
    Forall isToolMessage results ->
    Rounds rest ->
    Rounds (msg :: results ++ rest).

(** How the turn loop of [Chat] ends: the pair it returns, what it leaves
    in the history after the rounds, and the events it recorded. *)
Inductive Ending : string * option error -> list Message -> list Event -> Prop :=
| ending_error (err : error) (evs : list Event) :
    noDecline evs -> Ending ("", Some err) [] evs
| ending_empty (msg : Message) (evs : list Event) :
    ToolCalls msg = [] -> messageContent (Some msg) = "" -> noDecline evs ->
    Ending ("", Some ErrEmptyResponse) [msg] evs
| ending_answer (msg : Message) (evs : list Event) :
    ToolCalls msg = [] -> messageContent (Some msg) <> "" -> noDecline evs ->
    Ending (messageContent (Some msg), None) [msg] evs
| ending_cancelled (evs : list Event) :
    Cancelled evs -> Ending ("", None) [] evs.

Lemma Ending_prepend (l : list Event) r tail evs :
  noDecline l -> Ending r tail evs -> Ending r tail (l ++ evs).
Proof.
  intros Fl [err evs' F | msg evs' Hc He F | msg evs' Hc He F | evs' Hc].
  - constructor. now apply noDecline_app.
  - constructor; try assumption. now apply noDecline_app.
  - constructor; try assumption. now apply noDecline_app.
  - constructor. now apply Cancelled_prepend.
Qed.

Lemma chatLoop_shape (a : Agent) :
  forall (fuel turns : nat) (history : list Message) (st : State)
         (res : string * option error) (h' : list Message),
  fst (chatLoop fuel a turns history st) = Some (res, h') ->
  exists rounds tail evs,
    h' = history ++ rounds ++ tail /\ Rounds rounds /\
    trace (snd (chatLoop fuel a turns history st)) = trace st ++ evs /\
    Ending res tail evs /\
    modelCalls evs <= maxChatTurns - turns /\
    Forall (callsOn history) evs.
Proof.
  induction fuel as [|fuel IH]; intros turns history st res h' Hres;
    [discriminate Hres |].
  cbn [chatLoop] in *.
  destruct (maxChatTurns <=? turns)%nat eqn:Ebudget.
  { cbn in Hres. injection Hres as <- <-. exists [], [], []. cbn.
    rewrite !app_nil_r. split; [reflexivity |]. split; [constructor |].
    split; [reflexivity |]. split; [constructor; constructor |].
    split; [lia | constructor]. }
  apply Nat.leb_gt in Ebudget.
  destruct (chatTurn_cases a history st) as (evs1 & Etr & Hend).
  pose proof (TurnEnd_calls _ _ _ Hend) as Hquiet.
  destruct (chatTurn a history st) as [t st1] eqn:Eturn.
  rewrite (bind_run _ _ _ _ _ Eturn) in *. cbn [fst snd] in Etr, Hend.
  assert (Hself : callsOn history (EvChatCompletion history)).
  { exists []. now rewrite app_nil_r. }
  unfold maxChatTurns in *.
  destruct Hend as [err | msg Hc He | msg Hc He | pre name args Fpre
                    | msg results evs1 Hne Eids Ftool Fb]; cbn [ret fst snd] in *.
  - injection Hres as <- <-. exists [], [], [EvChatCompletion history].
    rewrite !app_nil_r. split; [reflexivity |]. split; [constructor |].
    split; [exact Etr |]. split; [constructor; apply noDecline_model; constructor |].
    split; [rewrite modelCalls_cons_model; cbn; lia | now repeat constructor].
  - injection Hres as <- <-. exists [], [msg], [EvChatCompletion history].
    split; [reflexivity |]. split; [constructor |]. split; [exact Etr |].
    split; [constructor; try assumption; apply noDecline_model; constructor |].
    split; [rewrite modelCalls_cons_model; cbn; lia | now repeat constructor].
  - injection Hres as <- <-. exists [], [msg], [EvChatCompletion history].
    split; [reflexivity |]. split; [constructor |]. split; [exact Etr |].
    split; [constructor; try assumption; apply noDecline_model; constructor |].
    split; [rewrite modelCalls_cons_model; cbn; lia | now repeat constructor].
  - injection Hres as <- <-.
    exists [], [], (EvChatCompletion history :: pre ++ [EvOnToolCall name args false]).
    rewrite !app_nil_r. split; [reflexivity |]. split; [constructor |].
    split; [exact Etr |]. split.
    { constructor. exists (EvChatCompletion history :: pre), name, args.
      split; [reflexivity |]. apply noDecline_model. now apply noDecline_batch. }
    split; [rewrite modelCalls_cons_model, Hquiet; lia |].
    constructor; [exact Hself | now apply callsOn_quiet].
  - destruct (IH (S turns) (history ++ msg :: results) st1 res h' Hres)
      as (rounds & tail & evs2 & Eh & Hrounds & Etr2 & Hending & Hcalls & Hon).
    exists (msg :: results ++ rounds), tail, ((EvChatCompletion history :: evs1) ++ evs2).
    split; [rewrite Eh, <- !app_assoc; cbn; now rewrite <- !app_assoc |].
    split; [now constructor |].
    split; [rewrite Etr2, Etr; now rewrite <- app_assoc |].
    split; [apply Ending_prepend; [apply noDecline_model; now apply noDecline_batch
                                   | exact Hending] |].
    split; [rewrite modelCalls_app, modelCalls_cons_model, Hquiet; lia |].
    apply Forall_app_2.
    + constructor; [exact Hself | now apply callsOn_quiet].
    + revert Hon. apply List.Forall_impl. intros e. apply callsOn_prefix.
Qed.

End HistoryFacts.

(** ** [Chat] as a whole *)

Section ChatFacts.
Context `{Unicode} `{Platform} `{Host}.
Import Sandbox Executor Tools Orchestrator.

(** How the pre-tasks end: without a refusal, or with the error
    [ErrToolCancelled] right after one. *)
Definition preEnding (r : option (option error)) (evs : list Event) : Prop :=
  noDecline evs \/ (r = Some (Some ErrToolCancelled) /\ Cancelled evs).

Lemma preEnding_prepend (l : list Event) r evs :
  noDecline l -> preEnding r evs -> preEnding r (l ++ evs).
Proof.
  intros Fl [F | [E Hc]]; [left; now apply noDecline_app |].
  right. split; [exact E | now apply Cancelled_prepend].
Qed.

Lemma preEnding_completed (evs : list Event) :
  preEnding (Some None) evs -> noDecline evs.
Proof. intros [F | [E _]]; [exact F | discriminate E]. Qed.

Lemma preTaskTurn_cases (a : Agent) (task : PreTaskConfig)
    (taskMsgs : list Message) (st : State) :
  exists evs : list Event,
    trace (snd (preTaskTurn a task taskMsgs st))
    = trace st ++ EvChatCompletion taskMsgs :: evs /\
    modelCalls evs = 0 /\
    match fst (preTaskTurn a task taskMsgs st) with
    | Next h => noDecline evs /\ exists more, h = taskMsgs ++ more
    | Return r _ => preEnding (Some r) evs
    end.
Proof.
  rewrite preTaskTurn_unfold.
  destruct (fst (ChatCompletion taskMsgs (world st))) as [msg | err].
  2:{ exists []. split; [reflexivity |]. split; [reflexivity |]. left. constructor. }
  cbv zeta.
  pose proof (announce_trace a (messageContent (Some msg)) (afterModel taskMsgs st))
    as Hann.
  set (st1 := snd (announce a (messageContent (Some msg)) (afterModel taskMsgs st)))
    in *.
  destruct (List.length (ToolCalls msg) =? 0)%nat.
  { exists []. destruct (String.eqb _ _); cbn [fst snd];
      (split; [now rewrite Hann |]); (split; [reflexivity |]); left; constructor. }
  destruct (runToolCalls_trace a (ToolCalls msg) [] st1) as (evs & E & Hevs).
  exists evs.
  destruct (fst (fst (runToolCalls a (ToolCalls msg) [] st1))); cbn [fst snd].
  - rewrite preTaskEnd_trace.
    split; [rewrite E, Hann; cbn; now rewrite <- app_assoc |].
    destruct Hevs as (pre & name & args & -> & Fpre).
    split; [now apply modelCalls_declined |].
    right. split; [reflexivity |]. exists pre, name, args.
    split; [reflexivity | now apply noDecline_batch].
  - split; [rewrite E, Hann; cbn; now rewrite <- app_assoc |].
    split; [now apply modelCalls_batch |].
    split; [now apply noDecline_batch |].
    eexists. now rewrite <- app_assoc.
Qed.

Lemma preTaskLoop_shape (a : Agent) (task : PreTaskConfig) :
  forall (fuel turns : nat) (taskMsgs : list Message) (st : State),
  exists evs : list Event,
    trace (snd (preTaskLoop fuel a task turns taskMsgs st)) = trace st ++ evs /\
    modelCalls evs <= maxPreTaskTurns - turns /\
    Forall (callsOn taskMsgs) evs /\
    preEnding (fst (preTaskLoop fuel a task turns taskMsgs st)) evs.
Proof.
  induction fuel as [|fuel IH]; intros turns taskMsgs st.
  { exists []. cbn. rewrite app_nil_r. split; [reflexivity |].
    split; [lia |]. split; [constructor | left; constructor]. }
  cbn [preTaskLoop].
  destruct (maxPreTaskTurns <=? turns)%nat eqn:Ebudget.
  { exists []. cbn. rewrite app_nil_r. split; [reflexivity |].
    split; [lia |]. split; [constructor | left; constructor]. }
  apply Nat.leb_gt in Ebudget.
  destruct (preTaskTurn_cases a task taskMsgs st) as (evs1 & Etr & Hquiet & Hend).
  destruct (preTaskTurn a task taskMsgs st) as [t st1] eqn:Eturn.
  rewrite (bind_run _ _ _ _ _ Eturn). cbn [fst snd] in Etr, Hend.
  assert (Hself : callsOn taskMsgs (EvChatCompletion taskMsgs)).
  { exists []. now rewrite app_nil_r. }
  unfold maxPreTaskTurns in *.
  destruct t as [h1 | r h1]; cbn [ret fst snd].
  - destruct Hend as (Fno & more & ->).
    destruct (IH (S turns) (taskMsgs ++ more) st1) as (evs2 & Etr2 & Hcalls & Hon & Hpre).
    exists ((EvChatCompletion taskMsgs :: evs1) ++ evs2).
    split; [rewrite Etr2, Etr; now rewrite <- app_assoc |].
    split; [rewrite modelCalls_app, modelCalls_cons_model, Hquiet; lia |].
    split.
    + apply Forall_app_2.
      * constructor; [exact Hself | now apply callsOn_quiet].
      * revert Hon. apply List.Forall_impl. intros e. apply callsOn_prefix.
    + apply preEnding_prepend; [now apply noDecline_model | exact Hpre].
  - exists (EvChatCompletion taskMsgs :: evs1).
    split; [exact Etr |].
    split; [rewrite modelCalls_cons_model, Hquiet; lia |].
    split; [constructor; [exact Hself | now apply callsOn_quiet] |].
    change (EvChatCompletion taskMsgs :: evs1)
      with ([EvChatCompletion taskMsgs] ++ evs1).
    apply preEnding_prepend; [apply noDecline_model; constructor | exact Hend].
Qed.

(** The two messages a pre-task starts from. *)
Definition taskSeed (task : PreTaskConfig) : list Message :=
  [mkMessage "system" (AnyString (SystemPrompt task)) [] "";
   mkMessage "user"
     (AnyString (if String.eqb (Input task) "" then "Begin" else Input task)) [] ""].

(** A model round-trip on the history of one of [tasks]. *)
Definition taskCall (tasks : list PreTaskConfig) (e : Event) : Prop :=
  match e with
  | EvChatCompletion h =>
      exists task more, In task tasks /\ h = taskSeed task ++ more
  | _ => True
  end.

Lemma taskCall_here (task : PreTaskConfig) (rest : list PreTaskConfig) (e : Event) :
  callsOn (taskSeed task) e -> taskCall (task :: rest) e.
Proof.
  destruct e; cbn; try easy. intros (more & ->). exists task, more. now split; [left |].
Qed.

Lemma taskCall_later (task : PreTaskConfig) (rest : list PreTaskConfig) (e : Event) :
  taskCall rest e -> taskCall (task :: rest) e.
Proof.
  destruct e; cbn; try easy. intros (t & more & Hin & ->). exists t, more.
  now split; [right |].
Qed.

(** One pass through the loop over the pre-tasks, every state named. *)
Lemma runPreTasksFrom_cons (a : Agent) (task : PreTaskConfig)
    (rest : list PreTaskConfig) (st : State) :
  runPreTasksFrom a (task :: rest) st =
  let r := preTaskLoop (S maxPreTaskTurns) a task 0 (taskSeed task)
             (snd (preTaskStart a task st)) in
  match fst r with
  | Some None => runPreTasksFrom a rest (snd (preTaskEnd a task (snd r)))
  | other => (other, snd r)
  end.
Proof.
  cbn [runPreTasksFrom]. fold (preTaskStart a task) (preTaskEnd a task).
  unfold bind at 1. destruct (preTaskStart a task st) as [[] st0]. cbn [snd].
  unfold bind at 1. unfold taskSeed. cbn [app].
  destruct (preTaskLoop (S maxPreTaskTurns) a task 0 _ st0) as [[[err |] |] st1];
    cbn [fst snd]; try reflexivity.
  unfold bind. now destruct (preTaskEnd a task st1) as [[] st2].
Qed.

Lemma runPreTasksFrom_shape (a : Agent) :
  forall (tasks : list PreTaskConfig) (st : State),
  exists evs : list Event,
    trace (snd (runPreTasksFrom a tasks st)) = trace st ++ evs /\
    modelCalls evs <= maxPreTaskTurns * List.length tasks /\
    Forall (taskCall tasks) evs /\
    preEnding (fst (runPreTasksFrom a tasks st)) evs.
Proof.
  induction tasks as [|task rest IH]; intros st.
  { exists []. cbn. rewrite app_nil_r. split; [reflexivity |].
    split; [lia |]. split; [constructor | left; constructor]. }
  rewrite runPreTasksFrom_cons. cbv zeta.
  pose proof (preTaskStart_trace a task st) as Hstart.
  destruct (preTaskLoop_shape a task (S maxPreTaskTurns) 0 (taskSeed task)
              (snd (preTaskStart a task st)))
    as (evs1 & Etr & Hcalls & Hon & Hpre).
  destruct (preTaskLoop (S maxPreTaskTurns) a task 0 (taskSeed task)
              (snd (preTaskStart a task st))) as [r st1]. cbn [fst snd] in *.
  assert (Hhere : Forall (taskCall (task :: rest)) evs1).
  { revert Hon. apply List.Forall_impl. intros e. apply taskCall_here. }
  destruct r as [[err |] |]; cbn [fst snd].
  - exists evs1. split; [now rewrite Etr, Hstart |]. split; [cbn [List.length]; lia |].
    now split.
  - pose proof (preTaskEnd_trace a task st1) as Hend.
    destruct (IH (snd (preTaskEnd a task st1))) as (evs2 & Etr2 & Hcalls2 & Hon2 & Hpre2).
    exists (evs1 ++ evs2).
    split; [rewrite Etr2, Hend, Etr, Hstart; now rewrite app_assoc |].
    split; [rewrite modelCalls_app; cbn [List.length]; lia |].
    split.
    + apply Forall_app_2; [exact Hhere |].
      revert Hon2. apply List.Forall_impl. intros e. apply taskCall_later.
    + apply preEnding_prepend; [now apply preEnding_completed | exact Hpre2].
  - exists evs1. split; [now rewrite Etr, Hstart |]. split; [cbn [List.length]; lia |].
    now split.
Qed.

(** The pre-tasks are still to run. *)
Definition preTasksPending (a : Agent) : bool :=
  negb (preTasksDone a) && (0 <? List.length (PreTasks (config a)))%nat.

Definition userMessage (input : string) : Message :=
  mkMessage "user" (AnyString input) [] "".

(** The part of [Chat] after the pre-tasks. *)
Definition converse (a : Agent) (input : string) (done : bool)
  : M (option (string * option error * Agent)) :=
  fun st =>
    let r := chatLoop (S maxChatTurns) a 0 (msgs a ++ [userMessage input]) st in
    (match fst r with
     | Some (res, history') => Some (res, setMsgs a history' done)
     | None => None
     end, snd r).

Lemma Chat_unfold (a : Agent) (input : string) (st : State) :
  Chat a input st =
  if preTasksPending a then
    match fst (runPreTasks a st) with
    | Some None => converse a input true (snd (runPreTasks a st))
    | Some (Some err) => (Some ("", Some err, a), snd (runPreTasks a st))
    | None => (None, snd (runPreTasks a st))
    end
  else converse a input (preTasksDone a) st.
Proof.
  unfold Chat, preTasksPending, converse, userMessage.
  destruct (negb (preTasksDone a) && _).
  - unfold bind at 1. unfold bind at 1.
    destruct (runPreTasks a st) as [[[err |] |] st0]; cbn [fst snd ret];
      try reflexivity.
    unfold bind. now destruct (chatLoop _ a 0 _ st0) as [[[res h'] |] st1].
  - unfold bind, ret. now destruct (chatLoop _ a 0 _ st) as [[[res h'] |] st1].
Qed.

(** What [converse] gives, from the shape of the loop. *)
Lemma converse_shape (a : Agent) (input : string) (done : bool) (st : State) :
  exists res rounds tail evs,
    fst (converse a input done st)
    = Some (res, setMsgs a (msgs a ++ userMessage input :: rounds ++ tail) done) /\
    Rounds rounds /\
    trace (snd (converse a input done st)) = trace st ++ evs /\
    Ending res tail evs /\
    modelCalls evs <= maxChatTurns /\
    Forall (callsOn (msgs a ++ [userMessage input])) evs.
Proof.
  unfold converse. cbn [fst snd].
  pose proof (chatLoop_total a maxChatTurns (S maxChatTurns) 0
                (msgs a ++ [userMessage input]) st) as Htotal.
  pose proof (chatLoop_shape a (S maxChatTurns) 0 (msgs a ++ [userMessage input]) st)
    as Hshape.
  destruct (fst (chatLoop (S maxChatTurns) a 0 (msgs a ++ [userMessage input]) st))
    as [[res h'] |]; [| exfalso; apply Htotal; [lia | lia | reflexivity]].
  destruct (Hshape res h' eq_refl)
    as (rounds & tail & evs & -> & Hrounds & Etr & Hending & Hcalls & Hon).
  exists res, rounds, tail, evs.
  split; [now rewrite <- app_assoc |]. split; [exact Hrounds |].
  split; [exact Etr |]. split; [exact Hending |]. split; [lia | exact Hon].
Qed.

(** X9.  [Chat] always returns.  Either the pre-tasks were still to run
    and failed, and then it returns their error and leaves the agent as it
    was (the input is not recorded and the pre-tasks stay pending); or the
    history it leaves is the old one, the user's message, and then rounds
    of tool use: each message of the model that asked for tools is followed
    by exactly one tool message for each of its calls, in their order and
    with their ids.  After the rounds comes at most one more message, a
    response without tool calls.  The agent's pre-tasks are then marked
    done if they were done or have just run. *)
Theorem Chat_history_rounds (a : Agent) (input : string) (st : State) :
  exists (res : string * option error) (a' : Agent),
    fst (Chat a input st) = Some (res, a') /\
    ((preTasksPending a = true /\ a' = a /\
      exists err, fst (runPreTasks a st) = Some (Some err) /\ res = ("", Some err))
     \/
     (exists rounds tail,
        msgs a' = msgs a ++ userMessage input :: rounds ++ tail /\
        Rounds rounds /\
        (tail = [] \/ exists msg, tail = [msg] /\ ToolCalls msg = []) /\
        preTasksDone a' = preTasksDone a || preTasksPending a /\
        config a' = config a)).
Proof.
  assert (Htail : forall res tail evs, Ending res tail evs ->
            tail = [] \/ exists msg, tail = [msg] /\ ToolCalls msg = []).
  { intros res tail evs [err evs' F | msg evs' Hc He F | msg evs' Hc He F | evs' Hc];
      [now left | right; now exists msg | right; now exists msg | now left]. }
  rewrite Chat_unfold. unfold preTasksPending.
  destruct (negb (preTasksDone a) && _) eqn:Epending.
  - pose proof (runPreTasksFrom_total a (PreTasks (config a)) st) as Htotal.
    fold (runPreTasks a) in Htotal.
    destruct (fst (runPreTasks a st)) as [[err |] |]; [| | now exfalso].
    + exists ("", Some err), a. split; [reflexivity |]. left.
      split; [reflexivity |]. split; [reflexivity |]. now exists err.
    + destruct (converse_shape a input true (snd (runPreTasks a st)))
        as (res & rounds & tail & evs & -> & Hrounds & _ & Hending & _).
      eexists. eexists. split; [reflexivity |]. right. exists rounds, tail.
      cbn [setMsgs msgs preTasksDone config].
      split; [reflexivity |]. split; [exact Hrounds |].
      split; [exact (Htail _ _ _ Hending) |]. split; [now rewrite orb_true_r | reflexivity].
  - destruct (converse_shape a input (preTasksDone a) st)
      as (res & rounds & tail & evs & -> & Hrounds & _ & Hending & _).
    eexists. eexists. split; [reflexivity |]. right. exists rounds, tail.
    cbn [setMsgs msgs preTasksDone config].
    split; [reflexivity |]. split; [exact Hrounds |].
    split; [exact (Htail _ _ _ Hending) |]. split; [now rewrite orb_false_r | reflexivity].
Qed.

(** X10.  Whatever the model answers and whatever the hooks do, one call
    of [Chat] makes at most [maxChatTurns] model round-trips for the
    conversation and at most [maxPreTaskTurns] for each pre-task; with the
    pre-tasks done or none configured it makes at most [maxChatTurns]. *)
Theorem Chat_model_calls_bounded (a : Agent) (input : string) (st : State) :
  modelCalls (since st (snd (Chat a input st)))
  <= maxChatTurns + maxPreTaskTurns * List.length (PreTasks (config a)) /\
  (preTasksPending a = false ->
   modelCalls (since st (snd (Chat a input st))) <= maxChatTurns).
Proof.
  rewrite Chat_unfold.
  destruct (preTasksPending a).
  - destruct (runPreTasksFrom_shape a (PreTasks (config a)) st)
      as (evs0 & Etr0 & Hcalls0 & _).
    fold (runPreTasks a) in *.
    split; [| discriminate].
    destruct (fst (runPreTasks a st)) as [[err |] |]; cbn [snd].
    + rewrite (since_app _ _ _ Etr0). lia.
    + destruct (converse_shape a input true (snd (runPreTasks a st)))
        as (res & rounds & tail & evs & _ & _ & Etr & _ & Hcalls & _).
      rewrite (since_app st _ (evs0 ++ evs)).
      * rewrite modelCalls_app. lia.
      * now rewrite Etr, Etr0, app_assoc.
    + rewrite (since_app _ _ _ Etr0). lia.
  - destruct (converse_shape a input (preTasksDone a) st)
      as (res & rounds & tail & evs & _ & _ & Etr & _ & Hcalls & _).
    rewrite (since_app _ _ _ Etr). split; [lia | intros _; exact Hcalls].
Qed.

(** X11.  What the pair returned by [Chat] tells.  A text that is not
    empty comes without an error and is the content of the last message of
    the history, a response without tool calls.  An error always comes with
    the empty text.  The empty text without an error is given only after
    the approval hook refused a call: the refusal is the last event, and
    the history ends with complete rounds, without the message whose call
    was refused. *)
Theorem Chat_result_cases (a : Agent) (input : string) (st : State) :
  exists (res : string) (err : option error) (a' : Agent),
    fst (Chat a input st) = Some (res, err, a') /\
    (res <> "" ->
     err = None /\
     exists msg, last (msgs a') = Some msg /\ ToolCalls msg = [] /\
                 messageContent (Some msg) = res) /\
    (err <> None -> res = "") /\
    (res = "" -> err = None ->
     Cancelled (since st (snd (Chat a input st))) /\
     exists rounds, msgs a' = msgs a ++ userMessage input :: rounds /\ Rounds rounds).
Proof.
  assert (Hmain : forall done st0 evs0,
            trace st0 = trace st ++ evs0 -> noDecline evs0 ->
            exists (res : string) (err : option error) (a' : Agent),
              fst (converse a input done st0) = Some (res, err, a') /\
              (res <> "" ->
               err = None /\
               exists msg, last (msgs a') = Some msg /\ ToolCalls msg = [] /\
                           messageContent (Some msg) = res) /\
              (err <> None -> res = "") /\
              (res = "" -> err = None ->
               Cancelled (since st (snd (converse a input done st0))) /\
               exists rounds,
                 msgs a' = msgs a ++ userMessage input :: rounds /\ Rounds rounds)).
  { intros done st0 evs0 Etr0 Fno.
    destruct (converse_shape a input done st0)
      as (res & rounds & tail & evs & -> & Hrounds & Etr & Hending & _).
    assert (Esince : since st (snd (converse a input done st0)) = evs0 ++ evs).
    { apply since_app. now rewrite Etr, Etr0, app_assoc. }
    rewrite Esince.
    destruct Hending as [err evs' F | msg evs' Hc He F | msg evs' Hc He F | evs' Hc];
      eexists; eexists; eexists; (split; [reflexivity |]);
      cbn [setMsgs msgs].
    - split; [intros Hne; now contradiction Hne |]. split; [reflexivity |].
      intros _ E. discriminate E.
    - split; [intros Hne; now contradiction Hne |]. split; [reflexivity |].
      intros _ E. discriminate E.
    - split.
      { intros _. split; [reflexivity |]. exists msg.
        split; [| now split].
        change (msgs a ++ userMessage input :: rounds ++ [msg])
          with (msgs a ++ (userMessage input :: rounds) ++ [msg]).
        rewrite app_assoc. apply last_snoc. }
      split; [intros Hne; now contradiction Hne |].
      intros E _. now contradiction He.
    - split; [intros Hne; now contradiction Hne |].
      split; [reflexivity |]. intros _ _.
      split; [now apply Cancelled_prepend |].
      exists rounds. now rewrite app_nil_r. }
  rewrite Chat_unfold.
  destruct (preTasksPending a).
  - destruct (runPreTasksFrom_shape a (PreTasks (config a)) st)
      as (evs0 & Etr0 & _ & _ & Hpre).
    pose proof (runPreTasksFrom_total a (PreTasks (config a)) st) as Htotal.
    fold (runPreTasks a) in *.
    destruct (fst (runPreTasks a st)) as [[err |] |]; [| | now exfalso].
    + exists "", (Some err), a. split; [reflexivity |].
      split; [intros Hne; now contradiction Hne |]. split; [reflexivity |].
      intros _ E. discriminate E.
    + apply (Hmain true _ evs0 Etr0). now apply preEnding_completed.
  - apply (Hmain (preTasksDone a) st []); [now rewrite app_nil_r | constructor].
Qed.

(** X12.  A refusal by the approval hook is the last thing that happens in
    a call of [Chat]: after it no tool runs, no model round-trip is made
    and no other call is put to the hook.  The call then returns the empty
    text, with no error when the refusal came in the conversation and with
    [ErrToolCancelled] and the agent unchanged when it came in a
    pre-task. *)
Theorem Chat_decline_is_final (a : Agent) (input : string) (st : State) :
  noDecline (since st (snd (Chat a input st))) \/
  (Cancelled (since st (snd (Chat a input st))) /\
   ((exists a', fst (Chat a input st) = Some ("", None, a')) \/
    (preTasksPending a = true /\
     fst (Chat a input st) = Some ("", Some ErrToolCancelled, a)))).
Proof.
  assert (Hmain : forall done st0 evs0,
            trace st0 = trace st ++ evs0 -> noDecline evs0 ->
            noDecline (since st (snd (converse a input done st0))) \/
            (Cancelled (since st (snd (converse a input done st0))) /\
             exists a', fst (converse a input done st0) = Some ("", None, a'))).
  { intros done st0 evs0 Etr0 Fno.
    destruct (converse_shape a input done st0)
      as (res & rounds & tail & evs & -> & _ & Etr & Hending & _).
    assert (Esince : since st (snd (converse a input done st0)) = evs0 ++ evs).
    { apply since_app. now rewrite Etr, Etr0, app_assoc. }
    rewrite Esince.
    destruct Hending as [err evs' F | msg evs' Hc He F | msg evs' Hc He F | evs' Hc];
      try (left; now apply noDecline_app).
    right. split; [now apply Cancelled_prepend |]. eexists. reflexivity. }
  rewrite Chat_unfold.
  destruct (preTasksPending a).
  - destruct (runPreTasksFrom_shape a (PreTasks (config a)) st)
      as (evs0 & Etr0 & _ & _ & Hpre).
    fold (runPreTasks a) in *.
    destruct (fst (runPreTasks a st)) as [[err |] |]; cbn [fst snd].
    + rewrite (since_app _ _ _ Etr0).
      destruct Hpre as [F | [E Hc]]; [now left |].
      right. split; [exact Hc |]. right. split; [reflexivity |].
      now injection E as ->.
    + destruct (Hmain true _ evs0 Etr0 (preEnding_completed _ Hpre))
        as [F | [Hc Hres]]; [now left |].
      right. split; [exact Hc | now left].
    + rewrite (since_app _ _ _ Etr0).
      destruct Hpre as [F | [E _]]; [now left | discriminate E].
  - destruct (Hmain (preTasksDone a) st []) as [F | [Hc Hres]];
      [now rewrite app_nil_r | constructor | now left |].
    right. split; [exact Hc | now left].
Qed.

(** X13.  The histories the model is shown.  Every model round-trip of a
    call of [Chat] is made either on the conversation, which begins with
    the agent's history followed by the user's message, or, while the
    pre-tasks are pending, on the history of one of the configured
    pre-tasks, which begins with that task's system prompt and its input
    ("Begin" when the input is empty) and not with the agent's history. *)
Theorem Chat_histories_shown (a : Agent) (input : string) (st : State) :
  Forall (fun e =>
            callsOn (msgs a ++ [userMessage input]) e \/
            (preTasksPending a = true /\ taskCall (PreTasks (config a)) e))
    (since st (snd (Chat a input st))).
Proof.
  rewrite Chat_unfold.
  destruct (preTasksPending a).
  - destruct (runPreTasksFrom_shape a (PreTasks (config a)) st)
      as (evs0 & Etr0 & _ & Hon0 & _).
    fold (runPreTasks a) in *.
    assert (Hpre : Forall (fun e =>
                     callsOn (msgs a ++ [userMessage input]) e \/
                     (true = true /\ taskCall (PreTasks (config a)) e)) evs0).
    { revert Hon0. apply List.Forall_impl. intros e He. now right. }
    destruct (fst (runPreTasks a st)) as [[err |] |]; cbn [snd].
    + now rewrite (since_app _ _ _ Etr0).
    + destruct (converse_shape a input true (snd (runPreTasks a st)))
        as (res & rounds & tail & evs & _ & _ & Etr & _ & _ & Hon).
      rewrite (since_app st _ (evs0 ++ evs)); [| now rewrite Etr, Etr0, app_assoc].
      apply Forall_app_2; [exact Hpre |].
      revert Hon. apply List.Forall_impl. intros e He. now left.
    + now rewrite (since_app _ _ _ Etr0).
  - destruct (converse_shape a input (preTasksDone a) st)
      as (res & rounds & tail & evs & _ & _ & Etr & _ & _ & Hon).
    rewrite (since_app _ _ _ Etr).
    revert Hon. apply List.Forall_impl. intros e He. now left.
Qed.

End ChatFacts.

(** ** Leaving the sandbox takes an approval *)

Section EscapeFacts.
Context `{Unicode} `{Platform} `{Host}.
Import Sandbox Executor Tools.

Lemma ExecuteShell_after_GetExecutor (command : string) (st : State)
    (cfg : SandboxConfig) :
  confined st cfg ->
  ExecuteShell command (snd (GetExecutor st))
  = (fst (fst (SandboxedRun cfg command (snd (GetExecutor st)))),
     snd (SandboxedRun cfg command (snd (GetExecutor st)))).
Proof.
  intros Hc. rewrite ExecuteShell_run, GetExecutor_again. cbn [fst snd].
  unfold confined in Hc. now rewrite Hc.
Qed.

Lemma liftW_run {A} (f : World -> A * World) (st : State) :
  liftW f st
  = (fst (f (world st)),
     mkState (snd (f (world st))) (defaultExecutor st) (trace st)).
Proof. unfold liftW. now destruct (f (world st)). Qed.

Lemma emit_run (e : Event) (st : State) :
  emit e st = (tt, mkState (world st) (defaultExecutor st) (trace st ++ [e])).
Proof. reflexivity. Qed.

(** X14.  Under confinement the package-level [ExecuteShellWithSandbox]
    first runs the command under [sandbox-exec].  When that run is not
    classified as a denial (it succeeded, or it failed and the classifier
    does not take its output for a denial), or when no fallback callback is
    set, that is all it does.  When the run is classified as a denial and
    a callback is set, it asks the callback once, with the command and the
    reason extracted from the output, which is never empty, and only on
    its approval runs the same command through [sh -c].  So the command
    reaches [sh -c] unconfined only right after an approval of a denied
    run. *)
Theorem ExecuteShellWithSandbox_escape_needs_approval (command : string)
    (cb : Callback2) (st : State) (cfg : SandboxConfig) :
  confined st cfg ->
  let p := sandbox_exec (generateProfile cfg) command (world st) in
  let out := fst (fst (fst p)) in
  let err := snd (fst (fst p)) in
  let denial :=
    match err with
    | Some _ => isSandboxDenial out err
    | None => false
    end in
  let reason := extractSandboxReason out in
  let evs := since st (snd (ExecuteShellWithSandbox command cb st)) in
  let attempt := EvSandboxExec (generateProfile cfg) command in
  (denial = false -> evs = [attempt]) /\
  (cb = None -> evs = [attempt]) /\
  (denial = true ->
   forall f, cb = Some f ->
     reason <> "" /\
     evs = attempt
           :: EvOnSandboxFallback command reason (fst (f command reason (snd p)))
           :: (if fst (f command reason (snd p)) then [EvSh command] else [])).
Proof.
  intros Hc p out err denial reason evs attempt.
  unfold evs, attempt, denial, reason, err, out, p.
  clear evs attempt denial reason err out p.
  unfold ExecuteShellWithSandbox.
  rewrite (bind_run _ _ _ _ _ (IsSandboxEnabled_run st)).
  pose proof Hc as Hc'. unfold confined in Hc'. rewrite Hc'. cbn [negb].
  rewrite (bind_run _ _ _ _ _ (ExecuteShell_after_GetExecutor command st cfg Hc)).
  rewrite SandboxedRun_run. cbn [fst snd].
  destruct (GetExecutor_trace st) as (Ht & Hw).
  set (st0 := snd (GetExecutor st)) in *. rewrite Hw.
  assert (Eplain : since st (moved st0
                               (snd (sandbox_exec (generateProfile cfg) command (world st)))
                               (EvSandboxExec (generateProfile cfg) command))
                   = [EvSandboxExec (generateProfile cfg) command]).
  { apply since_app. unfold moved. cbn [trace]. now rewrite Ht. }
  destruct (sandbox_exec (generateProfile cfg) command (world st))
    as [[[out [e |]] elapsed] w1]; cbn [fst snd ExecMeta_ SandboxError] in *.
  2:{ unfold ret. cbn [snd]. rewrite Eplain.
      split; [reflexivity |]. split; [reflexivity | discriminate]. }
  destruct (isSandboxDenial out (Some e));
    cbn [fst snd denialResult ExecMeta_ SandboxError SandboxReason].
  2:{ unfold ret. cbn [snd]. rewrite Eplain.
      split; [reflexivity |]. split; [reflexivity | discriminate]. }
  split; [discriminate |]. split.
  { intros ->. unfold ret. cbn [snd]. exact Eplain. }
  intros _ f ->. split; [apply extractSandboxReason_nonempty |].
  rewrite (bind_run _ _ _ _ _ (liftW_run _ _)).
  rewrite (bind_run _ _ _ _ _ (emit_run _ _)).
  unfold moved. cbn [world defaultExecutor trace].
  destruct (f command (extractSandboxReason out) w1) as [[] w2]; cbn [fst snd].
  - rewrite ExecuteShellUnsandboxed_run. cbn [snd]. apply since_app.
    unfold moved. cbn [trace]. rewrite Ht. now rewrite <- !app_assoc.
  - unfold ret. cbn [snd]. apply since_app. cbn [trace]. rewrite Ht.
    now rewrite <- !app_assoc.
Qed.

End EscapeFacts.

(** ** The shell subagent's negotiator: a confined run that is not denied *)

Section NotificationFacts.
Context `{Unicode} `{Platform} `{Host}.
Import Sandbox Executor Tools.

(** X15.  In [executeShellWithSandbox] of the agent, under confinement, a
    command whose run is not classified as a denial has already run when
    [OnSubagentToolCall] is called, and the hook's answer is not used: the
    result is that of the confined run whether the hook says yes or no.
    The hook is given "run_shell", the arguments and the metadata of the
    run; nothing runs outside the sandbox and the fallback callback is not
    asked. *)
Theorem sandboxed_hook_is_notification (a : SandboxSubagent.Agent)
    (args : gmap string Any) (st : State) (cfg : SandboxConfig)
    (command out elapsed : string) (err : option error) (w1 : World)
    (f : string -> gmap string Any -> ExecMeta -> World -> bool * World) :
  confined st cfg ->
  sandbox_exec (generateProfile cfg) command (world st) = ((out, err, elapsed), w1) ->
  err = None \/ isSandboxDenial out err = false ->
  SandboxSubagent.OnSubagentToolCall a = Some f ->
  let run := SandboxSubagent.executeShellWithSandbox a command args st in
  let meta := mkExecMeta true false "" in
  Output (fst run) = out /\ Error (fst run) = err /\
  ExecMeta_ (fst run) = Some meta /\
  Success (fst run) = match err with None => true | Some _ => false end /\
  since st (snd run)
  = [EvSandboxExec (generateProfile cfg) command;
     EvOnSubagentToolCall "run_shell" args (Some meta)
       (fst (f "run_shell" args meta w1))].
Proof.
  intros Hc Hrun Hplain Hhook run meta. unfold run, meta. clear run meta.
  unfold SandboxSubagent.executeShellWithSandbox.
  rewrite (bind_run _ _ _ _ _ (IsSandboxEnabled_run st)).
  pose proof Hc as Hc'. unfold confined in Hc'. rewrite Hc'.
  rewrite (bind_run _ _ _ _ _ (ExecuteShell_after_GetExecutor command st cfg Hc)).
  rewrite SandboxedRun_run. cbn [fst snd].
  destruct (GetExecutor_trace st) as (Ht & Hw).
  set (st0 := snd (GetExecutor st)) in *.
  rewrite Hw, Hrun. cbn [fst snd].
  assert (Hdone : forall result : ToolResult,
            since st
              (snd ((ok <- liftW (f "run_shell" args (mkExecMeta true false "")) ;;
                     emit (EvOnSubagentToolCall "run_shell" args
                             (Some (mkExecMeta true false "")) ok) ;;;
                     ret result)
                      (moved st0 w1 (EvSandboxExec (generateProfile cfg) command))))
            = [EvSandboxExec (generateProfile cfg) command;
               EvOnSubagentToolCall "run_shell" args
                 (Some (mkExecMeta true false ""))
                 (fst (f "run_shell" args (mkExecMeta true false "") w1))] /\
            fst ((ok <- liftW (f "run_shell" args (mkExecMeta true false "")) ;;
                  emit (EvOnSubagentToolCall "run_shell" args
                          (Some (mkExecMeta true false "")) ok) ;;;
                  ret result)
                   (moved st0 w1 (EvSandboxExec (generateProfile cfg) command)))
            = result).
  { intros result.
    rewrite (bind_run _ _ _ _ _ (liftW_run _ _)).
    rewrite (bind_run _ _ _ _ _ (emit_run _ _)).
    unfold ret, moved. cbn [fst snd world defaultExecutor trace].
    split; [| reflexivity]. apply since_app. cbn [trace]. rewrite Ht.
    now rewrite <- !app_assoc. }
  destruct err as [e |].
  - destruct Hplain as [E | Hno]; [discriminate E |]. rewrite Hno.
    cbn [fst snd ExecMeta_ SandboxError]. rewrite Hhook. cbv zeta.
    destruct (Hdone (mkToolResult false out ("fail (" +:+ elapsed +:+ "s)") (Some e)
                       (Some (mkExecMeta true false "")))) as (-> & ->).
    now repeat split.
  - cbn [fst snd ExecMeta_ SandboxError]. rewrite Hhook. cbv zeta.
    destruct (Hdone (mkToolResult true out ("ok (" +:+ elapsed +:+ "s)") None
                       (Some (mkExecMeta true false "")))) as (-> & ->).
    now repeat split.
Qed.

End NotificationFacts.

(** ** The shell subagent of the marker revision *)

Section SubagentFacts.
Context `{Unicode} `{Platform} `{Host}.
Import MarkerRunner.

Lemma call_trace (h : option (World -> World)) (st : State) :
  trace (snd (call h st)) = trace st.
Proof. now destruct h. Qed.

(** [ExecuteShell] of this revision: one [sh -c], whatever the command. *)
Lemma ExecuteShell_sh (command : string) (st : State) :
  trace (snd (MarkerRunner.ExecuteShell command st)) = trace st ++ [EvSh command].
Proof.
  unfold MarkerRunner.ExecuteShell.
  rewrite (bind_run _ _ _ _ _ (emit_run _ _)).
  rewrite (bind_run _ _ _ _ _ (liftW_run _ _)).
  cbn [world defaultExecutor trace].
  now destruct (sh command (world st)) as [[[out [e |]] elapsed] w1].
Qed.

(** The question put to [OnSubagentToolCall] and what it leaves. *)
Lemma subagentDeclined_spec (a : Agent) (args : gmap string Any) (st : State) :
  match OnSubagentToolCall a with
  | Some f =>
      fst (subagentDeclined a args st) = negb (fst (f "run_shell" args (world st))) /\
      trace (snd (subagentDeclined a args st))
      = trace st ++ [EvOnSubagentToolCall "run_shell" args None
                       (fst (f "run_shell" args (world st)))]
  | None =>
      fst (subagentDeclined a args st) = false /\
      trace (snd (subagentDeclined a args st)) = trace st
  end.
Proof.
  unfold subagentDeclined. destruct (OnSubagentToolCall a) as [f |]; [| now split].
  rewrite (bind_run _ _ _ _ _ (liftW_run _ _)).
  rewrite (bind_run _ _ _ _ _ (emit_run _ _)). now split.
Qed.

(** One pass through the loop over the follow-up commands. *)
Lemma followUps_cons (a : Agent) (tc : ToolCall) (rest : list ToolCall)
    (msgs : list Message) (st : State) :
  followUps a (tc :: rest) msgs st =
  let args := Unmarshal (Arguments (Function tc)) in
  let d := subagentDeclined a args st in
  if fst d then
    followUps a rest
      (msgs ++ [mkMessage "tool" (AnyString "cancelled by user") [] (ID tc)]) (snd d)
  else
    let r := MarkerRunner.ExecuteShell (argString args "command") (snd d) in
    followUps a rest
      (msgs ++ [mkMessage "tool" (AnyString (Output (fst r))) [] (ID tc)])
      (snd (call (option_map (fun f => f "run_shell" args (fst r))
                    (OnSubagentToolDone a)) (snd r))).
Proof.
  cbn [followUps]. cbv zeta. unfold bind at 1.
  destruct (subagentDeclined a _ st) as [[] st1]; cbn [fst snd]; [reflexivity |].
  unfold bind at 1.
  destruct (MarkerRunner.ExecuteShell _ st1) as [r st2]. cbn [fst snd].
  unfold bind at 1. now destruct (call _ st2) as [[] st3].
Qed.

Definition isShellRun (e : Event) : bool :=
  match e with
  | EvSh _ => true
  | _ => false
  end.

Definition isRefusal (e : Event) : bool :=
  match e with
  | EvOnSubagentToolCall _ _ _ false => true
  | _ => false
  end.

(** The numbers of [sh -c] runs and of refusals among some events. *)
Definition shellRuns (evs : list Event) : nat :=
  List.length (List.filter isShellRun evs).

Definition refusals (evs : list Event) : nat :=
  List.length (List.filter isRefusal evs).

Lemma shellRuns_app (l1 l2 : list Event) :
  shellRuns (l1 ++ l2) = shellRuns l1 + shellRuns l2.
Proof. unfold shellRuns. now rewrite List.filter_app, length_app. Qed.

Lemma refusals_app (l1 l2 : list Event) :
  refusals (l1 ++ l2) = refusals l1 + refusals l2.
Proof. unfold refusals. now rewrite List.filter_app, length_app. Qed.

(** X16.  The follow-up loop of the shell subagent answers every call of
    the batch: it appends exactly one tool message for each call, in the
    order of the calls and with their ids, and keeps what was there.  A
    call the hook refuses is answered too and the loop goes on with the
    next one; each call either runs once through [sh -c] or is refused,
    and the loop makes no model round-trip. *)
Theorem followUps_answers_every_call (a : Agent) (tcs : list ToolCall) :
  forall (msgs : list Message) (st : State),
  exists (results : list Message) (evs : list Event),
    fst (followUps a tcs msgs st) = msgs ++ results /\
    map ToolCallID results = map ID tcs /\
    Forall isToolMessage results /\
    trace (snd (followUps a tcs msgs st)) = trace st ++ evs /\
    modelCalls evs = 0 /\
    shellRuns evs + refusals evs = List.length tcs.
Proof.
  induction tcs as [|tc rest IH]; intros msgs st.
  { exists [], []. cbn. rewrite !app_nil_r. repeat split. constructor. }
  rewrite followUps_cons. cbv zeta.
  set (args := Unmarshal (Arguments (Function tc))).
  pose proof (subagentDeclined_spec a args st) as Hd.
  assert (Hask : exists evd,
            trace (snd (subagentDeclined a args st)) = trace st ++ evd /\
            modelCalls evd = 0 /\ shellRuns evd = 0 /\
            refusals evd = if fst (subagentDeclined a args st) then 1 else 0).
  { destruct (OnSubagentToolCall a) as [f |].
    - destruct Hd as (-> & ->). eexists. split; [reflexivity |].
      now destruct (fst (f "run_shell" args (world st))).
    - destruct Hd as (-> & ->). exists []. now rewrite app_nil_r. }
  destruct Hask as (evd & Etr & Hm & Hs & Hr).
  destruct (fst (subagentDeclined a args st)).
  - destruct (IH (msgs ++ [mkMessage "tool" (AnyString "cancelled by user") [] (ID tc)])
                (snd (subagentDeclined a args st)))
      as (results & evs & Eres & Eids & Ftool & Etr2 & Hm2 & Hcount).
    exists (mkMessage "tool" (AnyString "cancelled by user") [] (ID tc) :: results),
      (evd ++ evs).
    split; [now rewrite Eres, <- app_assoc |].
    split; [cbn; now rewrite Eids |].
    split; [constructor; [now split | exact Ftool] |].
    split; [now rewrite Etr2, Etr, app_assoc |].
    split; [rewrite modelCalls_app; lia |].
    rewrite shellRuns_app, refusals_app. cbn [List.length]. lia.
  - set (r := MarkerRunner.ExecuteShell (argString args "command") _).
    pose proof (ExecuteShell_sh (argString args "command")
                  (snd (subagentDeclined a args st))) as Hsh.
    fold r in Hsh.
    set (st3 := snd (call _ (snd r))).
    assert (Etr3 : trace st3 = trace st ++ evd ++ [EvSh (argString args "command")]).
    { unfold st3. now rewrite call_trace, Hsh, Etr, app_assoc. }
    destruct (IH (msgs ++ [mkMessage "tool" (AnyString (Output (fst r))) [] (ID tc)]) st3)
      as (results & evs & Eres & Eids & Ftool & Etr2 & Hm2 & Hcount).
    exists (mkMessage "tool" (AnyString (Output (fst r))) [] (ID tc) :: results),
      ((evd ++ [EvSh (argString args "command")]) ++ evs).
    split; [now rewrite Eres, <- app_assoc |].
    split; [cbn; now rewrite Eids |].
    split; [constructor; [now split | exact Ftool] |].
    split; [now rewrite Etr2, Etr3, !app_assoc |].
    split; [rewrite !modelCalls_app; cbn; lia |].
    rewrite !shellRuns_app, !refusals_app. cbn [List.length].
    change (shellRuns [EvSh (argString args "command")]) with 1.
    change (refusals [EvSh (argString args "command")]) with 0. lia.
Qed.

(** The arguments shown to the hook for the first command. *)
Definition initialArgs (command description safety : string) : gmap string Any :=
  <["command" := AnyString command]>
    (<["description" := AnyString description]>
       (<["safety" := AnyString safety]> ∅)).

(** X17.  When [OnSubagentToolCall] refuses the first command of a shell
    subagent, the subagent returns the failed result "cancelled by user"
    and that is all: the command is not run and the model is not asked.
    The hook was shown the command with the description and the safety
    class of the parent call. *)
Theorem ExecuteShellSubagent_refused (a : Agent) (fuel : nat)
    (command description safety systemPrompt : string) (st : State)
    (f : string -> gmap string Any -> World -> bool * World) :
  let st0 := snd (call (option_map (fun g => g systemPrompt)
                          (OnShellSubagentStart a)) st) in
  OnSubagentToolCall a = Some f ->
  fst (f "run_shell" (initialArgs command description safety) (world st0)) = false ->
  fst (ExecuteShellSubagent fuel a command description safety systemPrompt st)
  = Some cancelledResult /\
  since st (snd (ExecuteShellSubagent fuel a command description safety
                   systemPrompt st))
  = [EvOnSubagentToolCall "run_shell" (initialArgs command description safety)
       None false].
Proof.
  intros st0 Hhook Hno. unfold ExecuteShellSubagent.
  fold (initialArgs command description safety).
  pose proof (call_trace (option_map (fun g => g systemPrompt)
                            (OnShellSubagentStart a)) st) as Hstart.
  fold st0 in Hstart.
  assert (Estart : call (option_map (fun g => g systemPrompt)
                           (OnShellSubagentStart a)) st = (tt, st0)).
  { unfold st0. now destruct (call _ st) as [[] st0']. }
  rewrite (bind_run _ _ _ _ _ Estart).
  pose proof (subagentDeclined_spec a (initialArgs command description safety) st0)
    as Hd.
  rewrite Hhook, Hno in Hd. destruct Hd as (Hstop & Etr). cbn [negb] in Hstop.
  rewrite (bind_run _ _ _ _ _
             (surjective_pairing
                (subagentDeclined a (initialArgs command description safety) st0))).
  rewrite Hstop.
  set (st1 := snd (subagentDeclined a (initialArgs command description safety) st0))
    in *.
  pose proof (call_trace (option_map (fun g => g cancelledResult)
                            (OnShellSubagentEnd a)) st1) as Hend.
  unfold bind, ret.
  destruct (call (option_map (fun g => g cancelledResult) (OnShellSubagentEnd a)) st1)
    as [[] st2]. cbn [fst snd] in *.
  split; [reflexivity |]. apply since_app. now rewrite Hend, Etr, Hstart.
Qed.

(** A model round-trip, with the state it leaves. *)
Lemma modelCall_run (ask : list Message -> World -> (Message + error) * World)
    (msgs : list Message) (st : State) :
  (emit (EvChatCompletion msgs) ;;; liftW (ask msgs)) st
  = (fst (ask msgs (world st)),
     mkState (snd (ask msgs (world st))) (defaultExecutor st)
       (trace st ++ [EvChatCompletion msgs])).
Proof.
  unfold bind, emit, liftW. cbn [world defaultExecutor trace].
  now destruct (ask msgs (world st)).
Qed.

(** The model never ends the subagent: every response is without tool
    calls and, when it is text, without the marker. *)
Definition neverDone : Prop :=
  forall (h : list Message) (w : World),
  exists msg w',
    ChatCompletionWithTools h w = (inl msg, w') /\ ToolCalls msg = [] /\
    forall c, Content msg = AnyString c -> Contains c "{{SHELL_DONE}}" = false.

(** X18.  The loop of the shell subagent has no turn budget.  With a
    model that keeps answering without tool calls and without the marker
    "{{SHELL_DONE}}" it is still running after any number of turns: after
    [n] turns it has made [n] model round-trips and has not returned. *)
Theorem subagentLoop_has_no_budget (a : Agent) :
  neverDone ->
  forall (n : nat) (msgs : list Message) (st : State),
    fst (subagentLoop n a msgs st) = None /\
    modelCalls (since st (snd (subagentLoop n a msgs st))) = n.
Proof.
  intros Hmodel.
  assert (Hgen : forall (n : nat) (msgs : list Message) (st : State),
            fst (subagentLoop n a msgs st) = None /\
            exists evs, trace (snd (subagentLoop n a msgs st)) = trace st ++ evs /\
                        modelCalls evs = n).
  { induction n as [|n IH]; intros msgs st.
    { split; [reflexivity |]. exists []. cbn. now rewrite app_nil_r. }
    cbn [subagentLoop].
    rewrite (bind_run _ _ _ _ _ (modelCall_run ChatCompletionWithTools msgs st)).
    destruct (Hmodel msgs (world st)) as (msg & w' & -> & Hcalls & Hmarker).
    cbn [fst snd]. rewrite Hcalls. cbn [List.length Nat.eqb].
    set (st1 := mkState w' (defaultExecutor st) (trace st ++ [EvChatCompletion msgs])).
    destruct (IH (msgs ++ [msg]) st1) as (Hnone & evs & Etr & Hcount).
    assert (Hstep : fst (subagentLoop n a (msgs ++ [msg]) st1) = None /\
                    exists evs0,
                      trace (snd (subagentLoop n a (msgs ++ [msg]) st1))
                      = trace st ++ evs0 /\ modelCalls evs0 = S n).
    { split; [exact Hnone |]. exists (EvChatCompletion msgs :: evs).
      split; [rewrite Etr; unfold st1; cbn [trace]; now rewrite <- app_assoc |].
      now rewrite modelCalls_cons_model, Hcount. }
    destruct (Content msg) as [| b | z | c | l | m] eqn:Econtent; try exact Hstep.
    now rewrite (Hmarker c eq_refl). }
  intros n msgs st. destruct (Hgen n msgs st) as (Hnone & evs & Etr & Hcount).
  split; [exact Hnone |]. now rewrite (since_app _ _ _ Etr).
Qed.

End SubagentFacts.

(** ** [Chat] of the marker revision *)

Section MarkerChatFacts.
Context `{Unicode} `{Platform} `{Host}.
Import MarkerRunner MarkerChat.

(** The tool loop of this revision only ever appends to the history it
    is given. *)
Lemma runToolCalls_appends (fuel : nat) (a : Agent) (tcs : list ToolCall) :
  forall (taskMsgs : list Message) (st : State) (cancelled : bool)
         (msgs' : list Message),
  fst (runToolCalls fuel a tcs taskMsgs st) = Some (cancelled, msgs') ->
  exists results,
    msgs' = taskMsgs ++ results /\ Forall isToolMessage results /\
    List.length results <= List.length tcs /\
    (cancelled = true -> List.length results < List.length tcs).
Proof.
  induction tcs as [|tc rest IH]; intros taskMsgs st cancelled msgs' Hrun.
  { cbn in Hrun. injection Hrun as <- <-. exists []. rewrite app_nil_r.
    split; [reflexivity |]. split; [constructor |]. split; [cbn; lia | discriminate]. }
  cbn [runToolCalls] in Hrun. cbv zeta in Hrun. unfold bind at 1 in Hrun.
  destruct (declined a _ _ st) as [[] st1].
  { cbn in Hrun. injection Hrun as <- <-. exists []. rewrite app_nil_r.
    split; [reflexivity |]. split; [constructor |]. cbn. split; [lia | intros _; lia]. }
  unfold bind at 1 in Hrun.
  match type of Hrun with
  | context [let (_, _) := ?c st1 in _] => destruct (c st1) as [[result |] st2]
  end.
  2:{ discriminate Hrun. }
  unfold bind at 1 in Hrun.
  destruct (call _ st2) as [[] st3].
  destruct (IH _ st3 cancelled msgs' Hrun) as (results & -> & Ftool & Hlen & Hcut).
  exists (mkMessage "tool" (AnyString (Output result)) [] (ID tc) :: results).
  split; [now rewrite <- app_assoc |].
  split; [constructor; [now split | exact Ftool] |].
  cbn [List.length]. split; [lia |]. intros E. specialize (Hcut E). lia.
Qed.

(** X19.  One turn of [Chat] in the revision without turn budgets.  When
    the approval hook refuses a call of the batch, [Chat] returns the empty
    text without an error and the history is cut back to the checkpoint:
    the message of the model is gone, and so are the tool messages that
    the calls before the refused one had already appended.  A response
    without tool calls ends [Chat] with its content when that is a string
    and with the empty text otherwise, never with an error. *)
Theorem marker_chat_turn (a : Agent) (fuel : nat) (msgs : list Message)
    (st : State) (msg : Message) (w1 : World) :
  ChatCompletion msgs (world st) = (inl msg, w1) ->
  (forall msgs' st2,
     ToolCalls msg <> [] ->
     runToolCalls fuel a (ToolCalls msg) (msgs ++ [msg]) (afterModel msgs st)
     = (Some (true, msgs'), st2) ->
     chatLoop (S fuel) a msgs st = (Some ("", None, msgs), st2) /\
     exists results,
       msgs' = msgs ++ msg :: results /\ Forall isToolMessage results /\
       List.length results < List.length (ToolCalls msg)) /\
  (ToolCalls msg = [] ->
   fst (chatLoop (S fuel) a msgs st)
   = Some (match Content msg with AnyString content => content | _ => "" end,
           None, msgs ++ [msg])).
Proof.
  intros Emodel.
  assert (Estart : (emit (EvChatCompletion msgs) ;;; liftW (ChatCompletion msgs)) st
                   = (inl msg, afterModel msgs st)).
  { rewrite modelCall_run. unfold afterModel. now rewrite Emodel. }
  split.
  - intros msgs' st2 Hcalls Hrun. cbn [chatLoop].
    rewrite (bind_run _ _ _ _ _ Estart).
    destruct (ToolCalls msg) as [|tc tcs] eqn:Etcs; [contradiction |].
    cbn [List.length Nat.eqb]. rewrite <- Etcs in *.
    rewrite (bind_run _ _ _ _ _ Hrun).
    destruct (runToolCalls_appends fuel a (ToolCalls msg) (msgs ++ [msg])
                (afterModel msgs st) true msgs')
      as (results & -> & Ftool & _ & Hcut); [now rewrite Hrun |].
    split.
    + unfold ret. f_equal. f_equal.
      rewrite length_app. cbn [List.length].
      replace (List.length msgs + 1 - 1) with (List.length msgs) by lia.
      rewrite <- app_assoc. now rewrite take_app_length.
    + exists results. rewrite <- app_assoc. split; [reflexivity |].
      split; [exact Ftool |]. specialize (Hcut eq_refl).
      rewrite Etcs in Hcut. exact Hcut.
  - intros Etcs. cbn [chatLoop]. rewrite (bind_run _ _ _ _ _ Estart).
    rewrite Etcs. cbn [List.length Nat.eqb]. unfold bind, ret.
    match goal with
    | |- context [let (_, _) := ?c in _] => now destruct c as [[] st1]
    end.
Qed.

End MarkerChatFacts.

(** ** Making an agent *)

Section SettingsFacts.
Context `{Unicode} `{Platform} `{Host}.
Import Sandbox Executor.

Lemma Validate_run (c : Settings.Config) :
  Settings.APIKey c <> "" ->
  Settings.Validate c
  = (None,
     Settings.mkConfig (Settings.APIKey c)
       (if String.eqb (Settings.BaseURL c) "" then "https://openrouter.ai/api/v1"
        else Settings.BaseURL c)
       (if String.eqb (Settings.Model c) "" then "anthropic/claude-opus-4.5"
        else Settings.Model c)
       (Settings.Tools c) (Settings.SystemPrompt c)
       (if (Settings.HTTPTimeout c =? 0)%Z then (30 * Settings.Second)%Z
        else Settings.HTTPTimeout c)
       (Settings.PreTasks c) (Settings.Sandbox c)).
Proof.
  intros Hkey. apply String.eqb_neq in Hkey. unfold Settings.Validate.
  rewrite Hkey. destruct c as [k b m t s h p sb]. cbn.
  destruct (String.eqb b ""); cbn; destruct (String.eqb m ""); cbn;
    now destruct (h =? 0)%Z.
Qed.

Lemma Validate_again (c : Settings.Config) :
  Settings.APIKey c <> "" ->
  Settings.Validate (snd (Settings.Validate c)) = (None, snd (Settings.Validate c)).
Proof.
  intros Hkey. rewrite (Validate_run c Hkey). cbn [snd].
  rewrite Validate_run by exact Hkey.
  cbn [Settings.APIKey Settings.BaseURL Settings.Model Settings.Tools
       Settings.SystemPrompt Settings.HTTPTimeout Settings.PreTasks
       Settings.Sandbox].
  assert (Eb : forall b : string,
            (if String.eqb (if String.eqb b "" then "https://openrouter.ai/api/v1" else b) ""
             then "https://openrouter.ai/api/v1"
             else if String.eqb b "" then "https://openrouter.ai/api/v1" else b)
            = (if String.eqb b "" then "https://openrouter.ai/api/v1" else b)).
  { intros b. destruct (String.eqb b "") eqn:E; [reflexivity | now rewrite E]. }
  assert (Em : forall m : string,
            (if String.eqb (if String.eqb m "" then "anthropic/claude-opus-4.5" else m) ""
             then "anthropic/claude-opus-4.5"
             else if String.eqb m "" then "anthropic/claude-opus-4.5" else m)
            = (if String.eqb m "" then "anthropic/claude-opus-4.5" else m)).
  { intros m. destruct (String.eqb m "") eqn:E; [reflexivity | now rewrite E]. }
  assert (Eh : forall h : Z,
            (if ((if (h =? 0)%Z then (30 * Settings.Second)%Z else h) =? 0)%Z
             then (30 * Settings.Second)%Z
             else if (h =? 0)%Z then (30 * Settings.Second)%Z else h)
            = (if (h =? 0)%Z then (30 * Settings.Second)%Z else h)).
  { intros h. destruct (h =? 0)%Z eqn:E; [reflexivity | now rewrite E]. }
  now rewrite Eb, Em, Eh.
Qed.

(** X20.  [Validate] fails exactly when the API key is empty, and then it
    leaves the configuration as it was.  Otherwise it succeeds and fills in
    the base URL, the model and the timeout where they were empty or zero:
    afterwards none of the three is empty or zero, what the caller had set
    is kept (a negative timeout too), and no other field is touched.
    Validating a second time changes nothing. *)
Theorem Validate_defaults (c : Settings.Config) :
  let c' := snd (Settings.Validate c) in
  (Settings.APIKey c = "" <-> fst (Settings.Validate c) <> None) /\
  (Settings.APIKey c = "" ->
   Settings.Validate c = (Some Settings.ErrMissingAPIKey, c)) /\
  (Settings.APIKey c <> "" ->
   Settings.BaseURL c' <> "" /\ Settings.Model c' <> "" /\
   Settings.HTTPTimeout c' <> 0%Z /\
   (Settings.BaseURL c <> "" -> Settings.BaseURL c' = Settings.BaseURL c) /\
   (Settings.Model c <> "" -> Settings.Model c' = Settings.Model c) /\
   (Settings.HTTPTimeout c <> 0%Z -> Settings.HTTPTimeout c' = Settings.HTTPTimeout c)) /\
  (Settings.APIKey c' = Settings.APIKey c /\ Settings.Tools c' = Settings.Tools c /\
   Settings.SystemPrompt c' = Settings.SystemPrompt c /\
   Settings.PreTasks c' = Settings.PreTasks c /\
   Settings.Sandbox c' = Settings.Sandbox c) /\
  Settings.Validate c' = (fst (Settings.Validate c), c').
Proof.
  intros c'. unfold c'. clear c'.
  destruct (String.eqb_spec (Settings.APIKey c) "") as [Hkey | Hkey].
  - assert (E : Settings.Validate c = (Some Settings.ErrMissingAPIKey, c)).
    { unfold Settings.Validate. now rewrite Hkey. }
    rewrite E. cbn [fst snd].
    split; [split; [discriminate | easy] |]. split; [easy |].
    split; [intros Hne; now contradiction Hne |]. split; [easy | exact E].
  - rewrite (Validate_run c Hkey). cbn [fst snd].
    split; [split; [intros E; now contradiction Hkey | intros E; now contradiction E] |].
    split; [intros E; now contradiction Hkey |].
    split.
    { intros _. cbn.
      destruct (String.eqb_spec (Settings.BaseURL c) ""),
        (String.eqb_spec (Settings.Model c) ""),
        (Z.eqb_spec (Settings.HTTPTimeout c) 0);
        repeat split; try discriminate; try assumption; try reflexivity;
        try (intros Hne; now contradiction Hne). }
    split; [now repeat split |].
    pose proof (Validate_again c Hkey) as Hagain.
    now rewrite (Validate_run c Hkey) in Hagain.
Qed.

(** No path list was given. *)
Definition noPaths (s : Settings.SandboxSettings) : Prop :=
  Settings.ReadPaths s = None /\ Settings.WritePaths s = None /\
  Settings.ExecPaths s = None.

(** X21.  [NewAgent] fails exactly when the API key is empty, and then it
    has not touched the package-level executor.  Otherwise the agent holds
    the validated configuration, its client holds the same one (the second
    validation in [NewClient] changes nothing) with a timeout that is not
    zero, and its history is the system prompt alone, or empty when there
    is none; [Reset] brings any later history back to that.  The sandbox is
    initialised from the caller's settings only if at least one of the
    three path lists is not nil.  With all three nil the defaults replace
    the settings as a whole, so that on macOS with [sandbox-exec] the
    sandbox is on even if the caller had set [Enabled] to false. *)
Theorem NewAgent_outcomes (config : Settings.Config) (st : State) :
  (Settings.APIKey config = "" ->
   Settings.NewAgent config st = (inl Settings.ErrMissingAPIKey, st)) /\
  (Settings.APIKey config <> "" ->
   exists a : Settings.Agent,
     fst (Settings.NewAgent config st) = inr a /\
     Settings.config a = snd (Settings.Validate config) /\
     Settings.clientConfig (Settings.client a) = Settings.config a /\
     Settings.Timeout (Settings.client a) = Settings.HTTPTimeout (Settings.config a) /\
     Settings.Timeout (Settings.client a) <> 0%Z /\
     Settings.Messages a = Settings.initialMsgs config /\
     (forall l, Settings.Messages
                  (Settings.Reset
                     (Settings.mkAgent (Settings.config a) (Settings.client a) l))
                = Settings.Messages a) /\
     (noPaths (Settings.Sandbox config) ->
      fst (GetExecutor (snd (Settings.NewAgent config st)))
      = NewShellExecutor DefaultSandboxConfig) /\
     (noPaths (Settings.Sandbox config) ->
      GOOS = "darwin" -> LookPath "sandbox-exec" = true ->
      fst (IsSandboxEnabled (snd (Settings.NewAgent config st))) = true) /\
     (~ noPaths (Settings.Sandbox config) ->
      fst (GetExecutor (snd (Settings.NewAgent config st)))
      = NewShellExecutor (Settings.asSandboxConfig (Settings.Sandbox config)))).
Proof.
  split.
  { intros Hkey. unfold Settings.NewAgent, Settings.Validate. now rewrite Hkey. }
  intros Hkey. unfold Settings.NewAgent, Settings.NewClient.
  rewrite (Validate_run config Hkey).
  set (c' := Settings.mkConfig _ _ _ _ _ _ _ _).
  assert (Hkey' : Settings.APIKey c' <> "") by exact Hkey.
  assert (Hagain : Settings.Validate c' = (None, c')).
  { pose proof (Validate_again config Hkey) as Hagain.
    now rewrite (Validate_run config Hkey) in Hagain. }
  rewrite Hagain.
  eexists. unfold bind, ret, InitSandbox. cbn [fst snd].
  split; [reflexivity |].
  cbn [Settings.config Settings.client Settings.clientConfig Settings.Timeout
       Settings.Messages Settings.msgs Settings.Reset].
  split; [reflexivity |]. split; [reflexivity |]. split; [reflexivity |].
  split.
  { unfold c'. cbn. destruct (Z.eqb_spec (Settings.HTTPTimeout config) 0);
      [discriminate | assumption]. }
  split; [reflexivity |]. split; [reflexivity |].
  unfold noPaths, IsSandboxEnabled, GetExecutor, bind. cbn [defaultExecutor fst snd].
  change (Settings.Sandbox c') with (Settings.Sandbox config).
  split; [| split].
  - intros (-> & -> & ->). reflexivity.
  - intros (-> & -> & ->) Hos Hpath.
    unfold NewShellExecutor, DefaultSandboxConfig, sandboxAvailable.
    cbn [Enabled]. rewrite Hos, Hpath. reflexivity.
  - intros Hsome.
    destruct (Settings.ReadPaths (Settings.Sandbox config)),
      (Settings.WritePaths (Settings.Sandbox config)),
      (Settings.ExecPaths (Settings.Sandbox config)); try reflexivity.
    now contradiction Hsome.
Qed.

End SettingsFacts.

(** ** The command that runs Python code *)

Section PythonFacts.
Import Python.

(** The characters base64 text is made of. *)
Definition base64Char (c : ascii) : bool :=
  let n := N_of_ascii c in
  ((65 <=? n) && (n <=? 90) || (97 <=? n) && (n <=? 122)
   || (48 <=? n) && (n <=? 57) || (n =? 43) || (n =? 47) || (n =? 61))%N.

Lemma digit_base64 (n : N) : base64Char (digit n) = true.
Proof.
  unfold digit. generalize (N.to_nat n). intros k.
  do 64 (destruct k as [|k]; [reflexivity |]). reflexivity.
Qed.

Lemma digit_of_nat (k : nat) :
  k < 64 ->
  value (digit (N.of_nat k)) = N.of_nat k /\
  Ascii.eqb (digit (N.of_nat k)) padding = false.
Proof.
  intros Hk. unfold digit. rewrite Nat2N.id.
  do 64 (destruct k as [|k]; [split; reflexivity |]). lia.
Qed.

Lemma digit_value (n : N) :
  (n < 64)%N -> value (digit n) = n /\ Ascii.eqb (digit n) padding = false.
Proof.
  intros Hn. rewrite <- (N2Nat.id n). apply digit_of_nat. lia.
Qed.

(** The number of times [c] occurs in [s]. *)
Fixpoint occurrences (c : ascii) (s : string) : nat :=
  match s with
  | EmptyString => 0
  | String a s' => (if Ascii.eqb a c then 1 else 0) + occurrences c s'
  end.

Lemma occurrences_append (c : ascii) (s1 s2 : string) :
  occurrences c (s1 +:+ s2) = occurrences c s1 + occurrences c s2.
Proof.
  induction s1 as [|a s1 IH]; [reflexivity |]. cbn [String.append occurrences].
  rewrite IH. lia.
Qed.

(** Induction on a string three bytes at a time. *)
Lemma string_ind3 (P : string -> Prop) :
  P EmptyString ->
  (forall a, P (String a EmptyString)) ->
  (forall a b, P (String a (String b EmptyString))) ->
  (forall a b c s, P s -> P (String a (String b (String c s)))) ->
  forall s, P s.
Proof.
  intros H0 H1 H2 H3. fix IH 1. intros [|a [|b [|c s]]].
  - exact H0.
  - apply H1.
  - apply H2.
  - apply H3, IH.
Qed.

Lemma EncodeToString_base64 (c : ascii) (code : string) :
  base64Char c = false -> occurrences c (EncodeToString code) = 0.
Proof.
  intros Hc.
  assert (Hd : forall n, (if Ascii.eqb (digit n) c then 1 else 0) = 0).
  { intros n. destruct (Ascii.eqb_spec (digit n) c) as [E |]; [| reflexivity].
    rewrite <- E, digit_base64 in Hc. discriminate Hc. }
  assert (Hp : (if Ascii.eqb padding c then 1 else 0) = 0).
  { destruct (Ascii.eqb_spec padding c) as [E |]; [| reflexivity].
    rewrite <- E in Hc. discriminate Hc. }
  induction code as [| a | a b | a b d s IH] using string_ind3;
    cbn [EncodeToString occurrences]; rewrite ?Hd, ?Hp, ?IH; reflexivity.
Qed.

Lemma EncodeToString_length (code : string) :
  String.length (EncodeToString code) = 4 * ((String.length code + 2) / 3).
Proof.
  induction code as [| a | a b | a b d s IH] using string_ind3;
    cbn [EncodeToString String.length]; try reflexivity.
  rewrite IH.
  replace (S (S (S (String.length s))) + 2) with (1 * 3 + (String.length s + 2)) by lia.
  rewrite Nat.div_add_l by lia. lia.
Qed.

(** X22.  The command built for Python code has the same frame whatever
    the code is.  The code goes into it as base64 text only: every
    character of the encoded text is a letter, a digit, "+", "/" or "=",
    four for each three bytes of code.  So the command always has exactly
    five line ends and eight single quotes: no code can end the quoted
    literal or the here-document early, or add a line to the script. *)
Theorem pythonCommand_frame (code : string) :
  pythonCommand code
  = "python3 - <<'PY'" +:+ GoStrings.nl +:+ "import base64" +:+ GoStrings.nl
    +:+ "code = base64.b64decode('" +:+ EncodeToString code +:+ "')" +:+ GoStrings.nl
    +:+ "exec(compile(code, '<bono>', 'exec'))" +:+ GoStrings.nl
    +:+ "PY" +:+ GoStrings.nl /\
  (forall c, base64Char c = false -> occurrences c (EncodeToString code) = 0) /\
  String.length (EncodeToString code) = 4 * ((String.length code + 2) / 3) /\
  occurrences (ascii_of_nat 10) (pythonCommand code) = 5 /\
  occurrences "'"%char (pythonCommand code) = 8.
Proof.
  assert (Eframe : pythonCommand code
    = "python3 - <<'PY'" +:+ GoStrings.nl +:+ "import base64" +:+ GoStrings.nl
      +:+ "code = base64.b64decode('" +:+ EncodeToString code +:+ "')" +:+ GoStrings.nl
      +:+ "exec(compile(code, '<bono>', 'exec'))" +:+ GoStrings.nl
      +:+ "PY" +:+ GoStrings.nl).
  { unfold pythonCommand, pythonCommand_sb, GoStrings.String_, GoStrings.WriteString,
      GoStrings.newBuilder. cbn [GoStrings.buf]. cbn [String.append].
    rewrite !append_assoc. reflexivity. }
  split; [exact Eframe |].
  split; [intros c Hc; now apply EncodeToString_base64 |].
  split; [apply EncodeToString_length |].
  rewrite Eframe.
  split.
  - rewrite !occurrences_append.
    rewrite (EncodeToString_base64 (ascii_of_nat 10) code eq_refl). reflexivity.
  - rewrite !occurrences_append.
    rewrite (EncodeToString_base64 "'"%char code eq_refl). reflexivity.
Qed.

Lemma byte_bound (a : ascii) : (N_of_ascii a < 256)%N.
Proof. apply N_ascii_bounded. Qed.

(** Four digits of six bits make up a number below [2^24] again. *)
Lemma digits_recompose (n : N) :
  (n < 16777216)%N ->
  (n / 262144 mod 64 * 262144 + n / 4096 mod 64 * 4096 + n / 64 mod 64 * 64
   + n mod 64 = n)%N.
Proof.
  intros Hn.
  pose proof (N.div_mod n 64 ltac:(lia)) as E1.
  pose proof (N.div_mod (n / 64) 64 ltac:(lia)) as E2.
  pose proof (N.div_mod (n / 4096) 64 ltac:(lia)) as E3.
  rewrite N.Div0.div_div in E2. change (64 * 64)%N with 4096%N in E2.
  replace (n / 4096 / 64)%N with (n / 262144)%N in E3
    by (rewrite N.Div0.div_div; reflexivity).
  assert (H3 : (n / 262144 < 64)%N) by (apply N.Div0.div_lt_upper_bound; lia).
  rewrite (N.mod_small (n / 262144)) by exact H3.
  generalize dependent (n mod 64)%N. generalize dependent (n / 64 mod 64)%N.
  generalize dependent (n / 4096 mod 64)%N. generalize dependent (n / 262144)%N.
  generalize dependent (n / 4096)%N. generalize dependent (n / 64)%N.
  intros. lia.
Qed.

(** Three bytes are read back from the number they make up. *)
Lemma bytes_of_value (x y z : N) :
  (x < 256)%N -> (y < 256)%N -> (z < 256)%N ->
  ((x * 65536 + y * 256 + z) / 65536 mod 256 = x /\
   (x * 65536 + y * 256 + z) / 256 mod 256 = y /\
   (x * 65536 + y * 256 + z) mod 256 = z)%N.
Proof.
  intros Hx Hy Hz. repeat split.
  - replace (x * 65536 + y * 256 + z)%N with (y * 256 + z + x * 65536)%N by lia.
    rewrite N.div_add by lia. rewrite (N.div_small (y * 256 + z)) by lia.
    now rewrite N.mod_small by lia.
  - replace (x * 65536 + y * 256 + z)%N with (z + (x * 256 + y) * 256)%N by lia.
    rewrite N.div_add by lia. rewrite (N.div_small z) by lia.
    replace (0 + (x * 256 + y))%N with (y + x * 256)%N by lia.
    rewrite N.Div0.mod_add. now rewrite N.mod_small by lia.
  - replace (x * 65536 + y * 256 + z)%N with (z + (x * 256 + y) * 256)%N by lia.
    rewrite N.Div0.mod_add. now rewrite N.mod_small by lia.
Qed.

Lemma low_digit_zero (n : N) : ((n * 256) mod 64 = 0)%N.
Proof.
  replace (n * 256)%N with (n * 4 * 64)%N by lia. apply N.Div0.mod_mul.
Qed.

Lemma low_digits_zero (x : N) :
  ((x * 65536) / 64 mod 64 = 0 /\ (x * 65536) mod 64 = 0)%N.
Proof.
  split.
  - replace (x * 65536)%N with (x * 1024 * 64)%N by lia.
    rewrite N.div_mul by lia.
    replace (x * 1024)%N with (x * 16 * 64)%N by lia. apply N.Div0.mod_mul.
  - replace (x * 65536)%N with (x * 1024 * 64)%N by lia. apply N.Div0.mod_mul.
Qed.

(** X23.  Decoding the encoded text by RFC 4648 gives back the code, byte
    for byte: the text between the quotes of the command stands for the
    code that was given and for no other. *)
Theorem b64decode_EncodeToString (code : string) :
  b64decode (EncodeToString code) = code.
Proof.
  induction code as [| a | a b | a b c s IH] using string_ind3.
  - reflexivity.
  - cbn [EncodeToString]. cbv zeta.
    pose proof (byte_bound a) as Ha.
    set (x := N_of_ascii a) in *. set (val := (x * 65536)%N).
    assert (H1 : (val / 262144 mod 64 < 64)%N) by (apply N.mod_lt; lia).
    assert (H2 : (val / 4096 mod 64 < 64)%N) by (apply N.mod_lt; lia).
    destruct (digit_value _ H1) as (V1 & P1). destruct (digit_value _ H2) as (V2 & P2).
    cbn [b64decode]. cbv zeta. rewrite V1, V2.
    change (Ascii.eqb padding padding) with true. cbv iota.
    change (value padding) with 0%N.
    pose proof (digits_recompose val ltac:(unfold val; lia)) as Hval.
    destruct (low_digits_zero x) as (Z3 & Z4). fold val in Z3, Z4.
    rewrite Z3, Z4 in Hval.
    replace (val / 262144 mod 64 * 262144 + val / 4096 mod 64 * 4096 + 0 * 64 + 0)%N
      with val by lia.
    destruct (bytes_of_value x 0 0 Ha ltac:(lia) ltac:(lia)) as (B1 & _).
    replace (x * 65536 + 0 * 256 + 0)%N with val in B1 by (unfold val; lia).
    rewrite B1. unfold x. now rewrite ascii_N_embedding.
  - cbn [EncodeToString]. cbv zeta.
    pose proof (byte_bound a) as Ha. pose proof (byte_bound b) as Hb.
    set (x := N_of_ascii a) in *. set (y := N_of_ascii b) in *.
    set (val := (x * 65536 + y * 256)%N).
    assert (H1 : (val / 262144 mod 64 < 64)%N) by (apply N.mod_lt; lia).
    assert (H2 : (val / 4096 mod 64 < 64)%N) by (apply N.mod_lt; lia).
    assert (H3 : (val / 64 mod 64 < 64)%N) by (apply N.mod_lt; lia).
    destruct (digit_value _ H1) as (V1 & P1). destruct (digit_value _ H2) as (V2 & P2).
    destruct (digit_value _ H3) as (V3 & P3).
    cbn [b64decode]. cbv zeta. rewrite V1, V2, V3, P3.
    change (Ascii.eqb padding padding) with true. cbv iota.
    change (value padding) with 0%N.
    pose proof (digits_recompose val ltac:(unfold val; lia)) as Hval.
    assert (Z4 : (val mod 64 = 0)%N).
    { unfold val. replace (x * 65536 + y * 256)%N with ((x * 256 + y) * 256)%N by lia.
      apply low_digit_zero. }
    rewrite Z4 in Hval.
    replace (val / 262144 mod 64 * 262144 + val / 4096 mod 64 * 4096
             + val / 64 mod 64 * 64 + 0)%N with val by lia.
    destruct (bytes_of_value x y 0 Ha Hb ltac:(lia)) as (B1 & B2 & _).
    replace (x * 65536 + y * 256 + 0)%N with val in B1, B2 by (unfold val; lia).
    rewrite B1, B2. unfold x, y. now rewrite !ascii_N_embedding.
  - cbn [EncodeToString]. cbv zeta.
    pose proof (byte_bound a) as Ha. pose proof (byte_bound b) as Hb.
    pose proof (byte_bound c) as Hc.
    set (x := N_of_ascii a) in *. set (y := N_of_ascii b) in *.
    set (z := N_of_ascii c) in *.
    set (val := (x * 65536 + y * 256 + z)%N).
    assert (H1 : (val / 262144 mod 64 < 64)%N) by (apply N.mod_lt; lia).
    assert (H2 : (val / 4096 mod 64 < 64)%N) by (apply N.mod_lt; lia).
    assert (H3 : (val / 64 mod 64 < 64)%N) by (apply N.mod_lt; lia).
    assert (H4 : (val mod 64 < 64)%N) by (apply N.mod_lt; lia).
    destruct (digit_value _ H1) as (V1 & P1). destruct (digit_value _ H2) as (V2 & P2).
    destruct (digit_value _ H3) as (V3 & P3). destruct (digit_value _ H4) as (V4 & P4).
    cbn [b64decode]. cbv zeta. rewrite V1, V2, V3, V4, P3, P4, IH.
    rewrite (digits_recompose val ltac:(unfold val; lia)).
    destruct (bytes_of_value x y z Ha Hb Hc) as (B1 & B2 & B3).
    fold val in B1, B2, B3. rewrite B1, B2, B3.
    unfold x, y, z. now rewrite !ascii_N_embedding.
Qed.

End PythonFacts.

(* ===================================================================== *)
(** * Part V: the further properties at work on scripted runs             *)
(* ===================================================================== *)

Module Examples.
Import Sandbox Executor Tools Scenarios.

(** A host on which every confined run succeeds and prints "done". *)
Definition calm : Host :=
  {| World := nat;
     sandbox_exec := fun _ _ w => (("done", None, "0.1"), w);
     sh := fun _ w => (("", None, "0.0"), w);
     ChatCompletion := fun _ w => (inl (text "ok"), S w);
     ChatCompletionWithTools := fun _ w => (inl (text "ok"), S w);
     Unmarshal := fun s => <["path" := AnyString s]> ∅;
     fileTool := fun _ _ w => (mkToolResult true "ok" "ok" None None, w);
     pythonCommand := fun code => code;
     TrimSpace := fun s => s |}.

Section Runs.
#[local] Existing Instance asciiText.

(** *** Under confinement *)

Section Confined.
#[local] Existing Instance macOS.
#[local] Existing Instance quietHost.

Lemma unknown_tool_example :
  ExecuteTool "delete_file" touchArgs fresh
  = (mkToolResult false "" "fail: unknown tool"
       (Some (ErrUnknownTool "delete_file")) None, fresh).
Proof. apply (ExecuteTool_unknown "delete_file" touchArgs fresh); discriminate. Defined.

Lemma stays_confined_example :
  confined fresh tmpOnly /\
  since fresh (snd (ExecuteTool "run_shell" touchArgs fresh))
  = [EvSandboxExec (generateProfile tmpOnly) (argString touchArgs "command")].
Proof.
  assert (Hc : confined fresh tmpOnly) by reflexivity.
  split; [exact Hc |].
  exact (proj1 (ExecuteTool_stays_confined "run_shell" touchArgs fresh tmpOnly Hc)
           eq_refl).
Defined.

Lemma escape_example :
  confined fresh tmpOnly /\
  since fresh (snd (ExecuteShellWithSandbox touch None fresh))
  = [EvSandboxExec (generateProfile tmpOnly) touch] /\
  since fresh (snd (ExecuteShellWithSandbox touch approvingFallback fresh))
  = [EvSandboxExec (generateProfile tmpOnly) touch;
     EvOnSandboxFallback touch "write access denied" true;
     EvSh touch].
Proof.
  assert (Hc : confined fresh tmpOnly) by reflexivity.
  split; [exact Hc |]. split.
  - exact (proj1 (proj2 (ExecuteShellWithSandbox_escape_needs_approval touch None
                           fresh tmpOnly Hc)) eq_refl).
  - unfold approvingFallback.
    destruct (ExecuteShellWithSandbox_escape_needs_approval touch
                (Some (fun _ _ (w : World) => (true, w))) fresh tmpOnly Hc)
      as (_ & _ & Hdenied).
    destruct (Hdenied eq_refl (fun _ _ (w : World) => (true, w)) eq_refl) as (_ & ->).
    reflexivity.
Defined.

(** *** A path that carries rule text, and paths that do not *)

(** One read path, no write path, the network denied; the read path
    closes its rule and goes on with rules of its own. *)
Definition injected : SandboxConfig :=
  mkSandboxConfig true false
    ["/tmp" +:+ dq +:+ "))" +:+ nl
     +:+ "(deny default)" +:+ nl
     +:+ "(allow network*)" +:+ nl
     +:+ "(allow file-write* (subpath " +:+ dq +:+ "/" +:+ dq +:+ "))" +:+ nl
     +:+ "(allow file-read* (subpath " +:+ dq +:+ "/etc"]
    [] [] true.

Lemma injected_path_adds_rules :
  List.length (ReadPaths injected) = 1 /\
  occurs readHead (generateProfile injected) = 2 /\
  List.length (WritePaths injected) = 0 /\
  occurs writeHead (generateProfile injected) = 1 /\
  occurs "(deny default)" (generateProfile injected) = 2 /\
  AllowNetwork injected = false /\
  occurs "(allow network*)" (generateProfile injected) = 1.
Proof. repeat split; vm_compute; reflexivity. Qed.

Lemma profile_rules_example :
  Forall (fun p => parenFree p = true) (allPaths tmpOnly) /\
  occurs readHead (generateProfile tmpOnly) = 1 /\
  occurs writeHead (generateProfile tmpOnly) = 1 /\
  occurs execHead (generateProfile tmpOnly) = 2 /\
  occurs "(deny default)" (generateProfile tmpOnly) = 1 /\
  occurs "(allow network*)" (generateProfile tmpOnly) = 0 /\
  occurs "(deny network*)" (generateProfile tmpOnly) = 1.
Proof.
  assert (Hfree : Forall (fun p => parenFree p = true) (allPaths tmpOnly))
    by (repeat constructor).
  split; [exact Hfree |].
  exact (proj2 (generateProfile_one_rule_per_entry tmpOnly) Hfree).
Defined.

End Confined.

(** *** A confined run that succeeds, with a hook that says no *)

Section Notified.
#[local] Existing Instance macOS.
#[local] Existing Instance calm.

Definition ready : State := snd (InitSandbox tmpOnly (mkState (0 : World) None [])).

Definition vetoing : SandboxSubagent.Agent :=
  SandboxSubagent.mkAgent withFallback
    (Some (fun _ _ _ (w : World) => (false, w))) None.

Definition lsArgs : gmap string Any := <["command" := AnyString "ls"]> ∅.

Lemma notification_example :
  Output (fst (SandboxSubagent.executeShellWithSandbox vetoing "ls" lsArgs ready))
  = "done" /\
  Error (fst (SandboxSubagent.executeShellWithSandbox vetoing "ls" lsArgs ready))
  = None /\
  ExecMeta_ (fst (SandboxSubagent.executeShellWithSandbox vetoing "ls" lsArgs ready))
  = Some (mkExecMeta true false "") /\
  Success (fst (SandboxSubagent.executeShellWithSandbox vetoing "ls" lsArgs ready))
  = true /\
  since ready (snd (SandboxSubagent.executeShellWithSandbox vetoing "ls" lsArgs ready))
  = [EvSandboxExec (generateProfile tmpOnly) "ls";
     EvOnSubagentToolCall "run_shell" lsArgs (Some (mkExecMeta true false "")) false].
Proof.
  apply (sandboxed_hook_is_notification vetoing lsArgs ready tmpOnly "ls" "done"
           "0.1" None 0 (fun _ _ _ (w : World) => (false, w)));
    [reflexivity | reflexivity | now left | reflexivity].
Defined.

End Notified.

(** *** The shell subagent of the marker revision *)

Section Subagent.
#[local] Existing Instance linux.
#[local] Existing Instance plainHost.

(** The hook refuses every command of the subagent. *)
Definition wary : MarkerRunner.Agent :=
  MarkerRunner.mkAgent noConfig None None None None None None None
    (Some (fun _ _ (w : World) => (false, w))) None.

Definition hookless : MarkerRunner.Agent :=
  MarkerRunner.mkAgent noConfig None None None None None None None None None.

Lemma subagent_refused_example :
  fst (MarkerRunner.ExecuteShellSubagent 3 wary "rm -rf build" "clean up"
         "destructive" "You run shell commands." initial)
  = Some MarkerRunner.cancelledResult /\
  since initial
    (snd (MarkerRunner.ExecuteShellSubagent 3 wary "rm -rf build" "clean up"
            "destructive" "You run shell commands." initial))
  = [EvOnSubagentToolCall "run_shell"
       (initialArgs "rm -rf build" "clean up" "destructive") None false].
Proof.
  apply (ExecuteShellSubagent_refused wary 3 "rm -rf build" "clean up"
           "destructive" "You run shell commands." initial
           (fun _ _ (w : World) => (false, w)));
    reflexivity.
Defined.

Lemma subagent_still_running_example :
  fst (MarkerRunner.subagentLoop 25 hookless [user "Command: ls"] initial) = None /\
  modelCalls
    (since initial
       (snd (MarkerRunner.subagentLoop 25 hookless [user "Command: ls"] initial)))
  = 25.
Proof.
  apply (subagentLoop_has_no_budget hookless).
  intros h w. exists (text "ok"), (S w).
  split; [reflexivity |]. split; [reflexivity |].
  intros c E. injection E as <-. reflexivity.
Defined.

End Subagent.

(** *** A refused call in the revision without turn budgets *)

Section Checkpoint.
#[local] Existing Instance macOS.
#[local] Existing Instance toolHost.

(** The hook lets [read_file] through and nothing else. *)
Definition picky : MarkerRunner.Agent :=
  MarkerRunner.mkAgent noConfig
    (Some (fun name _ (w : World) => (String.eqb name "read_file", w)))
    None None None None None None None None.

Definition afterRefusal : State :=
  snd (MarkerRunner.runToolCalls 2 picky (ToolCalls twoCalls)
         ([user "hi"] ++ [twoCalls]) (afterModel [user "hi"] start)).

Lemma checkpoint_example :
  MarkerChat.chatLoop 3 picky [user "hi"] start
  = (Some ("", None, [user "hi"]), afterRefusal) /\
  exists results,
    [user "hi"; twoCalls; mkMessage "tool" (AnyString "ok") [] "call_1"]
    = [user "hi"] ++ twoCalls :: results /\
    Forall isToolMessage results /\
    List.length results < List.length (ToolCalls twoCalls).
Proof.
  apply (proj1 (marker_chat_turn picky 2 [user "hi"] start twoCalls 1 eq_refl)
           [user "hi"; twoCalls; mkMessage "tool" (AnyString "ok") [] "call_1"]
           afterRefusal).
  - discriminate.
  - reflexivity.
Defined.

End Checkpoint.
End Runs.
End Examples.
